(** * Easy-Scan: invoice records, the invoice store and the invoice editor

    A shallow embedding of the TypeScript sources of the Easy-Scan front end
    (services/invoiceApi.ts, lib/features/invoiceSlice.ts,
    lib/features/ocrSlice.ts, app/upload-invoice/page.tsx,
    app/invoice-detailes/page.tsx, the two pages of unnamed/part_001: the
    invoice list and the invoice detail editor, and the session code they
    run under: services/api.ts, services/authApi.ts,
    lib/features/authSlice.ts and component/ProtectedRoute.tsx), followed by
    the properties the specification states about them and by further
    properties of the same code.  [localStorage] is a finite map.

    JavaScript numbers are IEEE-754 binary64 values; they are modelled by the
    Standard Library's executable specification of binary floating point
    ([SpecFloat], precision 53, exponent bound 1024), so every arithmetic
    expression of the sources evaluates here to the value it has in
    JavaScript.  [null] and [undefined] are both [None].

    The extraction engine of the back end
    (backend/app/services/data_extractor.py) is not among the sources and is
    not modelled: the records it returns are the input of the upload page. *)

From Stdlib Require Import ZArith QArith Qpower String Ascii Bool Lia.
From Stdlib Require Import Floats.SpecFloat.
From stdpp Require Import base option list strings pretty gmap.

Local Open Scope Z_scope.
Local Open Scope string_scope.
Local Open Scope list_scope.

(* ===================================================================== *)
(** * Part I: definitions                                                  *)
(* ===================================================================== *)

(** ** JavaScript numbers and strings *)

Module JS.

(** The Number type: binary64. *)
Definition number : Type := spec_float.
Definition prec : Z := 53.
Definition emax : Z := 1024.

Definition NaN : number := S754_nan.
Definition zero : number := S754_zero false.

(** [x + y], [x - y], [x * y], [x / y]. *)
Definition add (x y : number) : number := SFadd prec emax x y.
Definition sub (x y : number) : number := SFsub prec emax x y.
Definition mul (x y : number) : number := SFmul prec emax x y.
Definition div (x y : number) : number := SFdiv prec emax x y.

(** The number denoted by an integer numeral. *)
Definition fromZ (n : Z) : number := binary_normalize prec emax n 0 false.

(** The number denoted by the decimal numeral [n * 10^-k], as a numeric
    literal, a JSON number or [parseFloat] read it: the binary64 value
    nearest to it (ties to even).  Division is correctly rounded, so for
    [|n| < 2^53] and [k <= 22], where both operands are exact, the quotient
    is that value. *)
Definition decimal (n : Z) (k : nat) : number :=
  div (fromZ n) (fromZ (10 ^ Z.of_nat k)).

Definition isNaN (x : number) : bool :=
  match x with S754_nan => true | _ => false end.


(** ToBoolean on a number: [+0], [-0] and [NaN] are falsy. *)
Definition truthy (x : number) : bool :=
  match x with
  | S754_zero _ | S754_nan => false
  | S754_infinity _ | S754_finite _ _ _ => true
  end.

(** [x || d] where [x] is a number. *)
Definition orElse (x d : number) : number := if truthy x then x else d.

(** [x || d] where [x] may be [null] or [undefined]. *)
Definition optOrElse (x : option number) (d : number) : number :=
  match x with
  | Some v => orElse v d
  | None => d
  end.

(** [x || y] where both may be [null] or [undefined]; the result is the
    first operand when it is truthy and the second otherwise. *)
Definition optOr (x y : option number) : option number :=
  match x with
  | Some v => if truthy v then Some v else y
  | None => y
  end.

(** [x === y] on numbers: [NaN] differs from itself, [+0 === -0]. *)
Definition strictEquals (x y : number) : bool := SFeqb x y.

(** SameValueZero: as [===], except that [NaN] equals [NaN]. *)
Definition sameValueZero (x y : number) : bool :=
  (isNaN x && isNaN y) || SFeqb x y.

(** [x <= y]. *)
Definition le (x y : number) : bool := SFleb x y.

(** [Math.abs]. *)
Definition Math_abs (x : number) : number := SFabs x.

(** [Math.max] of two numbers: [NaN] when either is, and [+0] is larger
    than [-0]. *)
Definition Math_max (x y : number) : number :=
  if isNaN x || isNaN y then NaN
  else if SFltb x y then y
  else if SFltb y x then x
  else match x with S754_zero true => y | _ => x end.


Definition safeInteger (n : Z) : Prop := (Z.abs n < 2 ^ 53)%Z.


(** Strings are sequences of code units; the model keeps the code units
    below 256.  ToBoolean on a string: only the empty string is falsy. *)
Definition strTruthy (s : string) : bool :=
  match s with EmptyString => false | String _ _ => true end.

(** White space and line terminators of [String.prototype.trim] (those
    below 256): TAB, LF, VT, FF, CR, SP and NBSP. *)
Definition isWhiteSpace (c : ascii) : bool :=
  let n := nat_of_ascii c in
  (Nat.leb 9 n && Nat.leb n 13) || Nat.eqb n 32 || Nat.eqb n 160.

Fixpoint trimStart (s : string) : string :=
  match s with
  | String c s' => if isWhiteSpace c then trimStart s' else s
  | EmptyString => EmptyString
  end.

Fixpoint trimEnd (s : string) : string :=
  match s with
  | String c s' =>
      match trimEnd s' with
      | EmptyString => if isWhiteSpace c then EmptyString else String c EmptyString
      | t => String c t
      end
  | EmptyString => EmptyString
  end.

Definition trim (s : string) : string := trimEnd (trimStart s).

(** [s ? String(s).trim() : null] for a string that may be [null]. *)
Definition trimmedOrNull (s : option string) : option string :=
  match s with
  | Some v => if strTruthy v then Some (trim v) else None
  | None => None
  end.

(** [s || t] and [s || null] on strings that may be [null]. *)
Definition strOr (s t : option string) : option string :=
  match s with
  | Some v => if strTruthy v then Some v else t
  | None => t
  end.

Definition strOrElse (s : option string) (d : string) : string :=
  match s with
  | Some v => if strTruthy v then v else d
  | None => d
  end.

(** [x < y] and [x > y]; both are false when an operand is [NaN]. *)
Definition lt (x y : number) : bool := SFltb x y.
Definition gt (x y : number) : bool := SFltb y x.

(** [Math.min] of two numbers: [NaN] when either is, and [-0] is smaller
    than [+0]. *)
Definition Math_min (x y : number) : number :=
  if isNaN x || isNaN y then NaN
  else if SFltb x y then x
  else if SFltb y x then y
  else match x with S754_zero false => y | _ => x end.

(** [l.length] of an array, as a number. *)
Definition length {A : Type} (l : list A) : number := fromZ (Z.of_nat (List.length l)).

(** [s.startsWith(p)] *)
Definition startsWith (s p : string) : bool := String.prefix p s.

(** [s.charCodeAt(0)] of a string that is not empty ([NaN] otherwise, which
    no caller below reaches). *)
Definition charCodeAt0 (s : string) : option nat :=
  match s with
  | String c _ => Some (nat_of_ascii c)
  | EmptyString => None
  end.

(** [l.includes(x)] on an array of strings. *)
Definition includes (l : list string) (x : string) : bool :=
  existsb (String.eqb x) l.

End JS.

Abbreviation number := JS.number.

(** ** services/invoiceApi.ts: the records exchanged with the back end *)

(** One entry of [ExtractedFields.items]; every numeric property is
    optional. *)
Module ExtractedItem.
Record t : Type := mk {
  description : option string;
  quantity : option number;
  qty : option number;
  unitPrice : option number;
  rate : option number;
  totalPrice : option number;
  amount : option number
}.
End ExtractedItem.

Module ExtractedFields.
Record t : Type := mk {
  vendor : option string;
  vendor_address : option string;
  vendor_email : option string;
  vendor_phone : option string;
  invoice_number : option string;
  invoice_date : option string;
  date : option string;
  due_date : option string;
  bill_to_name : option string;
  bill_to_address : option string;
  total : option number;
  subtotal : option number;
  tax : option number;
  taxAmount : option number;
  discount : option number;
  currency : option string;
  items : option (list ExtractedItem.t);
  purchase_order : option string
}.
End ExtractedFields.

Module OCRResponse.
Record t : Type := mk {
  success : bool;
  filename : string;
  image_path : option string;
  raw_text : string;
  extracted_fields : ExtractedFields.t
}.
End OCRResponse.

(** An element of [line_items]: [{description, qty, rate, amount}]. *)
Module LineItemData.
Record t : Type := mk {
  description : string;
  qty : number;
  rate : number;
  amount : number
}.
End LineItemData.

Module Invoice.
Record t : Type := mk {
  id : string;
  invoice_number : option string;
  vendor : option string;
  vendor_address : option string;
  vendor_email : option string;
  vendor_phone : option string;
  bill_to_name : option string;
  bill_to_address : option string;
  invoice_date : option string;
  due_date : option string;
  purchase_order : option string;
  subtotal : number;
  tax : number;
  tax_amount : option number;
  discount : number;
  total : number;
  currency : string;
  status : string;
  raw_text : option string;
  extracted_fields : option ExtractedFields.t;
  line_items : option (list LineItemData.t);
  image_path : option string;
  created_at : option string;
  updated_at : option string
}.
End Invoice.

(** The body of [POST /api/invoices].  Optional properties are options;
    [total] is the one required property. *)
Module InvoiceCreate.
Record t : Type := mk {
  invoice_number : option string;
  vendor : option string;
  vendor_address : option string;
  vendor_email : option string;
  vendor_phone : option string;
  bill_to_name : option string;
  bill_to_address : option string;
  invoice_date : option string;
  due_date : option string;
  purchase_order : option string;
  subtotal : option number;
  tax : option number;
  tax_amount : option number;
  discount : option number;
  total : number;
  currency : option string;
  status : option string;
  raw_text : option string;
  extracted_fields : option ExtractedFields.t;
  line_items : option (list LineItemData.t);
  image_path : option string
}.
End InvoiceCreate.

(** The body of [PUT /api/invoices/{id}]; every property is optional. *)
Module InvoiceUpdate.
Record t : Type := mk {
  invoice_number : option string;
  vendor : option string;
  vendor_address : option string;
  vendor_email : option string;
  vendor_phone : option string;
  bill_to_name : option string;
  bill_to_address : option string;
  invoice_date : option string;
  due_date : option string;
  purchase_order : option string;
  subtotal : option number;
  tax : option number;
  tax_amount : option number;
  discount : option number;
  total : option number;
  currency : option string;
  status : option string;
  line_items : option (list LineItemData.t)
}.
End InvoiceUpdate.

(** ** lib/features/invoiceSlice.ts: the Redux slice of the invoices *)

Module InvoiceSlice.

Record InvoiceState : Type := mkState {
  invoices : list Invoice.t;
  currentInvoice : option Invoice.t;
  loading : bool;
  error : option string;
  totalCount : nat
}.

Definition initialState : InvoiceState :=
  {| invoices := []; currentInvoice := None; loading := false;
     error := None; totalCount := 0%nat |}.

(** Assignments to one property of the draft state. *)
Definition set_invoices (v : list Invoice.t) (state : InvoiceState) : InvoiceState :=
  {| invoices := v; currentInvoice := currentInvoice state;
     loading := loading state; error := error state;
     totalCount := totalCount state |}.

Definition set_currentInvoice (v : option Invoice.t) (state : InvoiceState) : InvoiceState :=
  {| invoices := invoices state; currentInvoice := v;
     loading := loading state; error := error state;
     totalCount := totalCount state |}.

Definition set_loading (v : bool) (state : InvoiceState) : InvoiceState :=
  {| invoices := invoices state; currentInvoice := currentInvoice state;
     loading := v; error := error state; totalCount := totalCount state |}.

Definition set_error (v : option string) (state : InvoiceState) : InvoiceState :=
  {| invoices := invoices state; currentInvoice := currentInvoice state;
     loading := loading state; error := v; totalCount := totalCount state |}.

Definition set_totalCount (v : nat) (state : InvoiceState) : InvoiceState :=
  {| invoices := invoices state; currentInvoice := currentInvoice state;
     loading := loading state; error := error state; totalCount := v |}.

(** [action.error] of a rejected thunk; [message] may be missing. *)
Record SerializedError : Type := mkError { message : option string }.

(** The five thunks made by [createAsyncThunk]. *)
Inductive Thunk : Type :=
| fetchInvoices
| fetchInvoiceById
| createInvoiceAsync
| updateInvoiceAsync
| deleteInvoiceAsync.

(** The actions the slice handles: its two reducers and the pending,
    fulfilled and rejected action of each thunk, with their payloads. *)
Inductive Action : Type :=
| clearCurrentInvoice
| clearError
| pending (t : Thunk)
| rejected (t : Thunk) (err : SerializedError)
| fetchInvoices_fulfilled (payload : list Invoice.t)
| fetchInvoiceById_fulfilled (payload : Invoice.t)
| createInvoiceAsync_fulfilled (payload : Invoice.t)
| updateInvoiceAsync_fulfilled (payload : Invoice.t)
| deleteInvoiceAsync_fulfilled (payload : string).

(** The fallback text of each rejected case. *)
Definition failureText (t : Thunk) : string :=
  match t with
  | fetchInvoices => "Failed to fetch invoices"
  | fetchInvoiceById => "Failed to fetch invoice"
  | createInvoiceAsync => "Failed to create invoice"
  | updateInvoiceAsync => "Failed to update invoice"
  | deleteInvoiceAsync => "Failed to delete invoice"
  end.

(** [state.currentInvoice?.id === id] *)
Definition currentInvoiceHasId (state : InvoiceState) (id : string) : bool :=
  match currentInvoice state with
  | Some inv => String.eqb (Invoice.id inv) id
  | None => false
  end.

(** [state.invoices.findIndex((inv) => inv.id === id)]; [None] is -1. *)
Definition findIndex (id : string) (l : list Invoice.t) : option nat :=
  fst <$> list_find (fun inv => Invoice.id inv = id) l.

Definition onPending (state : InvoiceState) : InvoiceState :=
  let state := set_loading true state in
  set_error None state.

(** [state.error = action.error.message || '<fallback>'] *)
Definition onRejected (t : Thunk) (err : SerializedError) (state : InvoiceState)
  : InvoiceState :=
  let state := set_loading false state in
  set_error (Some (JS.strOrElse (message err) (failureText t))) state.

Definition onFetchInvoices (payload : list Invoice.t) (state : InvoiceState)
  : InvoiceState :=
  let state := set_loading false state in
  let state := set_invoices payload state in
  set_totalCount (length payload) state.

Definition onFetchInvoiceById (payload : Invoice.t) (state : InvoiceState)
  : InvoiceState :=
  let state := set_loading false state in
  set_currentInvoice (Some payload) state.

(** [state.invoices.unshift(action.payload)] *)
Definition onCreateInvoice (payload : Invoice.t) (state : InvoiceState)
  : InvoiceState :=
  let state := set_loading false state in
  let state := set_invoices (payload :: invoices state) state in
  set_currentInvoice (Some payload) state.

Definition onUpdateInvoice (payload : Invoice.t) (state : InvoiceState)
  : InvoiceState :=
  let state := set_loading false state in
  let state :=
    match findIndex (Invoice.id payload) (invoices state) with
    | Some index => set_invoices (<[index := payload]> (invoices state)) state
    | None => state
    end in
  if currentInvoiceHasId state (Invoice.id payload)
  then set_currentInvoice (Some payload) state
  else state.

Definition onDeleteInvoice (payload : string) (state : InvoiceState)
  : InvoiceState :=
  let state := set_loading false state in
  let state :=
    set_invoices (filter (fun inv => Invoice.id inv <> payload) (invoices state))
      state in
  if currentInvoiceHasId state payload
  then set_currentInvoice None state
  else state.

(** The reducer of the slice. *)
Definition reducer (state : InvoiceState) (action : Action) : InvoiceState :=
  match action with
  | clearCurrentInvoice => set_currentInvoice None state
  | clearError => set_error None state
  | pending _ => onPending state
  | rejected t err => onRejected t err state
  | fetchInvoices_fulfilled payload => onFetchInvoices payload state
  | fetchInvoiceById_fulfilled payload => onFetchInvoiceById payload state
  | createInvoiceAsync_fulfilled payload => onCreateInvoice payload state
  | updateInvoiceAsync_fulfilled payload => onUpdateInvoice payload state
  | deleteInvoiceAsync_fulfilled payload => onDeleteInvoice payload state
  end.

End InvoiceSlice.

(** ** lib/features/ocrSlice.ts: the Redux slice of the recognition *)

Module OcrSlice.

Record OCRState : Type := mkState {
  result : option OCRResponse.t;
  loading : bool;
  error : option string;
  uploadedFileName : option string
}.

Definition initialState : OCRState :=
  {| result := None; loading := false; error := None; uploadedFileName := None |}.

(** The payload of [processInvoiceImage.fulfilled]. *)
Record Processed : Type := mkProcessed {
  response : OCRResponse.t;
  fileName : string;
  fileSize : number;
  fileType : string
}.

Inductive Action : Type :=
| clearOCRResult
| clearError
| processInvoiceImage_pending
| processInvoiceImage_fulfilled (payload : Processed)
| processInvoiceImage_rejected (err : InvoiceSlice.SerializedError).

Definition reducer (state : OCRState) (action : Action) : OCRState :=
  match action with
  | clearOCRResult =>
      {| result := None; loading := loading state; error := None;
         uploadedFileName := None |}
  | clearError =>
      {| result := result state; loading := loading state; error := None;
         uploadedFileName := uploadedFileName state |}
  | processInvoiceImage_pending =>
      {| result := result state; loading := true; error := None;
         uploadedFileName := uploadedFileName state |}
  | processInvoiceImage_fulfilled payload =>
      {| result := Some (response payload); loading := false;
         error := error state; uploadedFileName := Some (fileName payload) |}
  | processInvoiceImage_rejected err =>
      {| result := result state; loading := false;
         error := Some (JS.strOrElse (InvoiceSlice.message err)
                          "Failed to process invoice image");
         uploadedFileName := uploadedFileName state |}
  end.

(** The store after a list of actions, dispatched in order. *)
Definition dispatchAll (actions : list Action) (state : OCRState) : OCRState :=
  fold_left reducer actions state.

End OcrSlice.

(** ** app/upload-invoice/page.tsx: saving the result of the recognition *)

Module UploadInvoicePage.

(** One element of [mappedItems]. *)
Definition mapItem (item : ExtractedItem.t) : LineItemData.t :=
  {| LineItemData.description := JS.strOrElse (ExtractedItem.description item) "";
     LineItemData.qty :=
       JS.optOrElse (JS.optOr (ExtractedItem.quantity item) (ExtractedItem.qty item))
         (JS.fromZ 1);
     LineItemData.rate :=
       JS.optOrElse (JS.optOr (ExtractedItem.unitPrice item) (ExtractedItem.rate item))
         JS.zero;
     LineItemData.amount :=
       JS.optOrElse (JS.optOr (ExtractedItem.totalPrice item) (ExtractedItem.amount item))
         JS.zero |}.

(** [invoiceData], the record handed to [createInvoiceAsync]. *)
Definition invoiceData (ocrResult : OCRResponse.t) : InvoiceCreate.t :=
  let extracted := OCRResponse.extracted_fields ocrResult in
  let mappedItems := map mapItem <$> ExtractedFields.items extracted in
  {| InvoiceCreate.invoice_number :=
       JS.trimmedOrNull (ExtractedFields.invoice_number extracted);
     InvoiceCreate.vendor := JS.trimmedOrNull (ExtractedFields.vendor extracted);
     InvoiceCreate.vendor_address :=
       JS.trimmedOrNull (ExtractedFields.vendor_address extracted);
     InvoiceCreate.vendor_email :=
       JS.trimmedOrNull (ExtractedFields.vendor_email extracted);
     InvoiceCreate.vendor_phone :=
       JS.trimmedOrNull (ExtractedFields.vendor_phone extracted);
     InvoiceCreate.bill_to_name :=
       JS.trimmedOrNull (ExtractedFields.bill_to_name extracted);
     InvoiceCreate.bill_to_address :=
       JS.trimmedOrNull (ExtractedFields.bill_to_address extracted);
     InvoiceCreate.invoice_date :=
       JS.strOr (JS.strOr (ExtractedFields.invoice_date extracted)
                          (ExtractedFields.date extracted)) None;
     InvoiceCreate.due_date := JS.strOr (ExtractedFields.due_date extracted) None;
     InvoiceCreate.purchase_order :=
       JS.trimmedOrNull (ExtractedFields.purchase_order extracted);
     InvoiceCreate.subtotal :=
       Some (JS.optOrElse (ExtractedFields.subtotal extracted) JS.zero);
     InvoiceCreate.tax :=
       Some (JS.optOrElse (JS.optOr (ExtractedFields.taxAmount extracted)
                                    (ExtractedFields.tax extracted)) JS.zero);
     InvoiceCreate.tax_amount :=
       Some (JS.optOrElse (JS.optOr (ExtractedFields.taxAmount extracted)
                                    (ExtractedFields.tax extracted)) JS.zero);
     InvoiceCreate.discount :=
       Some (JS.optOrElse (ExtractedFields.discount extracted) JS.zero);
     InvoiceCreate.total := JS.optOrElse (ExtractedFields.total extracted) JS.zero;
     InvoiceCreate.currency :=
       Some (JS.strOrElse (ExtractedFields.currency extracted) "USD");
     InvoiceCreate.status := Some "Pending Review";
     InvoiceCreate.raw_text := Some (OCRResponse.raw_text ocrResult);
     InvoiceCreate.extracted_fields := Some extracted;
     InvoiceCreate.line_items := mappedItems;
     InvoiceCreate.image_path := JS.strOr (OCRResponse.image_path ocrResult) None |}.

(** [handleSaveInvoice]: without a recognition result nothing is saved (an
    error toast is shown); otherwise [invoiceData] is dispatched to
    [createInvoiceAsync].  The result is the record sent to be stored. *)
Definition handleSaveInvoice (ocrResult : option OCRResponse.t)
  : option InvoiceCreate.t :=
  match ocrResult with
  | None => None
  | Some r => Some (invoiceData r)
  end.

(** A [File], with the properties the page reads. *)
Record File : Type := mkFile {
  name : string;
  size : number;
  type : string
}.

(** The component state that [handleFileSelect] writes. *)
Record PageState : Type := mkPage {
  selectedFile : option File;
  showPreview : bool
}.

(** The toast [handleFileSelect] ends with: "Please upload an image file
    (JPG, PNG, etc.)", "File size must be less than 10MB", "Invoice
    processed successfully!", or the error toast of a failed recognition. *)
Inductive Feedback : Type :=
| notAnImage
| tooLarge
| processed
| failed.

(** How [uploadInvoiceImage(file)] ends: with the response of the back end
    or with an error. *)
Inductive Upload : Type :=
| Responded (response : OCRResponse.t)
| Failed (err : InvoiceSlice.SerializedError).

(** The actions that the thunk [processInvoiceImage] dispatches for a
    file. *)
Definition processInvoiceImage (file : File) (upload : Upload)
  : list OcrSlice.Action :=
  [OcrSlice.processInvoiceImage_pending;
   match upload with
   | Responded response =>
       OcrSlice.processInvoiceImage_fulfilled
         {| OcrSlice.response := response; OcrSlice.fileName := name file;
            OcrSlice.fileSize := size file; OcrSlice.fileType := type file |}
   | Failed err => OcrSlice.processInvoiceImage_rejected err
   end].

(** [10 * 1024 * 1024] *)
Definition maxFileSize : number :=
  JS.mul (JS.mul (JS.fromZ 10) (JS.fromZ 1024)) (JS.fromZ 1024).

(** [handleFileSelect]: the component state, the store of the recognition
    and the toast it ends with. *)
Definition handleFileSelect (file : File) (upload : Upload) (page : PageState)
  (ocr : OcrSlice.OCRState) : PageState * OcrSlice.OCRState * Feedback :=
  if negb (JS.startsWith (type file) "image/") then (page, ocr, notAnImage)
  else if JS.gt (size file) maxFileSize then (page, ocr, tooLarge)
  else
    let page := {| selectedFile := Some file; showPreview := false |} in
    let ocr := OcrSlice.reducer ocr OcrSlice.clearOCRResult in
    let ocr := OcrSlice.dispatchAll (processInvoiceImage file upload) ocr in
    match upload with
    | Responded _ =>
        ({| selectedFile := selectedFile page; showPreview := true |}, ocr, processed)
    | Failed _ => (page, ocr, failed)
    end.

End UploadInvoicePage.

(** ** unnamed/part_001, first page: the invoice list *)

Module InvoicesListPage.

(** The comment above [getStatusColor]:
    "Allowed statuses: Paid, Rejected, Pending Review, Draft". *)
Definition allowedStatuses : list string :=
  ["Paid"; "Rejected"; "Pending Review"; "Draft"].

Definition getStatusColor (status : string) : string :=
  if String.eqb status "Paid" then "bg-green-100 text-green-700"
  else if String.eqb status "Pending Review" then "bg-yellow-100 text-yellow-700"
  else if String.eqb status "Rejected" then "bg-red-100 text-red-700"
  else if String.eqb status "Draft" then "bg-gray-100 text-gray-700"
  else "bg-gray-100 text-gray-700".

(** The [colors] of [getLogoColor]. *)
Definition colors : list string :=
  ["bg-teal-100 text-teal-700"; "bg-blue-100 text-blue-700";
   "bg-purple-100 text-purple-700"; "bg-pink-100 text-pink-700";
   "bg-orange-100 text-orange-700"].

(** [getLogoColor]: gray for a vendor that is [null] or empty, otherwise
    [colors[vendor.charCodeAt(0) % colors.length]]; [None] is [undefined],
    the value of an index outside the array. *)
Definition getLogoColor (vendor : option string) : option string :=
  match vendor with
  | Some v =>
      match JS.charCodeAt0 v with
      | Some code => colors !! Nat.modulo code (List.length colors)
      | None => Some "bg-gray-100 text-gray-700"
      end
  | None => Some "bg-gray-100 text-gray-700"
  end.

Definition toggleSelectAll (selectedInvoices : list string) (invoices : list Invoice.t)
  : list string :=
  if Nat.eqb (List.length selectedInvoices) (List.length invoices) then []
  else map Invoice.id invoices.

Definition toggleSelectInvoice (id : string) (selectedInvoices : list string)
  : list string :=
  if JS.includes selectedInvoices id
  then filter (fun invId => invId <> id) selectedInvoices
  else selectedInvoices ++ [id].

(** [checked] of the check box in the table header. *)
Definition allSelected (selectedInvoices : list string) (invoices : list Invoice.t)
  : bool :=
  Nat.eqb (List.length selectedInvoices) (List.length invoices)
  && Nat.ltb 0 (List.length invoices).

(** The counters of the four cards. *)
Record Stats : Type := mkStats {
  total : nat;
  paid : nat;
  pending : nat;
  rejected : nat
}.

Definition stats (invoices : list Invoice.t) : Stats :=
  {| total := List.length invoices;
     paid := List.length (filter (fun inv => Invoice.status inv = "Paid") invoices);
     pending :=
       List.length (filter (fun inv => Invoice.status inv = "Pending Review") invoices);
     rejected :=
       List.length (filter (fun inv => Invoice.status inv = "Rejected") invoices) |}.

(** The query of [fetchInvoices]; [status] and [search] may be absent. *)
Module Params.
Record t : Type := mk {
  skip : number;
  limit : number;
  status : option string;
  search : option string
}.
End Params.

(** The component state behind the query. *)
Record ListState : Type := mkListState {
  currentPage : number;
  searchQuery : string;
  statusFilter : string
}.

Definition initialListState : ListState :=
  {| currentPage := JS.fromZ 1; searchQuery := ""; statusFilter := "All Statuses" |}.

Definition limit : number := JS.fromZ 25.

(** The change handlers of the search box and of the status selector, and
    the click handlers of the two pagination buttons. *)
Inductive Event : Type :=
| searchChanged (value : string)
| statusChanged (value : string)
| previousPage
| nextPage.

Definition handle (state : ListState) (event : Event) : ListState :=
  match event with
  | searchChanged value =>
      {| currentPage := JS.fromZ 1; searchQuery := value;
         statusFilter := statusFilter state |}
  | statusChanged value =>
      {| currentPage := JS.fromZ 1; searchQuery := searchQuery state;
         statusFilter := value |}
  | previousPage =>
      {| currentPage := JS.Math_max (JS.fromZ 1) (JS.sub (currentPage state) (JS.fromZ 1));
         searchQuery := searchQuery state; statusFilter := statusFilter state |}
  | nextPage =>
      {| currentPage := JS.add (currentPage state) (JS.fromZ 1);
         searchQuery := searchQuery state; statusFilter := statusFilter state |}
  end.

(** [params] of [loadInvoices]. *)
Definition loadInvoices (state : ListState) : Params.t :=
  {| Params.skip := JS.mul (JS.sub (currentPage state) (JS.fromZ 1)) limit;
     Params.limit := limit;
     Params.status :=
       if String.eqb (statusFilter state) "All Statuses" then None
       else Some (statusFilter state);
     Params.search :=
       if JS.strTruthy (JS.trim (searchQuery state))
       then Some (JS.trim (searchQuery state))
       else None |}.

(** The two ends of the range shown beside the pagination buttons:
    [((currentPage - 1) * limit) + 1] and
    [Math.min(currentPage * limit, invoices.length)]. *)
Definition rangeStart (state : ListState) : number :=
  JS.add (JS.mul (JS.sub (currentPage state) (JS.fromZ 1)) limit) (JS.fromZ 1).

Definition rangeEnd (state : ListState) (invoices : list Invoice.t) : number :=
  JS.Math_min (JS.mul (currentPage state) limit) (JS.length invoices).

End InvoicesListPage.

(** ** unnamed/part_001, second page: the invoice detail editor *)

Module InvoiceDetailPage.

(** A row of the line-item table of the editor. *)
Record LineItem : Type := mkLineItem {
  id : string;
  description : string;
  qty : number;
  rate : number;
  amount : number
}.

(** The [invoiceData] state of the component. *)
Record InvoiceData : Type := mkInvoiceData {
  invoice_number : string;
  invoice_date : string;
  due_date : string;
  purchase_order : string;
  vendor : string;
  vendor_address : string;
  vendor_email : string;
  vendor_phone : string;
  subtotal : number;
  tax : number;
  discount : number;
  total : number;
  status : string
}.

Definition initialInvoiceData : InvoiceData :=
  {| invoice_number := ""; invoice_date := ""; due_date := "";
     purchase_order := ""; vendor := ""; vendor_address := "";
     vendor_email := ""; vendor_phone := "";
     subtotal := JS.zero; tax := JS.zero; discount := JS.zero;
     total := JS.zero; status := "Pending Review" |}.

(** The value an input hands to a change handler: [string | number]. *)
Inductive InputValue : Type :=
| Str (s : string)
| Num (n : number).

(** [statusOptions], the entries of the status selector. *)
Definition statusOptions : list string :=
  ["Pending Review"; "Approved"; "Rejected"; "Paid"; "Overdue"; "Draft"].

(** [s.split('T')[0]] *)
Fixpoint beforeT (s : string) : string :=
  match s with
  | EmptyString => EmptyString
  | String c s' => if Ascii.eqb c "T"%char then EmptyString else String c (beforeT s')
  end.

(** [d ? d.split('T')[0] : ''] *)
Definition dateInput (d : option string) : string :=
  match d with
  | Some v => if JS.strTruthy v then beforeT v else ""
  | None => ""
  end.

(** The effect that runs when [currentInvoice] is loaded: the form state. *)
Definition loadInvoiceData (currentInvoice : Invoice.t) : InvoiceData :=
  {| invoice_number := JS.strOrElse (Invoice.invoice_number currentInvoice) "";
     invoice_date := dateInput (Invoice.invoice_date currentInvoice);
     due_date := dateInput (Invoice.due_date currentInvoice);
     purchase_order := JS.strOrElse (Invoice.purchase_order currentInvoice) "";
     vendor := JS.strOrElse (Invoice.vendor currentInvoice) "";
     vendor_address := JS.strOrElse (Invoice.vendor_address currentInvoice) "";
     vendor_email := JS.strOrElse (Invoice.vendor_email currentInvoice) "";
     vendor_phone := JS.strOrElse (Invoice.vendor_phone currentInvoice) "";
     subtotal := Invoice.subtotal currentInvoice;
     tax := Invoice.tax currentInvoice;
     discount := Invoice.discount currentInvoice;
     total := Invoice.total currentInvoice;
     status := JS.strOrElse (Some (Invoice.status currentInvoice)) "Pending Review" |}.

(** The same effect: the rows of the line-item table. *)
Definition loadLineItems (currentInvoice : Invoice.t) : list LineItem :=
  match Invoice.line_items currentInvoice with
  | Some ((_ :: _) as items) =>
      imap (fun index item =>
              {| id := "item-" +:+ pretty index;
                 description := JS.strOrElse (Some (LineItemData.description item)) "";
                 qty := JS.orElse (LineItemData.qty item) (JS.fromZ 1);
                 rate := JS.orElse (LineItemData.rate item) JS.zero;
                 amount := JS.orElse (LineItemData.amount item) JS.zero |})
           items
  | _ => []
  end.

(** [lineItems.reduce((sum, item) => sum + item.amount, 0)] *)
Definition calculateSubtotal (lineItems : list LineItem) : number :=
  fold_left (fun sum item => JS.add sum (amount item)) lineItems JS.zero.

Definition calculateTotal (lineItems : list LineItem) (invoiceData : InvoiceData)
  : number :=
  let subtotal := calculateSubtotal lineItems in
  let tax := JS.orElse (tax invoiceData) JS.zero in
  let discount := JS.orElse (discount invoiceData) JS.zero in
  JS.sub (JS.add subtotal tax) discount.

(** [addLineItem]; [suffix] is the text drawn from [Math.random]. *)
Definition addLineItem (suffix : string) (lineItems : list LineItem) : list LineItem :=
  let newItem :=
    {| id := "item-" +:+ pretty (length lineItems) +:+ "-" +:+ suffix;
       description := ""; qty := JS.fromZ 1; rate := JS.zero; amount := JS.zero |} in
  lineItems ++ [newItem].

Definition removeLineItem (id0 : string) (lineItems : list LineItem) : list LineItem :=
  filter (fun item => id item <> id0) lineItems.

(** [{ ...item, [field]: value }] for a property of [LineItem] and a value
    of that property's type; any other pair is outside the typed state and
    leaves the row as it is. *)
Definition assign (item : LineItem) (field : string) (value : InputValue) : LineItem :=
  match value with
  | Str s =>
      if String.eqb field "id" then
        {| id := s; description := description item; qty := qty item;
           rate := rate item; amount := amount item |}
      else if String.eqb field "description" then
        {| id := id item; description := s; qty := qty item;
           rate := rate item; amount := amount item |}
      else item
  | Num n =>
      if String.eqb field "qty" then
        {| id := id item; description := description item; qty := n;
           rate := rate item; amount := amount item |}
      else if String.eqb field "rate" then
        {| id := id item; description := description item; qty := qty item;
           rate := n; amount := amount item |}
      else if String.eqb field "amount" then
        {| id := id item; description := description item; qty := qty item;
           rate := rate item; amount := n |}
      else item
  end.

Definition updateLineItem (id0 : string) (field : string) (value : InputValue)
  (lineItems : list LineItem) : list LineItem :=
  map (fun item =>
         if String.eqb (id item) id0 then
           let updated := assign item field value in
           if String.eqb field "qty" || String.eqb field "rate" then
             {| id := id updated; description := description updated;
                qty := qty updated; rate := rate updated;
                amount := JS.mul (qty updated) (rate updated) |}
           else updated
         else item)
      lineItems.

(** [setInvoiceData(prev => ({ ...prev, [field]: value }))], for a property
    of [invoiceData] and a value of that property's type; any other pair
    leaves the typed state as it is. *)
Definition handleInputChange (field : string) (value : InputValue) (prev : InvoiceData)
  : InvoiceData :=
  let str (f : InvoiceData -> string) (name : string) : string :=
    match value with
    | Str s => if String.eqb field name then s else f prev
    | Num _ => f prev
    end in
  let num (f : InvoiceData -> number) (name : string) : number :=
    match value with
    | Num n => if String.eqb field name then n else f prev
    | Str _ => f prev
    end in
  {| invoice_number := str invoice_number "invoice_number";
     invoice_date := str invoice_date "invoice_date";
     due_date := str due_date "due_date";
     purchase_order := str purchase_order "purchase_order";
     vendor := str vendor "vendor";
     vendor_address := str vendor_address "vendor_address";
     vendor_email := str vendor_email "vendor_email";
     vendor_phone := str vendor_phone "vendor_phone";
     subtotal := num subtotal "subtotal";
     tax := num tax "tax";
     discount := num discount "discount";
     total := num total "total";
     status := str status "status" |}.

(** [s === '' ? null : s] *)
Definition emptyToNull (s : string) : option string :=
  if String.eqb s "" then None else Some s.

Definition saveLineItem (item : LineItem) : LineItemData.t :=
  {| LineItemData.description := description item;
     LineItemData.qty := qty item;
     LineItemData.rate := rate item;
     LineItemData.amount := amount item |}.

(** [updateData], the record handed to [updateInvoiceAsync]. *)
Definition updateData (lineItems : list LineItem) (invoiceData : InvoiceData)
  : InvoiceUpdate.t :=
  let subtotal := calculateSubtotal lineItems in
  let total := calculateTotal lineItems invoiceData in
  {| InvoiceUpdate.invoice_number := emptyToNull (invoice_number invoiceData);
     InvoiceUpdate.invoice_date := emptyToNull (invoice_date invoiceData);
     InvoiceUpdate.due_date := emptyToNull (due_date invoiceData);
     InvoiceUpdate.purchase_order := emptyToNull (purchase_order invoiceData);
     InvoiceUpdate.vendor := emptyToNull (vendor invoiceData);
     InvoiceUpdate.vendor_address := emptyToNull (vendor_address invoiceData);
     InvoiceUpdate.vendor_email := emptyToNull (vendor_email invoiceData);
     InvoiceUpdate.vendor_phone := emptyToNull (vendor_phone invoiceData);
     InvoiceUpdate.bill_to_name := None;
     InvoiceUpdate.bill_to_address := None;
     InvoiceUpdate.subtotal := Some subtotal;
     InvoiceUpdate.tax := Some (tax invoiceData);
     InvoiceUpdate.tax_amount := None;
     InvoiceUpdate.discount := Some (discount invoiceData);
     InvoiceUpdate.total := Some total;
     InvoiceUpdate.currency := None;
     InvoiceUpdate.status := Some (status invoiceData);
     InvoiceUpdate.line_items := Some (map saveLineItem lineItems) |}.

(** [handleSave]: nothing happens without an [invoiceId]; otherwise
    [{ id: invoiceId, invoice: updateData }] is dispatched to
    [updateInvoiceAsync], which sends [PUT /api/invoices/{id}]. *)
Definition handleSave (invoiceId : option string) (lineItems : list LineItem)
  (invoiceData : InvoiceData) : option (string * InvoiceUpdate.t) :=
  match invoiceId with
  | None => None
  | Some id0 =>
      if JS.strTruthy id0 then Some (id0, updateData lineItems invoiceData)
      else None
  end.

End InvoiceDetailPage.

(** ** app/invoice-detailes/page.tsx: the routed invoice detail editor

    The same editor with bill-to fields and manual subtotal and total
    inputs; its line-item table and handlers are those of
    [InvoiceDetailPage]. *)

Module InvoiceDetailesPage.

Import InvoiceDetailPage.

Record InvoiceData : Type := mkInvoiceData {
  invoice_number : string;
  invoice_date : string;
  due_date : string;
  purchase_order : string;
  vendor : string;
  vendor_address : string;
  vendor_email : string;
  vendor_phone : string;
  bill_to_name : string;
  bill_to_address : string;
  subtotal : number;
  tax : number;
  discount : number;
  total : number;
  status : string
}.

(** "Define status options - ONLY these four states are allowed" *)
Definition statusOptions : list string :=
  ["Paid"; "Rejected"; "Pending Review"; "Draft"].

Definition calculateSubtotal (lineItems : list LineItem) : number :=
  fold_left (fun sum item => JS.add sum (amount item)) lineItems JS.zero.

Definition calculateTotal (lineItems : list LineItem) (invoiceData : InvoiceData)
  : number :=
  let subtotal := JS.orElse (subtotal invoiceData) (calculateSubtotal lineItems) in
  let tax := JS.orElse (tax invoiceData) JS.zero in
  let discount := JS.orElse (discount invoiceData) JS.zero in
  JS.sub (JS.add subtotal tax) discount.

(** "Use manual values if set, otherwise calculate" *)
Definition updateData (lineItems : list LineItem) (invoiceData : InvoiceData)
  : InvoiceUpdate.t :=
  let subtotal := JS.orElse (subtotal invoiceData) (calculateSubtotal lineItems) in
  let total := JS.orElse (total invoiceData) (calculateTotal lineItems invoiceData) in
  {| InvoiceUpdate.invoice_number := emptyToNull (invoice_number invoiceData);
     InvoiceUpdate.invoice_date := emptyToNull (invoice_date invoiceData);
     InvoiceUpdate.due_date := emptyToNull (due_date invoiceData);
     InvoiceUpdate.purchase_order := emptyToNull (purchase_order invoiceData);
     InvoiceUpdate.vendor := emptyToNull (vendor invoiceData);
     InvoiceUpdate.vendor_address := emptyToNull (vendor_address invoiceData);
     InvoiceUpdate.vendor_email := emptyToNull (vendor_email invoiceData);
     InvoiceUpdate.vendor_phone := emptyToNull (vendor_phone invoiceData);
     InvoiceUpdate.bill_to_name := emptyToNull (bill_to_name invoiceData);
     InvoiceUpdate.bill_to_address := emptyToNull (bill_to_address invoiceData);
     InvoiceUpdate.subtotal := Some subtotal;
     InvoiceUpdate.tax := Some (tax invoiceData);
     InvoiceUpdate.tax_amount := Some (tax invoiceData);
     InvoiceUpdate.discount := Some (discount invoiceData);
     InvoiceUpdate.total := Some total;
     InvoiceUpdate.currency := None;
     InvoiceUpdate.status := Some (status invoiceData);
     InvoiceUpdate.line_items := Some (map saveLineItem lineItems) |}.

Definition handleSave (invoiceId : option string) (lineItems : list LineItem)
  (invoiceData : InvoiceData) : option (string * InvoiceUpdate.t) :=
  match invoiceId with
  | None => None
  | Some id0 =>
      if JS.strTruthy id0 then Some (id0, updateData lineItems invoiceData)
      else None
  end.

End InvoiceDetailesPage.

(** ** services/invoiceApi.ts: the requests of the two save operations *)

Module InvoiceApi.

Inductive Method : Type := GET | POST | PUT | DELETE.

(** [apiClient.post('/api/invoices', invoice)] *)
Definition createInvoice (invoice : InvoiceCreate.t)
  : Method * string * InvoiceCreate.t :=
  (POST, "/api/invoices", invoice).

(** [apiClient.put(`/api/invoices/${id}`, invoice)] *)
Definition updateInvoice (id : string) (invoice : InvoiceUpdate.t)
  : Method * string * InvoiceUpdate.t :=
  (PUT, "/api/invoices/" +:+ id, invoice).

End InvoiceApi.

(** ** services/api.ts: the interceptors of the HTTP client *)

(** [localStorage], a map from keys to strings. *)
Module LocalStorage.

Definition t : Type := gmap string string.

Definition getItem (key : string) (storage : t) : option string := storage !! key.

Definition setItem (key value : string) (storage : t) : t := <[key := value]> storage.

Definition removeItem (key : string) (storage : t) : t := delete key storage.

End LocalStorage.

Module ApiClient.

(** How a request ends: a response that resolves with its data, a response
    with an error status, or no response at all. *)
Inductive Reply (A : Type) : Type :=
| Resolved (data : A)
| ErrorStatus (status : Z)
| NoResponse.

Arguments Resolved {A} data.
Arguments ErrorStatus {A} status.
Arguments NoResponse {A}.

(** The request interceptor: the [Authorization] header it sets, if any. *)
Definition authorization (storage : LocalStorage.t) : option string :=
  match LocalStorage.getItem "access_token" storage with
  | Some token => if JS.strTruthy token then Some ("Bearer " +:+ token) else None
  | None => None
  end.

(** The response interceptor: [localStorage] after the reply.  Only the
    case [401] of the [switch] writes to it. *)
Definition intercept {A : Type} (reply : Reply A) (storage : LocalStorage.t)
  : LocalStorage.t :=
  match reply with
  | ErrorStatus 401 =>
      LocalStorage.removeItem "refresh_token"
        (LocalStorage.removeItem "access_token" storage)
  | _ => storage
  end.

(** The same case: the value assigned to [window.location.href]. *)
Definition location {A : Type} (reply : Reply A) : option string :=
  match reply with
  | ErrorStatus 401 => Some "/login"
  | _ => None
  end.

End ApiClient.

(** ** services/authApi.ts *)

Module AuthApi.

Record TokenResponse : Type := mkTokens {
  access_token : string;
  refresh_token : string;
  token_type : string
}.

Record User : Type := mkUser {
  id : string;
  full_name : string;
  email : string;
  created_at : option string
}.

(** The two [localStorage.setItem] calls of [login] and [refreshToken]. *)
Definition storeTokens (data : TokenResponse) (storage : LocalStorage.t)
  : LocalStorage.t :=
  LocalStorage.setItem "refresh_token" (refresh_token data)
    (LocalStorage.setItem "access_token" (access_token data) storage).

(** [login]: [localStorage] afterwards and the value returned; [None]
    stands for the rejection that the client passes on. *)
Definition login (reply : ApiClient.Reply TokenResponse) (storage : LocalStorage.t)
  : LocalStorage.t * option TokenResponse :=
  let storage := ApiClient.intercept reply storage in
  match reply with
  | ApiClient.Resolved data => (storeTokens data storage, Some data)
  | _ => (storage, None)
  end.

(** [logout]: the rejection is caught, and the [finally] block removes the
    two tokens. *)
Definition logout (reply : ApiClient.Reply unit) (storage : LocalStorage.t)
  : LocalStorage.t :=
  let storage := ApiClient.intercept reply storage in
  LocalStorage.removeItem "refresh_token"
    (LocalStorage.removeItem "access_token" storage).

Definition refreshToken (reply : ApiClient.Reply TokenResponse)
  (storage : LocalStorage.t) : LocalStorage.t * option TokenResponse :=
  let storage := ApiClient.intercept reply storage in
  match reply with
  | ApiClient.Resolved data => (storeTokens data storage, Some data)
  | _ => (storage, None)
  end.

Definition getCurrentUser (reply : ApiClient.Reply User) (storage : LocalStorage.t)
  : LocalStorage.t * option User :=
  let storage := ApiClient.intercept reply storage in
  match reply with
  | ApiClient.Resolved data => (storage, Some data)
  | _ => (storage, None)
  end.

(** [window] tells whether the code runs in a browser
    ([typeof window !== 'undefined']). *)
Definition getStoredToken (window : bool) (storage : LocalStorage.t) : option string :=
  if window then LocalStorage.getItem "access_token" storage else None.

Definition getStoredRefreshToken (window : bool) (storage : LocalStorage.t)
  : option string :=
  if window then LocalStorage.getItem "refresh_token" storage else None.

(** [!!getStoredToken()] *)
Definition isAuthenticated (window : bool) (storage : LocalStorage.t) : bool :=
  match getStoredToken window storage with
  | Some token => JS.strTruthy token
  | None => false
  end.

End AuthApi.

(** ** lib/features/authSlice.ts: the Redux slice of the session *)

Module AuthSlice.

Record AuthState : Type := mkState {
  user : option AuthApi.User;
  token : option string;
  refreshToken : option string;
  loading : bool;
  error : option string;
  isAuthenticated : bool
}.

Definition initialState (window : bool) (storage : LocalStorage.t) : AuthState :=
  {| user := None;
     token := AuthApi.getStoredToken window storage;
     refreshToken := AuthApi.getStoredRefreshToken window storage;
     loading := false;
     error := None;
     isAuthenticated := AuthApi.isAuthenticated window storage |}.

Inductive Thunk : Type :=
| signupAsync
| loginAsync
| logoutAsync
| fetchCurrentUser
| refreshTokenAsync.

Inductive Action : Type :=
| clearError
| setUser (payload : AuthApi.User)
| pending (t : Thunk)
| rejected (t : Thunk) (err : InvoiceSlice.SerializedError)
| signupAsync_fulfilled
| loginAsync_fulfilled (payload : AuthApi.TokenResponse)
| logoutAsync_fulfilled
| fetchCurrentUser_fulfilled (payload : AuthApi.User)
| refreshTokenAsync_fulfilled (payload : AuthApi.TokenResponse).

(** The pending cases: those of [logoutAsync] and [refreshTokenAsync] keep
    the error. *)
Definition onPending (t : Thunk) (state : AuthState) : AuthState :=
  {| user := user state; token := token state; refreshToken := refreshToken state;
     loading := true;
     error := match t with
              | logoutAsync | refreshTokenAsync => error state
              | _ => None
              end;
     isAuthenticated := isAuthenticated state |}.

Definition onRejected (t : Thunk) (err : InvoiceSlice.SerializedError)
  (state : AuthState) : AuthState :=
  match t with
  | signupAsync =>
      {| user := user state; token := token state;
         refreshToken := refreshToken state; loading := false;
         error := Some (JS.strOrElse (InvoiceSlice.message err) "Failed to sign up");
         isAuthenticated := isAuthenticated state |}
  | loginAsync =>
      {| user := user state; token := token state;
         refreshToken := refreshToken state; loading := false;
         error := Some (JS.strOrElse (InvoiceSlice.message err) "Failed to log in");
         isAuthenticated := false |}
  | logoutAsync =>
      {| user := None; token := None; refreshToken := None; loading := false;
         error := error state; isAuthenticated := false |}
  | fetchCurrentUser =>
      {| user := user state; token := None; refreshToken := None; loading := false;
         error := Some (JS.strOrElse (InvoiceSlice.message err) "Failed to fetch user");
         isAuthenticated := false |}
  | refreshTokenAsync =>
      {| user := None; token := None; refreshToken := None; loading := false;
         error := error state; isAuthenticated := false |}
  end.

Definition onTokens (payload : AuthApi.TokenResponse) (state : AuthState) : AuthState :=
  {| user := user state;
     token := Some (AuthApi.access_token payload);
     refreshToken := Some (AuthApi.refresh_token payload);
     loading := false; error := error state; isAuthenticated := true |}.

Definition reducer (state : AuthState) (action : Action) : AuthState :=
  match action with
  | clearError =>
      {| user := user state; token := token state;
         refreshToken := refreshToken state; loading := loading state;
         error := None; isAuthenticated := isAuthenticated state |}
  | setUser payload =>
      {| user := Some payload; token := token state;
         refreshToken := refreshToken state; loading := loading state;
         error := error state; isAuthenticated := true |}
  | pending t => onPending t state
  | rejected t err => onRejected t err state
  | signupAsync_fulfilled =>
      {| user := user state; token := token state;
         refreshToken := refreshToken state; loading := false;
         error := error state; isAuthenticated := isAuthenticated state |}
  | loginAsync_fulfilled payload => onTokens payload state
  | logoutAsync_fulfilled =>
      {| user := None; token := None; refreshToken := None; loading := false;
         error := error state; isAuthenticated := false |}
  | fetchCurrentUser_fulfilled payload =>
      {| user := Some payload; token := token state;
         refreshToken := refreshToken state; loading := false;
         error := error state; isAuthenticated := true |}
  | refreshTokenAsync_fulfilled payload => onTokens payload state
  end.

(** The browser's storage together with the store of the session. *)
Definition Session : Type := LocalStorage.t * AuthState.

(** The thunks, as [createAsyncThunk] runs them: the pending action, the
    call of the service, then the fulfilled action with its result or the
    rejected action with the error [err] serialized from the rejection. *)
Definition dispatchLogin (reply : ApiClient.Reply AuthApi.TokenResponse)
  (err : InvoiceSlice.SerializedError) (session : Session) : Session :=
  let state := reducer (snd session) (pending loginAsync) in
  match AuthApi.login reply (fst session) with
  | (storage, Some data) => (storage, reducer state (loginAsync_fulfilled data))
  | (storage, None) => (storage, reducer state (rejected loginAsync err))
  end.

(** [logout] never rejects, so the thunk is always fulfilled. *)
Definition dispatchLogout (reply : ApiClient.Reply unit) (session : Session) : Session :=
  let state := reducer (snd session) (pending logoutAsync) in
  (AuthApi.logout reply (fst session), reducer state logoutAsync_fulfilled).

Definition dispatchFetchCurrentUser (reply : ApiClient.Reply AuthApi.User)
  (err : InvoiceSlice.SerializedError) (session : Session) : Session :=
  let state := reducer (snd session) (pending fetchCurrentUser) in
  match AuthApi.getCurrentUser reply (fst session) with
  | (storage, Some data) => (storage, reducer state (fetchCurrentUser_fulfilled data))
  | (storage, None) => (storage, reducer state (rejected fetchCurrentUser err))
  end.

Definition dispatchRefreshToken (reply : ApiClient.Reply AuthApi.TokenResponse)
  (err : InvoiceSlice.SerializedError) (session : Session) : Session :=
  let state := reducer (snd session) (pending refreshTokenAsync) in
  match AuthApi.refreshToken reply (fst session) with
  | (storage, Some data) => (storage, reducer state (refreshTokenAsync_fulfilled data))
  | (storage, None) => (storage, reducer state (rejected refreshTokenAsync err))
  end.

End AuthSlice.

(** ** component/ProtectedRoute.tsx *)

Module ProtectedRoute.

(** What one render of the component sees: its prop, the store of the
    session and its own two state variables. *)
Record View : Type := mkView {
  requireAuth : bool;
  auth : AuthSlice.AuthState;
  isMounted : bool;
  hasToken : bool
}.

Inductive Rendered : Type :=
| spinner
| nothing
| children.

Definition authState (v : View) : bool := AuthSlice.isAuthenticated (auth v).
Definition loading (v : View) : bool := AuthSlice.loading (auth v).
Definition hasUser (v : View) : bool :=
  match AuthSlice.user (auth v) with Some _ => true | None => false end.

(** The value the component returns. *)
Definition render (v : View) : Rendered :=
  if negb (isMounted v) then spinner
  else if loading v || (hasToken v && negb (hasUser v) && requireAuth v) then spinner
  else if requireAuth v && negb (hasToken v) && negb (authState v) then nothing
  else if negb (requireAuth v) && hasToken v && authState v then nothing
  else children.

(** The second effect: whether it dispatches [fetchCurrentUser], and the
    path it hands to [router.push].  Both read the values of the render
    that scheduled the effect. *)
Definition fetchesUser (v : View) : bool :=
  isMounted v && hasToken v && negb (hasUser v) && negb (loading v).

Definition redirect (v : View) : option string :=
  if negb (isMounted v) then None
  else if requireAuth v then
    if negb (hasToken v) || (negb (authState v) && negb (loading v))
    then Some "/login" else None
  else
    if hasToken v && authState v then Some "/" else None.

(** The view once the first effect has run in a browser:
    [setIsMounted(true)] and [setHasToken(isAuthenticated())]. *)
Definition mounted (requireAuth : bool) (session : AuthSlice.Session) : View :=
  {| requireAuth := requireAuth; auth := snd session; isMounted := true;
     hasToken := AuthApi.isAuthenticated true (fst session) |}.

End ProtectedRoute.

(** ** The predicates of the specification, over the records above *)

Module Spec.

Import InvoiceDetailPage.

(** Line-item consistency, [abs(amount - qty*rate) <= max(0.01, 0.01*amount)],
    evaluated as JavaScript evaluates it on the numbers of a row. *)
Definition lineItemConsistent (item : LineItem) : bool :=
  JS.le (JS.Math_abs (JS.sub (amount item) (JS.mul (qty item) (rate item))))
        (JS.Math_max (JS.decimal 1 2) (JS.mul (JS.decimal 1 2) (amount item))).

(** The status values the specification allows on a persisted record. *)
Definition statusSet : list string :=
  ["Draft"; "Pending Review"; "Paid"; "Rejected"].

(** The amounts of the rows summed from left to right, starting from 0. *)
Definition sumAmounts (amounts : list number) : number :=
  fold_left JS.add amounts JS.zero.




(** Two numbers that are the same value, the sign of zero apart. *)
Definition sameNumber (x y : number) : Prop :=
  x = y \/ exists s s' : bool, x = S754_zero s /\ y = S754_zero s'.

(** "Immutable after return": an update keeps every record that was in the
    list, the one with the payload's id included. *)
Definition keepsOriginal (state : InvoiceSlice.InvoiceState) (payload : Invoice.t)
  : Prop :=
  forall inv : Invoice.t,
    In inv (InvoiceSlice.invoices state) ->
    In inv (InvoiceSlice.invoices
              (InvoiceSlice.reducer state
                 (InvoiceSlice.updateInvoiceAsync_fulfilled payload))).

End Spec.

(** ** Concrete records used in the examples *)

Module Examples.

(** An invoice with the given id and total and nothing else. *)
Definition invoice (id : string) (total : number) : Invoice.t :=
  {| Invoice.id := id; Invoice.invoice_number := None; Invoice.vendor := None;
     Invoice.vendor_address := None; Invoice.vendor_email := None;
     Invoice.vendor_phone := None; Invoice.bill_to_name := None;
     Invoice.bill_to_address := None; Invoice.invoice_date := None;
     Invoice.due_date := None; Invoice.purchase_order := None;
     Invoice.subtotal := JS.zero; Invoice.tax := JS.zero;
     Invoice.tax_amount := None; Invoice.discount := JS.zero;
     Invoice.total := total; Invoice.currency := "USD";
     Invoice.status := "Pending Review"; Invoice.raw_text := None;
     Invoice.extracted_fields := None; Invoice.line_items := None;
     Invoice.image_path := None; Invoice.created_at := None;
     Invoice.updated_at := None |}.

(** A slice state holding the given list and current invoice. *)
Definition stateOf (l : list Invoice.t) (c : option Invoice.t)
  : InvoiceSlice.InvoiceState :=
  {| InvoiceSlice.invoices := l; InvoiceSlice.currentInvoice := c;
     InvoiceSlice.loading := true; InvoiceSlice.error := None;
     InvoiceSlice.totalCount := length l |}.

(** The recognition result in which no field has any evidence. *)
Definition nothingExtracted : ExtractedFields.t :=
  {| ExtractedFields.vendor := None; ExtractedFields.vendor_address := None;
     ExtractedFields.vendor_email := None; ExtractedFields.vendor_phone := None;
     ExtractedFields.invoice_number := None; ExtractedFields.invoice_date := None;
     ExtractedFields.date := None; ExtractedFields.due_date := None;
     ExtractedFields.bill_to_name := None; ExtractedFields.bill_to_address := None;
     ExtractedFields.total := None; ExtractedFields.subtotal := None;
     ExtractedFields.tax := None; ExtractedFields.taxAmount := None;
     ExtractedFields.discount := None; ExtractedFields.currency := None;
     ExtractedFields.items := None; ExtractedFields.purchase_order := None |}.

Definition emptyScan : OCRResponse.t :=
  {| OCRResponse.success := true; OCRResponse.filename := "blank.png";
     OCRResponse.image_path := None; OCRResponse.raw_text := "";
     OCRResponse.extracted_fields := nothingExtracted |}.

(** A row of the editor with the given numbers. *)
Definition row (id : string) (qty rate amount : number) : InvoiceDetailPage.LineItem :=
  {| InvoiceDetailPage.id := id; InvoiceDetailPage.description := "";
     InvoiceDetailPage.qty := qty; InvoiceDetailPage.rate := rate;
     InvoiceDetailPage.amount := amount |}.

(** The form state with the given tax and discount. *)
Definition form (tax discount : number) : InvoiceDetailPage.InvoiceData :=
  InvoiceDetailPage.handleInputChange "discount" (InvoiceDetailPage.Num discount)
    (InvoiceDetailPage.handleInputChange "tax" (InvoiceDetailPage.Num tax)
       InvoiceDetailPage.initialInvoiceData).

(** The form state of the routed editor with the given subtotal, tax,
    discount and total and no text. *)
Definition routedForm (subtotal tax discount total : number)
  : InvoiceDetailesPage.InvoiceData :=
  {| InvoiceDetailesPage.invoice_number := "";
     InvoiceDetailesPage.invoice_date := "";
     InvoiceDetailesPage.due_date := "";
     InvoiceDetailesPage.purchase_order := "";
     InvoiceDetailesPage.vendor := "";
     InvoiceDetailesPage.vendor_address := "";
     InvoiceDetailesPage.vendor_email := "";
     InvoiceDetailesPage.vendor_phone := "";
     InvoiceDetailesPage.bill_to_name := "";
     InvoiceDetailesPage.bill_to_address := "";
     InvoiceDetailesPage.subtotal := subtotal;
     InvoiceDetailesPage.tax := tax;
     InvoiceDetailesPage.discount := discount;
     InvoiceDetailesPage.total := total;
     InvoiceDetailesPage.status := "Pending Review" |}.

(** A recognition result that holds the given subtotal, tax, discount and
    total and nothing else. *)
Definition scanWithTotals (subtotal tax discount total : option number)
  : OCRResponse.t :=
  {| OCRResponse.success := true; OCRResponse.filename := "totals.png";
     OCRResponse.image_path := None; OCRResponse.raw_text := "";
     OCRResponse.extracted_fields :=
       {| ExtractedFields.vendor := None; ExtractedFields.vendor_address := None;
          ExtractedFields.vendor_email := None; ExtractedFields.vendor_phone := None;
          ExtractedFields.invoice_number := None;
          ExtractedFields.invoice_date := None;
          ExtractedFields.date := None; ExtractedFields.due_date := None;
          ExtractedFields.bill_to_name := None;
          ExtractedFields.bill_to_address := None;
          ExtractedFields.total := total; ExtractedFields.subtotal := subtotal;
          ExtractedFields.tax := tax; ExtractedFields.taxAmount := None;
          ExtractedFields.discount := discount; ExtractedFields.currency := None;
          ExtractedFields.items := None; ExtractedFields.purchase_order := None |} |}.

End Examples.

(* ===================================================================== *)
(** * Part II: properties                                                  *)
(* ===================================================================== *)

(** ** JavaScript numbers *)

Section NumberFacts.

Local Open Scope Z_scope.

Import Spec.

Lemma sameNumber_refl (x : number) : sameNumber x x.
Proof. now left. Qed.

Lemma sameNumber_zeros (s s' : bool) : sameNumber (S754_zero s) (S754_zero s').
Proof. right. now exists s, s'. Qed.

(** [t || 0] is [t], the sign of zero apart, unless [t] is [NaN]. *)
Lemma orElse_zero_sameNumber (t : number) :
  JS.isNaN t = false -> sameNumber (JS.orElse t JS.zero) t.
Proof.
  destruct t as [s|s| |s m e]; cbn; intros H;
    [apply sameNumber_zeros|apply sameNumber_refl|discriminate|apply sameNumber_refl].
Qed.

Lemma add_sameNumber (a a' b b' : number) :
  sameNumber a a' -> sameNumber b b' -> sameNumber (JS.add a b) (JS.add a' b').
Proof.
  intros [->|(s1 & s1' & -> & ->)] [->|(s2 & s2' & -> & ->)].
  - apply sameNumber_refl.
  - destruct a' as [s|s| |s m e]; cbn;
      [destruct s, s2, s2'; apply sameNumber_zeros|apply sameNumber_refl..].
  - destruct b' as [s|s| |s m e]; cbn;
      [destruct s, s1, s1'; apply sameNumber_zeros|apply sameNumber_refl..].
  - destruct s1, s1', s2, s2'; apply sameNumber_zeros.
Qed.

Lemma sub_sameNumber (a a' b b' : number) :
  sameNumber a a' -> sameNumber b b' -> sameNumber (JS.sub a b) (JS.sub a' b').
Proof.
  intros [->|(s1 & s1' & -> & ->)] [->|(s2 & s2' & -> & ->)].
  - apply sameNumber_refl.
  - destruct a' as [s|s| |s m e]; cbn;
      [destruct s, s2, s2'; apply sameNumber_zeros|apply sameNumber_refl..].
  - destruct b' as [s|s| |s m e]; cbn;
      [destruct s, s1, s1'; apply sameNumber_zeros|apply sameNumber_refl..].
  - destruct s1, s1', s2, s2'; apply sameNumber_zeros.
Qed.

Lemma SFcompare_refl (x : number) : JS.isNaN x = false -> SFcompare x x = Some Eq.
Proof.
  destruct x as [s|s| |s m e]; cbn; intros H; try discriminate; try reflexivity.
  - now destruct s.
  - destruct s; rewrite Z.compare_refl, Pos.compare_cont_refl; reflexivity.
Qed.

Lemma sameNumber_sameValueZero (x y : number) :
  sameNumber x y -> JS.sameValueZero x y = true.
Proof.
  unfold JS.sameValueZero, SFeqb.
  intros [->|(s & s' & -> & ->)]; [|reflexivity].
  destruct (JS.isNaN y) eqn:Hy; [reflexivity|].
  now rewrite SFcompare_refl.
Qed.











Lemma literal_values :
  JS.decimal 1 1 = S754_finite false 7205759403792794 (-56)
  /\ JS.fromZ 1 = S754_finite false 4503599627370496 (-52)
  /\ JS.fromZ (10 ^ 200) = S754_finite false 5883593420661338 612.
Proof.
  split; [vm_compute; reflexivity|]. split; vm_compute; reflexivity.
Qed.





(** The number of binary digits of a positive is its logarithm plus one. *)
Lemma digits2_pos_log2 (p : positive) :
  Zpos (digits2_pos p) = Z.log2 (Zpos p) + 1.
Proof.
  induction p as [p IH|p IH|]; cbn [digits2_pos]; [| |reflexivity].
  - rewrite Pos2Z.inj_succ, IH.
    change (Zpos p~1) with (2 * Zpos p + 1).
    rewrite Z.log2_succ_double by lia. lia.
  - rewrite Pos2Z.inj_succ, IH.
    change (Zpos p~0) with (2 * Zpos p).
    rewrite Z.log2_double by lia. lia.
Qed.

Lemma digits2_pos_mul_pow2 (p q : positive) (n : Z) :
  0 <= n -> Zpos q = Zpos p * 2 ^ n ->
  Zpos (digits2_pos q) = Zpos (digits2_pos p) + n.
Proof.
  intros Hn Hq. rewrite !digits2_pos_log2, Hq.
  rewrite Z.log2_mul_pow2 by lia. lia.
Qed.

Lemma digits2_pos_le (p : positive) (n : Z) :
  0 <= n -> (Zpos (digits2_pos p) <= n <-> Zpos p < 2 ^ n).
Proof.
  intros Hn. rewrite digits2_pos_log2.
  rewrite (Z.log2_lt_pow2 (Zpos p) n) by lia. lia.
Qed.

(** Doubling [d] times multiplies by [2^d]. *)
Lemma iter_xO_pow2 (m d : positive) :
  Zpos (Pos.iter xO m d) = Zpos m * 2 ^ Zpos d.
Proof.
  induction d as [|d IH] using Pos.peano_ind.
  - cbn [Pos.iter]. lia.
  - rewrite Pos.iter_succ, Pos2Z.inj_succ, Z.pow_succ_r by lia.
    rewrite Pos2Z.inj_xO, IH. lia.
Qed.

Lemma iter_pos_iter {A : Type} (f : A -> A) (n : positive) (x : A) :
  SpecFloat.iter_pos f n x = Pos.iter f x n.
Proof.
  revert x. induction n as [n IH|n IH|]; intros x; cbn; [|now rewrite !IH|reflexivity].
  rewrite !IH. now rewrite !Pos.iter_swap.
Qed.

(** Shifting right by [p] a mantissa that is a multiple of [2^p] loses
    nothing. *)
Lemma iter_shr_1_exact (k p : positive) :
  SpecFloat.iter_pos shr_1 p
    {| shr_m := Zpos k * 2 ^ Zpos p; shr_r := false; shr_s := false |}
  = {| shr_m := Zpos k; shr_r := false; shr_s := false |}.
Proof.
  rewrite iter_pos_iter.
  induction p as [|p IH] using Pos.peano_ind.
  - cbn [Pos.iter]. change (2 ^ 1) with 2.
    replace (Zpos k * 2) with (Zpos k~0) by lia. reflexivity.
  - rewrite Pos.iter_succ_r.
    rewrite Pos2Z.inj_succ, Z.pow_succ_r by lia.
    replace (Zpos k * (2 * 2 ^ Zpos p)) with (Zpos (Pos.iter xO k p)~0)
      by (rewrite Pos2Z.inj_xO, iter_xO_pow2; lia).
    cbn [shr_1 orb]. rewrite iter_xO_pow2. exact IH.
Qed.

Lemma fexp_normal (x : Z) :
  -1021 <= x -> fexp JS.prec JS.emax x = x - 53.
Proof. unfold fexp, emin, JS.prec, JS.emax. lia. Qed.

(** A mantissa of 53 digits in the range of the exponents is left as it is. *)
Lemma shr_fexp_canonical (k : positive) (t : Z) :
  Zpos (digits2_pos k) = 53 -> -1074 <= t ->
  shr_fexp JS.prec JS.emax (Zpos k) t loc_Exact
  = ({| shr_m := Zpos k; shr_r := false; shr_s := false |}, t).
Proof.
  intros Hk Ht. unfold shr_fexp. cbn [Zdigits2]. rewrite Hk.
  rewrite fexp_normal by lia.
  replace (53 + t - 53 - t) with 0 by lia. reflexivity.
Qed.

Lemma binary_round_aux_canonical (s : bool) (k : positive) (t : Z) :
  Zpos (digits2_pos k) = 53 -> -1074 <= t <= 971 ->
  binary_round_aux JS.prec JS.emax s (Zpos k) t loc_Exact = S754_finite s k t.
Proof.
  intros Hk Ht. unfold binary_round_aux.
  rewrite shr_fexp_canonical by lia.
  cbn [shr_m loc_of_shr_record shr_r shr_s round_nearest_even].
  rewrite shr_fexp_canonical by lia. cbn [shr_m].
  unfold JS.emax, JS.prec.
  destruct (Z.leb_spec t (1024 - 53)); [reflexivity|lia].
Qed.

(** Rounding is exact when the value [m * 2^e] is [k * 2^t] for a mantissa
    [k] of 53 digits and an exponent [t] in range. *)
Lemma binary_round_exact (s : bool) (m k : positive) (e t : Z) :
  Zpos (digits2_pos k) = 53 -> -1074 <= t <= 971 ->
  (t <= e /\ Zpos k = Zpos m * 2 ^ (e - t))
  \/ (e < t /\ Zpos m = Zpos k * 2 ^ (t - e)) ->
  binary_round JS.prec JS.emax s m e = S754_finite s k t.
Proof.
  intros Hk Ht Hval. unfold binary_round.
  assert (Hd : Zpos (digits2_pos m) + e = 53 + t).
  { destruct Hval as [[Hle Hkm]|[Hlt Hmk]].
    - pose proof (digits2_pos_mul_pow2 m k (e - t) ltac:(lia) Hkm). lia.
    - pose proof (digits2_pos_mul_pow2 k m (t - e) ltac:(lia) Hmk). lia. }
  rewrite Hd, fexp_normal by lia.
  replace (53 + t - 53) with t by lia.
  unfold shl_align.
  destruct Hval as [[Hle Hkm]|[Hlt Hmk]].
  - destruct (t - e) as [|d|d] eqn:Hte; [| lia |].
    + assert (e = t) by lia. subst e.
      replace (t - t) with 0 in Hkm by lia. rewrite Z.pow_0_r, Z.mul_1_r in Hkm.
      injection Hkm as ->. now apply binary_round_aux_canonical.
    + assert (Hkd : Pos.iter xO m d = k).
      { apply Pos2Z.inj. rewrite iter_xO_pow2, Hkm. f_equal. f_equal. lia. }
      rewrite Hkd. now apply binary_round_aux_canonical.
  - destruct (t - e) as [|d|d] eqn:Hte; [lia| |lia].
    unfold binary_round_aux, shr_fexp at 1. cbn [Zdigits2].
    rewrite Hd, fexp_normal by lia.
    replace (53 + t - 53 - e) with (Zpos d) by lia.
    unfold shr, shr_record_of_loc.
    rewrite Hmk, iter_shr_1_exact.
    cbn [shr_m loc_of_shr_record shr_r shr_s round_nearest_even].
    replace (e + Zpos d) with t by lia.
    rewrite shr_fexp_canonical by lia. cbn [shr_m].
    unfold JS.emax, JS.prec.
    destruct (Z.leb_spec t (1024 - 53)); [reflexivity|lia].
Qed.



(** The mantissa and the exponent of a positive integer below [2^53], and
    the rounding of any of its shifted forms [p * 2^-e] at exponent [e]. *)
Lemma canonical_of_pos (p : positive) :
  Zpos p < 2 ^ 53 ->
  exists (k : positive) (t : Z),
    Zpos (digits2_pos k) = 53 /\ -52 <= t <= 0
    /\ Zpos k = Zpos p * 2 ^ (- t)
    /\ forall (s : bool) (m : positive) (e : Z),
         e <= 0 -> Zpos m = Zpos p * 2 ^ (- e) ->
         binary_round JS.prec JS.emax s m e = S754_finite s k t.
Proof.
  intros Hp.
  pose proof (proj2 (digits2_pos_le p 53 ltac:(lia)) Hp) as Hd.
  pose proof (Pos2Z.is_pos (digits2_pos p)) as Hd0.
  set (t := Zpos (digits2_pos p) - 53) in *.
  assert (Hpos : 0 < Zpos p * 2 ^ (- t)) by (apply Z.mul_pos_pos; [lia|apply Z.pow_pos_nonneg; lia]).
  destruct (Zpos p * 2 ^ (- t)) as [|k|k] eqn:Hk; try lia.
  exists k, t.
  assert (Hdk : Zpos (digits2_pos k) = 53).
  { rewrite (digits2_pos_mul_pow2 p k (- t)); lia. }
  split; [exact Hdk|]. split; [lia|]. split; [now rewrite Hk|].
  intros s m e He Hm. apply binary_round_exact; [exact Hdk|lia|].
  destruct (Z_le_gt_dec t e) as [Hle|Hgt].
  - left. split; [exact Hle|].
    rewrite Hm, <- Hk, <- Z.mul_assoc, <- Z.pow_add_r by lia.
    f_equal. f_equal. lia.
  - right. split; [lia|].
    rewrite Hm, <- Hk, <- Z.mul_assoc, <- Z.pow_add_r by lia.
    f_equal. f_equal. lia.
Qed.

(** Normalising [c * 2^-e] at exponent [e] gives the number of the safe
    integer [c]. *)
Lemma binary_normalize_shifted (c m e : Z) :
  JS.safeInteger c -> e <= 0 -> m = c * 2 ^ (- e) ->
  binary_normalize JS.prec JS.emax m e false = JS.fromZ c.
Proof.
  unfold JS.safeInteger, JS.fromZ. intros Hc He Hm.
  assert (Hpow : 0 < 2 ^ (- e)) by (apply Z.pow_pos_nonneg; lia).
  destruct c as [|p|p].
  - subst m. reflexivity.
  - destruct (canonical_of_pos p ltac:(lia)) as (k & t & _ & _ & _ & Hround).
    destruct m as [|q|q]; try lia.
    cbn [binary_normalize].
    rewrite (Hround false q e He Hm).
    symmetry. apply Hround; [lia|]. cbn. lia.
  - destruct (canonical_of_pos p ltac:(lia)) as (k & t & _ & _ & _ & Hround).
    destruct m as [|q|q]; try lia.
    cbn [binary_normalize].
    rewrite (Hround true q e He ltac:(lia)).
    symmetry. apply Hround; [lia|]. cbn. lia.
Qed.

(** The shape of the number of a safe integer that is not zero. *)
Lemma fromZ_finite (c : Z) :
  JS.safeInteger c -> c <> 0 ->
  exists (k : positive) (t : Z),
    JS.fromZ c = S754_finite (c <? 0) k t
    /\ -52 <= t <= 0 /\ Zpos k = Z.abs c * 2 ^ (- t)
    /\ Zpos (digits2_pos k) = 53.
Proof.
  unfold JS.safeInteger, JS.fromZ. intros Hc Hne.
  destruct c as [|p|p]; [contradiction| |];
    destruct (canonical_of_pos p ltac:(lia)) as (k & t & Hd & Ht & Hk & Hround);
    exists k, t; (split; [|split; [exact Ht|split; [exact Hk|exact Hd]]]);
    cbn [binary_normalize Z.ltb Z.compare]; apply Hround; cbn; lia.
Qed.

Lemma shl_align_value (m : positive) (e e' : Z) :
  Zpos (fst (shl_align m e e')) = Zpos m * 2 ^ (e - Z.min e e').
Proof.
  unfold shl_align.
  destruct (e' - e) as [|d|d] eqn:Hd; cbn [fst].
  - replace (e - Z.min e e') with 0 by lia. lia.
  - replace (e - Z.min e e') with 0 by lia. lia.
  - rewrite iter_xO_pow2. f_equal. f_equal. lia.
Qed.

Lemma aligned_value (c : Z) (k : positive) (t ez : Z) :
  c <> 0 -> Zpos k = Z.abs c * 2 ^ (- t) -> ez <= t -> t <= 0 ->
  cond_Zopp (c <? 0) (Zpos k * 2 ^ (t - ez)) = c * 2 ^ (- ez).
Proof.
  intros Hc Hk Hez Ht.
  rewrite Hk, <- Z.mul_assoc, <- Z.pow_add_r by lia.
  replace (- t + (t - ez)) with (- ez) by lia.
  destruct (Z.ltb_spec c 0); cbn [cond_Zopp]; lia.
Qed.

(** Addition of safe integers is exact while the sum is safe. *)
Lemma add_fromZ (a b : Z) :
  JS.safeInteger a -> JS.safeInteger b -> JS.safeInteger (a + b) ->
  JS.add (JS.fromZ a) (JS.fromZ b) = JS.fromZ (a + b).
Proof.
  intros Ha Hb Hab.
  destruct (Z.eq_dec a 0) as [->|Ha0].
  { destruct (Z.eq_dec b 0) as [->|Hb0]; [reflexivity|].
    rewrite Z.add_0_l.
    destruct (fromZ_finite b Hb Hb0) as (k & t & -> & _).
    reflexivity. }
  destruct (Z.eq_dec b 0) as [->|Hb0].
  { rewrite Z.add_0_r. destruct (fromZ_finite a Ha Ha0) as (k & t & -> & _).
    reflexivity. }
  destruct (fromZ_finite a Ha Ha0) as (ka & ta & -> & Hta & Hka & _).
  destruct (fromZ_finite b Hb Hb0) as (kb & tb & -> & Htb & Hkb & _).
  unfold JS.add, SFadd.
  apply binary_normalize_shifted; [exact Hab|lia|].
  rewrite !shl_align_value.
  replace (tb - Z.min tb (Z.min ta tb)) with (tb - Z.min ta tb) by lia.
  replace (ta - Z.min ta (Z.min ta tb)) with (ta - Z.min ta tb) by lia.
  rewrite (aligned_value a ka ta (Z.min ta tb)) by (assumption || lia).
  rewrite (aligned_value b kb tb (Z.min ta tb)) by (assumption || lia).
  lia.
Qed.



Lemma sub_add_opp (x y : number) : JS.sub x y = JS.add x (SFopp y).
Proof.
  destruct x as [sx|sx| |sx mx ex]; destruct y as [sy|sy| |sy my ey];
    try reflexivity; destruct sx, sy; reflexivity.
Qed.

Lemma fromZ_opp (c : Z) : JS.safeInteger c -> c <> 0 -> JS.fromZ (- c) = SFopp (JS.fromZ c).
Proof.
  unfold JS.safeInteger, JS.fromZ. intros Hc Hne.
  destruct c as [|p|p]; [contradiction| |];
    destruct (canonical_of_pos p ltac:(lia)) as (k & t & _ & _ & _ & Hround);
    [change (- Z.pos p) with (Z.neg p)|change (- Z.neg p) with (Z.pos p)];
    unfold binary_normalize;
    rewrite (Hround true p 0), (Hround false p 0) by (cbn; lia); reflexivity.
Qed.

(** Subtraction of safe integers is exact while the difference is safe. *)
Lemma sub_fromZ (a b : Z) :
  JS.safeInteger a -> JS.safeInteger b -> JS.safeInteger (a - b) ->
  JS.sub (JS.fromZ a) (JS.fromZ b) = JS.fromZ (a - b).
Proof.
  intros Ha Hb Hab.
  destruct (Z.eq_dec b 0) as [->|Hb0].
  { rewrite Z.sub_0_r.
    destruct (Z.eq_dec a 0) as [->|Ha0]; [reflexivity|].
    destruct (fromZ_finite a Ha Ha0) as (k & t & -> & _). reflexivity. }
  rewrite sub_add_opp, <- fromZ_opp by assumption.
  apply add_fromZ; [exact Ha|unfold JS.safeInteger in *; lia|exact Hab].
Qed.

(** With 53 digits or more there is nothing to shift to the left. *)
Lemma binary_round_no_shl (s : bool) (m : positive) (e : Z) :
  53 <= Zpos (digits2_pos m) ->
  binary_round JS.prec JS.emax s m e
  = binary_round_aux JS.prec JS.emax s (Zpos m) e loc_Exact.
Proof.
  intros Hd. unfold binary_round, shl_align.
  assert (H : e <= fexp JS.prec JS.emax (Zpos (digits2_pos m) + e))
    by (unfold fexp, emin, JS.prec, JS.emax; lia).
  destruct (fexp JS.prec JS.emax (Zpos (digits2_pos m) + e) - e) eqn:Hs;
    [reflexivity|reflexivity|lia].
Qed.

(** Multiplication of safe integers that are not zero is exact while the
    product is safe. *)
Lemma mul_fromZ (a b : Z) :
  JS.safeInteger a -> JS.safeInteger b -> JS.safeInteger (a * b) -> a <> 0 -> b <> 0 ->
  JS.mul (JS.fromZ a) (JS.fromZ b) = JS.fromZ (a * b).
Proof.
  intros Ha Hb Hab Ha0 Hb0.
  destruct (fromZ_finite a Ha Ha0) as (ka & ta & -> & Hta & Hka & Hda).
  destruct (fromZ_finite b Hb Hb0) as (kb & tb & -> & Htb & Hkb & Hdb).
  unfold JS.mul, SFmul.
  assert (Hab0 : a * b <> 0) by lia.
  assert (Hprod : Zpos (ka * kb) = Z.abs (a * b) * 2 ^ (- (ta + tb))).
  { rewrite Pos2Z.inj_mul, Hka, Hkb, Z.abs_mul.
    replace (- (ta + tb)) with (- ta + - tb) by lia.
    rewrite Z.pow_add_r by lia. lia. }
  assert (Hsign : xorb (a <? 0) (b <? 0) = (a * b <? 0)).
  { destruct (Z.ltb_spec a 0), (Z.ltb_spec b 0), (Z.ltb_spec (a * b) 0);
      try reflexivity; nia. }
  rewrite Hsign.
  assert (Hdig : 53 <= Zpos (digits2_pos (ka * kb))).
  { destruct (Z_le_gt_dec 53 (Zpos (digits2_pos (ka * kb)))) as [H|H]; [exact H|].
    assert (H1 : Zpos (ka * kb) < 2 ^ 52) by (apply digits2_pos_le; lia).
    assert (H2 : ~ Zpos ka < 2 ^ 52).
    { intros H2. apply (digits2_pos_le ka 52) in H2; lia. }
    rewrite Pos2Z.inj_mul in H1. nia. }
  rewrite <- binary_round_no_shl by exact Hdig.
  unfold JS.fromZ.
  destruct (a * b) as [|p|p] eqn:Hp; [contradiction| |];
    destruct (canonical_of_pos p ltac:(unfold JS.safeInteger in Hab; lia))
      as (k & t & _ & _ & _ & Hround);
    cbn [binary_normalize Z.ltb Z.compare];
    rewrite (Hround _ (ka * kb)%positive (ta + tb)) by (cbn in Hprod; lia);
    symmetry; apply Hround; cbn; lia.
Qed.

End NumberFacts.


(** ** The invoice slice *)

Section SliceProperties.

Import InvoiceSlice.

(** The conditional assignment of [currentInvoice] leaves the list alone. *)
Lemma invoices_if_set_currentInvoice (b : bool) (v : option Invoice.t)
  (s : InvoiceState) :
  invoices (if b then set_currentInvoice v s else s) = invoices s.
Proof. destruct b; reflexivity. Qed.

Lemma currentInvoice_if_set (b : bool) (v : option Invoice.t) (s : InvoiceState) :
  currentInvoice (if b then set_currentInvoice v s else s)
  = if b then v else currentInvoice s.
Proof. destruct b; reflexivity. Qed.

(** The entries with id [d] and the entries with another id make up the
    list. *)
Lemma filter_id_complement (d : string) (l : list Invoice.t) :
  Permutation
    (filter (fun inv => Invoice.id inv <> d) l
       ++ filter (fun inv => Invoice.id inv = d) l)
    l.
Proof.
  induction l as [|inv l IH]; [reflexivity|].
  rewrite !filter_cons.
  destruct (decide (Invoice.id inv = d)) as [Heq|Hne].
  - rewrite decide_False by tauto.
    rewrite <- Permutation_middle. now constructor.
  - rewrite decide_True by exact Hne. cbn. now constructor.
Qed.

(** [findIndex] returns the first position whose entry has the id. *)
Lemma findIndex_Some (d : string) (l : list Invoice.t) (i : nat) :
  findIndex d l = Some i ->
  exists old : Invoice.t,
    l !! i = Some old /\ Invoice.id old = d
    /\ forall (j : nat) (inv : Invoice.t),
         l !! j = Some inv -> (j < i)%nat -> Invoice.id inv <> d.
Proof.
  unfold findIndex. intros H.
  destruct (list_find _ l) as [[i' old]|] eqn:Hfind; [|discriminate].
  cbn in H. injection H as ->.
  apply list_find_Some in Hfind as (Hlook & Hid & Hfirst).
  exists old. split; [exact Hlook|]. split; [exact Hid|].
  intros j inv Hj Hlt. exact (Hfirst j inv Hj Hlt).
Qed.

Lemma findIndex_None (d : string) (l : list Invoice.t) :
  findIndex d l = None -> forall inv : Invoice.t, In inv l -> Invoice.id inv <> d.
Proof.
  unfold findIndex. intros H inv Hin.
  destruct (list_find _ l) as [[i' old]|] eqn:Hfind; [discriminate|].
  apply list_find_None in Hfind.
  rewrite Forall_forall in Hfind. apply Hfind. now apply list_elem_of_In.
Qed.

(** C9: the fulfilled delete action keeps exactly the entries whose id
    differs from [d], unchanged and in their order (the result is the
    filtered list, a sublist of the prior one, and together with the
    entries of id [d] it makes up the prior list), and [currentInvoice]
    becomes null when its id is [d] and is unchanged otherwise. *)
Theorem delete_fulfilled_removes_matching (state : InvoiceState) (d : string) :
  let state' := reducer state (deleteInvoiceAsync_fulfilled d) in
  invoices state' = filter (fun inv => Invoice.id inv <> d) (invoices state)
  /\ (forall inv, In inv (invoices state')
                  <-> In inv (invoices state) /\ Invoice.id inv <> d)
  /\ sublist (invoices state') (invoices state)
  /\ Permutation
       (invoices state' ++ filter (fun inv => Invoice.id inv = d) (invoices state))
       (invoices state)
  /\ currentInvoice state' =
       match currentInvoice state with
       | Some c => if String.eqb (Invoice.id c) d then None else Some c
       | None => None
       end.
Proof.
  cbn zeta. unfold reducer, onDeleteInvoice.
  rewrite invoices_if_set_currentInvoice, currentInvoice_if_set.
  cbn [set_invoices set_loading invoices currentInvoice].
  split; [reflexivity|].
  split.
  { intros inv. rewrite <- !list_elem_of_In, list_elem_of_filter. tauto. }
  split; [apply sublist_filter; apply _|].
  split; [apply filter_id_complement|].
  unfold currentInvoiceHasId. cbn [set_invoices set_loading currentInvoice].
  destruct (currentInvoice state) as [c|]; [|reflexivity].
  destruct (String.eqb (Invoice.id c) d); reflexivity.
Qed.

(** C10: every rejected case, of each of the five thunks, leaves
    [invoices], [currentInvoice] and [totalCount] as they were, sets
    [loading] to false and sets [error] to a message that is not empty: the
    message of the error, or the fallback text of the thunk. *)
Theorem rejected_leaves_data (state : InvoiceState) (t : Thunk)
  (err : SerializedError) :
  let state' := reducer state (rejected t err) in
  invoices state' = invoices state
  /\ currentInvoice state' = currentInvoice state
  /\ totalCount state' = totalCount state
  /\ loading state' = false
  /\ exists msg : string,
       error state' = Some msg /\ JS.strTruthy msg = true
       /\ msg = match message err with
                | Some m => if JS.strTruthy m then m else failureText t
                | None => failureText t
                end.
Proof.
  cbn zeta. unfold reducer, onRejected.
  cbn [set_error set_loading invoices currentInvoice totalCount loading error].
  repeat (split; [reflexivity|]).
  eexists. split; [reflexivity|]. split; [|reflexivity].
  unfold JS.strOrElse.
  destruct (message err) as [m|].
  - destruct (JS.strTruthy m) eqn:Hm; [exact Hm|destruct t; reflexivity].
  - destruct t; reflexivity.
Qed.

(** C5, as stated, fails: the fulfilled update of an invoice overwrites the
    list entry (and the current invoice) that holds the same id; the
    original record is gone and no further entry is added. *)
Lemma update_fulfilled_overwrites_same_id :
  let original := Examples.invoice "inv-1" (JS.fromZ 20) in
  let edited := Examples.invoice "inv-1" (JS.fromZ 25) in
  let state := Examples.stateOf [original] (Some original) in
  let state' := reducer state (updateInvoiceAsync_fulfilled edited) in
  Invoice.id edited = Invoice.id original
  /\ In original (invoices state)
  /\ invoices state' = [edited]
  /\ currentInvoice state' = Some edited
  /\ ~ In original (invoices state')
  /\ ~ Spec.keepsOriginal state edited.
Proof.
  cbn zeta.
  assert (Hne : Examples.invoice "inv-1" (JS.fromZ 20)
                <> Examples.invoice "inv-1" (JS.fromZ 25)).
  { intros H. apply (f_equal Invoice.total) in H. vm_compute in H. discriminate. }
  assert (Hres : invoices (reducer (Examples.stateOf [Examples.invoice "inv-1" (JS.fromZ 20)]
                                       (Some (Examples.invoice "inv-1" (JS.fromZ 20))))
                             (updateInvoiceAsync_fulfilled
                                (Examples.invoice "inv-1" (JS.fromZ 25))))
                 = [Examples.invoice "inv-1" (JS.fromZ 25)]) by reflexivity.
  split; [reflexivity|]. split; [now left|].
  split; [exact Hres|]. split; [reflexivity|].
  split.
  - rewrite Hres. intros [H|[]]. now apply Hne.
  - intros Hkeep. specialize (Hkeep _ (or_introl eq_refl)).
    rewrite Hres in Hkeep. destruct Hkeep as [H|[]]. now apply Hne.
Qed.

(** C5, amended: the fulfilled update replaces in place.  The list keeps
    its length; when an entry has the payload's id, the first such entry
    becomes the payload and every other position is unchanged; when none
    has, the list is unchanged; [currentInvoice] becomes the payload when
    it has the payload's id and is unchanged otherwise.  The editor's save
    is a [PUT] on the id being edited.  What the engine returned is kept as
    it is in the record created from it, as [extracted_fields] and
    [raw_text], which no update carries. *)
Theorem update_fulfilled_replaces_in_place (state : InvoiceState)
  (payload : Invoice.t) :
  let state' := reducer state (updateInvoiceAsync_fulfilled payload) in
  length (invoices state') = length (invoices state)
  /\ (forall i : nat,
        findIndex (Invoice.id payload) (invoices state) = Some i ->
        invoices state' !! i = Some payload
        /\ (exists old : Invoice.t,
              invoices state !! i = Some old
              /\ Invoice.id old = Invoice.id payload)
        /\ forall j : nat, j <> i -> invoices state' !! j = invoices state !! j)
  /\ (findIndex (Invoice.id payload) (invoices state) = None ->
        invoices state' = invoices state
        /\ forall inv, In inv (invoices state) -> Invoice.id inv <> Invoice.id payload)
  /\ currentInvoice state' =
       match currentInvoice state with
       | Some c => if String.eqb (Invoice.id c) (Invoice.id payload)
                   then Some payload else Some c
       | None => None
       end
  /\ (forall (id0 target : string) (lineItems : list InvoiceDetailPage.LineItem)
             (invoiceData : InvoiceDetailPage.InvoiceData) (u : InvoiceUpdate.t),
       InvoiceDetailPage.handleSave (Some id0) lineItems invoiceData
       = Some (target, u) ->
       target = id0
       /\ InvoiceApi.updateInvoice target u
          = (InvoiceApi.PUT, "/api/invoices/" +:+ id0, u))
  /\ forall ocrResult : OCRResponse.t,
       InvoiceCreate.extracted_fields (UploadInvoicePage.invoiceData ocrResult)
       = Some (OCRResponse.extracted_fields ocrResult)
       /\ InvoiceCreate.raw_text (UploadInvoicePage.invoiceData ocrResult)
          = Some (OCRResponse.raw_text ocrResult).
Proof.
  cbn zeta. unfold reducer, onUpdateInvoice.
  rewrite invoices_if_set_currentInvoice, currentInvoice_if_set.
  cbn [set_loading invoices currentInvoice].
  assert (Hsave : forall (id0 target : string) lineItems invoiceData u,
             InvoiceDetailPage.handleSave (Some id0) lineItems invoiceData
             = Some (target, u) ->
             target = id0
             /\ InvoiceApi.updateInvoice target u
                = (InvoiceApi.PUT, "/api/invoices/" +:+ id0, u)).
  { intros id0 target lineItems invoiceData u.
    unfold InvoiceDetailPage.handleSave.
    destruct (JS.strTruthy id0); [|discriminate].
    intros [= <- _]. split; reflexivity. }
  assert (Hcur : forall s : InvoiceState,
             currentInvoice s = currentInvoice state ->
             (if currentInvoiceHasId s (Invoice.id payload)
              then Some payload else currentInvoice state)
             = match currentInvoice state with
               | Some c => if String.eqb (Invoice.id c) (Invoice.id payload)
                           then Some payload else Some c
               | None => None
               end).
  { intros s Hs. unfold currentInvoiceHasId. rewrite Hs.
    destruct (currentInvoice state) as [c|]; [|reflexivity].
    destruct (String.eqb _ _); reflexivity. }
  destruct (findIndex (Invoice.id payload) (invoices state)) as [i|] eqn:Hfind;
    cbn [set_invoices invoices currentInvoice].
  - split; [apply length_insert|].
    split.
    { intros i' [= <-].
      destruct (findIndex_Some _ _ _ Hfind) as (old & Hlook & Hid & _).
      split; [|split].
      - apply list_lookup_insert_eq. eapply lookup_lt_Some, Hlook.
      - exists old. now split.
      - intros j Hj. apply list_lookup_insert_ne. congruence. }
    split; [discriminate|].
    split; [now apply (Hcur (set_invoices _ _))|]. split; [exact Hsave|].
    intros ocrResult. split; reflexivity.
  - split; [reflexivity|].
    split; [discriminate|].
    split.
    { intros _. split; [reflexivity|]. now apply findIndex_None. }
    split; [now apply (Hcur (set_loading _ _))|]. split; [exact Hsave|].
    intros ocrResult. split; reflexivity.
Qed.

End SliceProperties.

(** ** Saving the recognition result *)

Section UploadProperties.

Import UploadInvoicePage.

(** C1, as stated, fails: with no evidence for any field, [subtotal],
    [tax], [tax_amount], [discount] and [total] are saved as the number 0
    and [currency] as "USD", not as null. *)
Lemma zero_evidence_totals_saved_as_zero :
  exists saved : InvoiceCreate.t,
    handleSaveInvoice (Some Examples.emptyScan) = Some saved
    /\ ExtractedFields.subtotal Examples.nothingExtracted = None
    /\ ExtractedFields.total Examples.nothingExtracted = None
    /\ InvoiceCreate.subtotal saved = Some JS.zero
    /\ InvoiceCreate.tax saved = Some JS.zero
    /\ InvoiceCreate.tax_amount saved = Some JS.zero
    /\ InvoiceCreate.discount saved = Some JS.zero
    /\ InvoiceCreate.total saved = JS.zero
    /\ InvoiceCreate.currency saved = Some "USD"
    /\ InvoiceCreate.subtotal saved <> None.
Proof.
  eexists. split; [reflexivity|].
  cbn. repeat (split; [reflexivity|]). discriminate.
Qed.

(** C1, amended: a text field with no extracted value is saved as null
    (the invoice number, the vendor fields, the bill-to fields, the dates,
    the purchase order, the image path), and so is the list of line items;
    [subtotal], [tax], [tax_amount], [discount] and [total] with no
    extracted value are saved as 0, and a missing currency as "USD". *)
Theorem missing_fields_saved (ocrResult : OCRResponse.t) :
  let extracted := OCRResponse.extracted_fields ocrResult in
  exists saved : InvoiceCreate.t,
    handleSaveInvoice (Some ocrResult) = Some saved
    /\ (ExtractedFields.invoice_number extracted = None ->
        InvoiceCreate.invoice_number saved = None)
    /\ (ExtractedFields.vendor extracted = None -> InvoiceCreate.vendor saved = None)
    /\ (ExtractedFields.vendor_address extracted = None ->
        InvoiceCreate.vendor_address saved = None)
    /\ (ExtractedFields.vendor_email extracted = None ->
        InvoiceCreate.vendor_email saved = None)
    /\ (ExtractedFields.vendor_phone extracted = None ->
        InvoiceCreate.vendor_phone saved = None)
    /\ (ExtractedFields.bill_to_name extracted = None ->
        InvoiceCreate.bill_to_name saved = None)
    /\ (ExtractedFields.bill_to_address extracted = None ->
        InvoiceCreate.bill_to_address saved = None)
    /\ (ExtractedFields.invoice_date extracted = None ->
        ExtractedFields.date extracted = None ->
        InvoiceCreate.invoice_date saved = None)
    /\ (ExtractedFields.due_date extracted = None ->
        InvoiceCreate.due_date saved = None)
    /\ (ExtractedFields.purchase_order extracted = None ->
        InvoiceCreate.purchase_order saved = None)
    /\ (ExtractedFields.items extracted = None -> InvoiceCreate.line_items saved = None)
    /\ (OCRResponse.image_path ocrResult = None -> InvoiceCreate.image_path saved = None)
    /\ (ExtractedFields.subtotal extracted = None ->
        InvoiceCreate.subtotal saved = Some JS.zero)
    /\ (ExtractedFields.taxAmount extracted = None ->
        ExtractedFields.tax extracted = None ->
        InvoiceCreate.tax saved = Some JS.zero
        /\ InvoiceCreate.tax_amount saved = Some JS.zero)
    /\ (ExtractedFields.discount extracted = None ->
        InvoiceCreate.discount saved = Some JS.zero)
    /\ (ExtractedFields.total extracted = None -> InvoiceCreate.total saved = JS.zero)
    /\ (ExtractedFields.currency extracted = None ->
        InvoiceCreate.currency saved = Some "USD").
Proof.
  cbn zeta. eexists. split; [reflexivity|].
  unfold invoiceData.
  cbn [InvoiceCreate.invoice_number InvoiceCreate.vendor InvoiceCreate.vendor_address
       InvoiceCreate.vendor_email InvoiceCreate.vendor_phone InvoiceCreate.bill_to_name
       InvoiceCreate.bill_to_address InvoiceCreate.invoice_date InvoiceCreate.due_date
       InvoiceCreate.purchase_order InvoiceCreate.line_items InvoiceCreate.image_path
       InvoiceCreate.subtotal InvoiceCreate.tax InvoiceCreate.tax_amount
       InvoiceCreate.discount InvoiceCreate.total InvoiceCreate.currency].
  repeat split; intros; repeat match goal with H : _ = None |- _ => rewrite H; clear H end;
    reflexivity.
Qed.

End UploadProperties.

(** ** The status of a record *)

Section StatusProperties.

(** C4 on the code: the status selector of the invoice detail editor of
    unnamed/part_001 offers "Approved" and "Overdue", which are outside the
    four statuses that the list page and the routed editor name as the only
    allowed ones and for which the list page has no colour of its own;
    choosing one and saving sends it as the status of the record.  The
    routed editor offers exactly the four. *)
Theorem status_selector_offers_unlisted_status :
  let chosen := "Approved" in
  let form :=
    InvoiceDetailPage.handleInputChange "status" (InvoiceDetailPage.Str chosen)
      InvoiceDetailPage.initialInvoiceData in
  In chosen InvoiceDetailPage.statusOptions
  /\ In "Overdue" InvoiceDetailPage.statusOptions
  /\ ~ In chosen Spec.statusSet
  /\ ~ In "Overdue" Spec.statusSet
  /\ ~ In chosen InvoicesListPage.allowedStatuses
  /\ InvoicesListPage.getStatusColor chosen = "bg-gray-100 text-gray-700"
  /\ (InvoiceUpdate.status <$> (snd <$> InvoiceDetailPage.handleSave (Some "inv-1") [] form))
     = Some (Some chosen)
  /\ (forall s : string, In s InvoiceDetailesPage.statusOptions <-> In s Spec.statusSet)
  /\ (forall s : string, In s InvoicesListPage.allowedStatuses <-> In s Spec.statusSet).
Proof.
  cbn zeta.
  split; [cbn; tauto|]. split; [cbn; tauto|].
  split; [cbn; intros H; repeat destruct H as [H|H]; discriminate || exact H|].
  split; [cbn; intros H; repeat destruct H as [H|H]; discriminate || exact H|].
  split; [cbn; intros H; repeat destruct H as [H|H]; discriminate || exact H|].
  split; [reflexivity|]. split; [reflexivity|].
  split; intros s; cbn; tauto.
Qed.

End StatusProperties.

(** ** The invoice detail editor *)

Section EditorProperties.

Local Open Scope Z_scope.

Import InvoiceDetailPage.





Lemma calculateSubtotal_sumAmounts (lineItems : list LineItem) :
  calculateSubtotal lineItems = Spec.sumAmounts (map amount lineItems).
Proof.
  unfold calculateSubtotal, Spec.sumAmounts.
  generalize JS.zero. induction lineItems as [|item l IH]; intros acc; cbn; [reflexivity|].
  apply IH.
Qed.

(** The line items that are saved are the rows, field by field. *)
Lemma saved_line_items_are_rows (lineItems : list LineItem) :
  Forall2 (fun row item =>
             LineItemData.description item = description row
             /\ LineItemData.qty item = qty row
             /\ LineItemData.rate item = rate row
             /\ LineItemData.amount item = amount row)
    lineItems (map saveLineItem lineItems)
  /\ map LineItemData.amount (map saveLineItem lineItems) = map amount lineItems.
Proof.
  split.
  - induction lineItems as [|row rows IH]; cbn [map]; constructor;
      [repeat split|exact IH].
  - rewrite map_map. reflexivity.
Qed.

Lemma calculateTotal_sameNumber (lineItems : list LineItem) (invoiceData : InvoiceData) :
  JS.isNaN (tax invoiceData) = false ->
  JS.isNaN (discount invoiceData) = false ->
  Spec.sameNumber (calculateTotal lineItems invoiceData)
    (JS.sub (JS.add (calculateSubtotal lineItems) (tax invoiceData))
            (discount invoiceData)).
Proof.
  intros Htax Hdisc. unfold calculateTotal. cbn zeta.
  apply sub_sameNumber; [apply add_sameNumber|].
  - apply sameNumber_refl.
  - now apply orElse_zero_sameNumber.
  - now apply orElse_zero_sameNumber.
Qed.

(** C2, as the claim states it, fails on two paths.  In the routed editor
    (app/invoice-detailes/page.tsx) a form whose total input holds 22 saves
    22 for one row of amount 10, tax 5 and no discount, where the sum of the
    amounts plus the tax minus the discount is 15.  On the create path a
    recognition result with subtotal 10, tax 2, discount 1 and no total is
    saved with the total 0, not with the derived 11. *)
Lemma manual_total_is_saved_underived :
  let rows := [Examples.row "item-0" (JS.fromZ 1) (JS.fromZ 10) (JS.fromZ 10)] in
  let routed := Examples.routedForm JS.zero (JS.fromZ 5) JS.zero (JS.fromZ 22) in
  let saved := InvoiceDetailesPage.updateData rows routed in
  let created :=
    UploadInvoicePage.invoiceData
      (Examples.scanWithTotals (Some (JS.fromZ 10)) (Some (JS.fromZ 2))
         (Some (JS.fromZ 1)) None) in
  InvoiceDetailesPage.handleSave (Some "7") rows routed = Some ("7", saved)
  /\ InvoiceUpdate.total saved = Some (JS.fromZ 22)
  /\ InvoiceUpdate.subtotal saved = Some (JS.fromZ 10)
  /\ InvoiceUpdate.tax saved = Some (JS.fromZ 5)
  /\ InvoiceUpdate.discount saved = Some JS.zero
  /\ JS.sub (JS.add (Spec.sumAmounts (map amount rows)) (JS.fromZ 5)) JS.zero
     = JS.fromZ 15
  /\ JS.strictEquals (JS.fromZ 22) (JS.fromZ 15) = false
  /\ InvoiceCreate.subtotal created = Some (JS.fromZ 10)
  /\ InvoiceCreate.tax created = Some (JS.fromZ 2)
  /\ InvoiceCreate.discount created = Some (JS.fromZ 1)
  /\ InvoiceCreate.total created = JS.zero
  /\ JS.sub (JS.add (JS.fromZ 10) (JS.fromZ 2)) (JS.fromZ 1) = JS.fromZ 11
  /\ JS.strictEquals JS.zero (JS.fromZ 11) = false.
Proof.
  cbn zeta.
  split; [reflexivity|]. split; [vm_compute; reflexivity|].
  split; [vm_compute; reflexivity|]. split; [reflexivity|]. split; [reflexivity|].
  split; [vm_compute; reflexivity|]. split; [vm_compute; reflexivity|].
  split; [vm_compute; reflexivity|]. split; [vm_compute; reflexivity|].
  split; [vm_compute; reflexivity|]. split; [reflexivity|].
  split; vm_compute; reflexivity.
Qed.

(** C2, amended.  In the editor of unnamed/part_001, for every list of rows
    and all tax and discount that are numbers ([NaN] is none), the record
    that is saved holds the rows as its line items, field by field; its
    subtotal is the sum of the amounts of those line items; its tax and
    discount are those of the form; and its total is the subtotal plus the
    tax minus the discount, the sign of a zero apart (JavaScript compares
    [+0] and [-0] equal).  The routed editor saves the same line items; its
    subtotal is the manual one when that is not zero and the sum of the
    amounts otherwise; its total is the manual one when that is not zero and
    otherwise the saved subtotal plus the tax minus the discount.  The
    create path saves the recognised total, or 0 when there is none,
    whatever subtotal, tax and discount were recognised. *)
Theorem saved_total_is_subtotal_plus_tax_minus_discount
  (lineItems : list LineItem) (invoiceData : InvoiceData)
  (routed : InvoiceDetailesPage.InvoiceData) (ocrResult : OCRResponse.t) :
  JS.isNaN (tax invoiceData) = false ->
  JS.isNaN (discount invoiceData) = false ->
  JS.isNaN (InvoiceDetailesPage.tax routed) = false ->
  JS.isNaN (InvoiceDetailesPage.discount routed) = false ->
  let u := updateData lineItems invoiceData in
  let r := InvoiceDetailesPage.updateData lineItems routed in
  (exists (items : list LineItemData.t) (subtotal total : number),
     InvoiceUpdate.line_items u = Some items
     /\ Forall2 (fun row item =>
                   LineItemData.description item = description row
                   /\ LineItemData.qty item = qty row
                   /\ LineItemData.rate item = rate row
                   /\ LineItemData.amount item = amount row) lineItems items
     /\ InvoiceUpdate.subtotal u = Some subtotal
     /\ InvoiceUpdate.tax u = Some (tax invoiceData)
     /\ InvoiceUpdate.discount u = Some (discount invoiceData)
     /\ InvoiceUpdate.total u = Some total
     /\ subtotal = Spec.sumAmounts (map LineItemData.amount items)
     /\ Spec.sameNumber total
          (JS.sub (JS.add subtotal (tax invoiceData)) (discount invoiceData))
     /\ JS.sameValueZero total
          (JS.sub (JS.add subtotal (tax invoiceData)) (discount invoiceData)) = true
     /\ forall id0 : string,
          JS.strTruthy id0 = true ->
          handleSave (Some id0) lineItems invoiceData = Some (id0, u))
  /\ (exists (items : list LineItemData.t) (subtotal total : number),
        InvoiceUpdate.line_items r = Some items
        /\ InvoiceUpdate.line_items r = InvoiceUpdate.line_items u
        /\ InvoiceUpdate.subtotal r = Some subtotal
        /\ InvoiceUpdate.tax r = Some (InvoiceDetailesPage.tax routed)
        /\ InvoiceUpdate.discount r = Some (InvoiceDetailesPage.discount routed)
        /\ InvoiceUpdate.total r = Some total
        /\ subtotal
           = (if JS.truthy (InvoiceDetailesPage.subtotal routed)
              then InvoiceDetailesPage.subtotal routed
              else Spec.sumAmounts (map LineItemData.amount items))
        /\ (JS.truthy (InvoiceDetailesPage.total routed) = true ->
            total = InvoiceDetailesPage.total routed)
        /\ (JS.truthy (InvoiceDetailesPage.total routed) = false ->
            Spec.sameNumber total
              (JS.sub (JS.add subtotal (InvoiceDetailesPage.tax routed))
                      (InvoiceDetailesPage.discount routed)))
        /\ forall id0 : string,
             JS.strTruthy id0 = true ->
             InvoiceDetailesPage.handleSave (Some id0) lineItems routed = Some (id0, r))
  /\ InvoiceCreate.total (UploadInvoicePage.invoiceData ocrResult)
     = JS.optOrElse
         (ExtractedFields.total (OCRResponse.extracted_fields ocrResult)) JS.zero.
Proof.
  intros Htax Hdisc Hrtax Hrdisc. cbn zeta.
  destruct (saved_line_items_are_rows lineItems) as [Hrows Hamounts].
  split; [|split; [|reflexivity]].
  - exists (map saveLineItem lineItems), (calculateSubtotal lineItems),
      (calculateTotal lineItems invoiceData).
    split; [reflexivity|]. split; [exact Hrows|].
    repeat (split; [reflexivity|]).
    split; [rewrite Hamounts; apply calculateSubtotal_sumAmounts|].
    pose proof (calculateTotal_sameNumber lineItems invoiceData Htax Hdisc) as Hsame.
    split; [exact Hsame|].
    split; [now apply sameNumber_sameValueZero|].
    intros id0 Hid. unfold handleSave. now rewrite Hid.
  - exists (map saveLineItem lineItems),
      (JS.orElse (InvoiceDetailesPage.subtotal routed)
         (InvoiceDetailesPage.calculateSubtotal lineItems)),
      (JS.orElse (InvoiceDetailesPage.total routed)
         (InvoiceDetailesPage.calculateTotal lineItems routed)).
    repeat (split; [reflexivity|]).
    split.
    { unfold JS.orElse. rewrite Hamounts.
      destruct (JS.truthy (InvoiceDetailesPage.subtotal routed)); [reflexivity|].
      exact (calculateSubtotal_sumAmounts lineItems). }
    split.
    { intros Ht. unfold JS.orElse at 1. now rewrite Ht. }
    split.
    { intros Ht. unfold JS.orElse at 1. rewrite Ht.
      unfold InvoiceDetailesPage.calculateTotal. cbn zeta.
      apply sub_sameNumber; [apply add_sameNumber|].
      - apply sameNumber_refl.
      - now apply orElse_zero_sameNumber.
      - now apply orElse_zero_sameNumber. }
    intros id0 Hid. unfold InvoiceDetailesPage.handleSave. now rewrite Hid.
Qed.

Lemma saved_total_witness :
  let lineItems := [Examples.row "item-0" (JS.fromZ 2) (JS.fromZ 10) (JS.fromZ 20)] in
  let invoiceData := Examples.form (JS.fromZ 2) JS.zero in
  let u := updateData lineItems invoiceData in
  exists (items : list LineItemData.t) (subtotal total : number),
    InvoiceUpdate.line_items u = Some items
    /\ Forall2 (fun row item =>
                  LineItemData.description item = description row
                  /\ LineItemData.qty item = qty row
                  /\ LineItemData.rate item = rate row
                  /\ LineItemData.amount item = amount row) lineItems items
    /\ InvoiceUpdate.subtotal u = Some subtotal
    /\ InvoiceUpdate.tax u = Some (tax invoiceData)
    /\ InvoiceUpdate.discount u = Some (discount invoiceData)
    /\ InvoiceUpdate.total u = Some total
    /\ subtotal = Spec.sumAmounts (map LineItemData.amount items)
    /\ Spec.sameNumber total
         (JS.sub (JS.add subtotal (tax invoiceData)) (discount invoiceData))
    /\ JS.sameValueZero total
         (JS.sub (JS.add subtotal (tax invoiceData)) (discount invoiceData)) = true
    /\ forall id0 : string,
         JS.strTruthy id0 = true ->
         handleSave (Some id0) lineItems invoiceData = Some (id0, u).
Proof.
  exact (proj1 (saved_total_is_subtotal_plus_tax_minus_discount
                  [Examples.row "item-0" (JS.fromZ 2) (JS.fromZ 10) (JS.fromZ 20)]
                  (Examples.form (JS.fromZ 2) JS.zero)
                  (Examples.routedForm JS.zero (JS.fromZ 2) JS.zero (JS.fromZ 22))
                  Examples.emptyScan eq_refl eq_refl eq_refl eq_refl)).
Defined.

(** The routed editor (app/invoice-detailes/page.tsx) differs here: a total
    entered by hand, when it is not zero, is saved as it is; only a zero
    total is replaced by the computed one. *)
Lemma routed_editor_saves_manual_total (lineItems : list LineItem)
  (invoiceData : InvoiceDetailesPage.InvoiceData) :
  InvoiceUpdate.total (InvoiceDetailesPage.updateData lineItems invoiceData)
  = Some (if JS.truthy (InvoiceDetailesPage.total invoiceData)
          then InvoiceDetailesPage.total invoiceData
          else InvoiceDetailesPage.calculateTotal lineItems invoiceData).
Proof. reflexivity. Qed.











End EditorProperties.

(** ** Order and products of the integers among the numbers *)

Section NumberOrder.

Local Open Scope Z_scope.

Lemma canonical_bounds (k : positive) :
  Zpos (digits2_pos k) = 53 -> 2 ^ 52 <= Zpos k < 2 ^ 53.
Proof.
  intros Hk.
  pose proof (proj1 (digits2_pos_le k 53 ltac:(lia)) ltac:(lia)) as Hup.
  destruct (Z_lt_le_dec (Zpos k) (2 ^ 52)) as [Hlt|Hge]; [|lia].
  pose proof (proj2 (digits2_pos_le k 52 ltac:(lia)) Hlt). lia.
Qed.

(** Canonical mantissas and exponents compare as the integers they stand
    for. *)
Lemma canonical_compare (a b : Z) (ka kb : positive) (ta tb : Z) :
  0 < a -> 0 < b ->
  ta <= 0 -> tb <= 0 ->
  Zpos ka = a * 2 ^ (- ta) -> Zpos kb = b * 2 ^ (- tb) ->
  Zpos (digits2_pos ka) = 53 -> Zpos (digits2_pos kb) = 53 ->
  match ta ?= tb with
  | Lt => Lt
  | Gt => Gt
  | Eq => Pos.compare_cont Eq ka kb
  end = (a ?= b).
Proof.
  intros Ha Hb Hta Htb Hka Hkb Hda Hdb.
  apply canonical_bounds in Hda, Hdb.
  assert (Hpa : 0 < 2 ^ (- ta)) by (apply Z.pow_pos_nonneg; lia).
  assert (Hpb : 0 < 2 ^ (- tb)) by (apply Z.pow_pos_nonneg; lia).
  destruct (Z.compare_spec ta tb) as [Heq|Hlt|Hgt].
  - subst tb. change (Pos.compare_cont Eq ka kb) with (Zpos ka ?= Zpos kb).
    rewrite Hka, Hkb.
    destruct (Z.compare_spec a b) as [->|H|H].
    + apply Z.compare_refl.
    + apply Z.compare_lt_iff. nia.
    + apply Z.compare_gt_iff. nia.
  - symmetry. apply Z.compare_lt_iff.
    assert (Hsplit : 2 ^ (- ta) = 2 ^ (- tb) * 2 ^ (tb - ta)).
    { rewrite <- Z.pow_add_r by lia. f_equal. lia. }
    assert (Hge2 : 2 <= 2 ^ (tb - ta)).
    { change 2 with (2 ^ 1) at 1. apply Z.pow_le_mono_r; lia. }
    rewrite Hsplit in Hka. nia.
  - symmetry. apply Z.compare_gt_iff.
    assert (Hsplit : 2 ^ (- tb) = 2 ^ (- ta) * 2 ^ (ta - tb)).
    { rewrite <- Z.pow_add_r by lia. f_equal. lia. }
    assert (Hge2 : 2 <= 2 ^ (ta - tb)).
    { change 2 with (2 ^ 1) at 1. apply Z.pow_le_mono_r; lia. }
    rewrite Hsplit in Hkb. nia.
Qed.

(** Safe integers compare as numbers the way they compare as integers. *)
Lemma SFcompare_fromZ (a b : Z) :
  JS.safeInteger a -> JS.safeInteger b ->
  SFcompare (JS.fromZ a) (JS.fromZ b) = Some (a ?= b).
Proof.
  intros Ha Hb.
  destruct (Z.eq_dec a 0) as [->|Ha0]; destruct (Z.eq_dec b 0) as [->|Hb0].
  - reflexivity.
  - destruct (fromZ_finite b Hb Hb0) as (kb & tb & -> & _).
    change (JS.fromZ 0) with (S754_zero false). cbn [SFcompare].
    destruct (Z.ltb_spec b 0); f_equal; symmetry;
      [apply Z.compare_gt_iff|apply Z.compare_lt_iff]; lia.
  - destruct (fromZ_finite a Ha Ha0) as (ka & ta & -> & _).
    change (JS.fromZ 0) with (S754_zero false). cbn [SFcompare].
    destruct (Z.ltb_spec a 0); f_equal; symmetry;
      [apply Z.compare_lt_iff|apply Z.compare_gt_iff]; lia.
  - destruct (fromZ_finite a Ha Ha0) as (ka & ta & -> & Hta & Hka & Hda).
    destruct (fromZ_finite b Hb Hb0) as (kb & tb & -> & Htb & Hkb & Hdb).
    cbn [SFcompare]. f_equal.
    destruct (Z.ltb_spec a 0) as [Han|Hap]; destruct (Z.ltb_spec b 0) as [Hbn|Hbp].
    + rewrite Z.abs_neq in Hka, Hkb by lia.
      pose proof (canonical_compare (- a) (- b) ka kb ta tb
                    ltac:(lia) ltac:(lia) ltac:(lia) ltac:(lia) Hka Hkb Hda Hdb) as H.
      rewrite Z.compare_opp in H.
      rewrite (Z.compare_antisym b a), <- H.
      destruct (ta ?= tb); reflexivity.
    + symmetry. apply Z.compare_lt_iff. lia.
    + symmetry. apply Z.compare_gt_iff. lia.
    + rewrite Z.abs_eq in Hka, Hkb by lia.
      apply (canonical_compare a b); lia.
Qed.

Lemma lt_fromZ (a b : Z) :
  JS.safeInteger a -> JS.safeInteger b ->
  JS.lt (JS.fromZ a) (JS.fromZ b) = (a <? b).
Proof.
  intros Ha Hb. unfold JS.lt, SFltb. rewrite SFcompare_fromZ by assumption.
  unfold Z.ltb. destruct (a ?= b); reflexivity.
Qed.

Lemma fromZ_not_NaN (a : Z) : JS.safeInteger a -> JS.isNaN (JS.fromZ a) = false.
Proof.
  intros Ha. destruct (Z.eq_dec a 0) as [->|Ha0]; [reflexivity|].
  destruct (fromZ_finite a Ha Ha0) as (k & t & -> & _). reflexivity.
Qed.

Lemma fromZ_not_negative_zero (a : Z) :
  JS.safeInteger a -> JS.fromZ a <> S754_zero true.
Proof.
  intros Ha. destruct (Z.eq_dec a 0) as [->|Ha0]; [discriminate|].
  destruct (fromZ_finite a Ha Ha0) as (k & t & -> & _). discriminate.
Qed.

Lemma Math_max_fromZ (a b : Z) :
  JS.safeInteger a -> JS.safeInteger b ->
  JS.Math_max (JS.fromZ a) (JS.fromZ b) = JS.fromZ (Z.max a b).
Proof.
  intros Ha Hb. unfold JS.Math_max.
  rewrite !fromZ_not_NaN by assumption. cbn [orb].
  change (SFltb (JS.fromZ a) (JS.fromZ b)) with (JS.lt (JS.fromZ a) (JS.fromZ b)).
  change (SFltb (JS.fromZ b) (JS.fromZ a)) with (JS.lt (JS.fromZ b) (JS.fromZ a)).
  rewrite !lt_fromZ by assumption.
  destruct (Z.ltb_spec a b); [now rewrite Z.max_r by lia|].
  destruct (Z.ltb_spec b a); [now rewrite Z.max_l by lia|].
  assert (a = b) by lia. subst b. rewrite Z.max_id.
  pose proof (fromZ_not_negative_zero a Ha).
  destruct (JS.fromZ a) as [[|]| | |]; congruence.
Qed.

Lemma Math_min_fromZ (a b : Z) :
  JS.safeInteger a -> JS.safeInteger b ->
  JS.Math_min (JS.fromZ a) (JS.fromZ b) = JS.fromZ (Z.min a b).
Proof.
  intros Ha Hb. unfold JS.Math_min.
  rewrite !fromZ_not_NaN by assumption. cbn [orb].
  change (SFltb (JS.fromZ a) (JS.fromZ b)) with (JS.lt (JS.fromZ a) (JS.fromZ b)).
  change (SFltb (JS.fromZ b) (JS.fromZ a)) with (JS.lt (JS.fromZ b) (JS.fromZ a)).
  rewrite !lt_fromZ by assumption.
  destruct (Z.ltb_spec a b); [now rewrite Z.min_l by lia|].
  destruct (Z.ltb_spec b a); [now rewrite Z.min_r by lia|].
  assert (a = b) by lia. subst b. rewrite Z.min_id.
  destruct (JS.fromZ a) as [[|]| | |]; reflexivity.
Qed.

(** Products of integers that are not negative, zero included. *)
Lemma mul_fromZ_nonneg (a b : Z) :
  0 <= a -> 0 <= b -> JS.safeInteger a -> JS.safeInteger b -> JS.safeInteger (a * b) ->
  JS.mul (JS.fromZ a) (JS.fromZ b) = JS.fromZ (a * b).
Proof.
  intros Ha0 Hb0 Ha Hb Hab.
  destruct (Z.eq_dec a 0) as [->|Hane].
  { rewrite Z.mul_0_l. destruct (Z.eq_dec b 0) as [->|Hbne]; [reflexivity|].
    destruct (fromZ_finite b Hb Hbne) as (k & t & -> & _).
    destruct (Z.ltb_spec b 0); [lia|reflexivity]. }
  destruct (Z.eq_dec b 0) as [->|Hbne].
  { rewrite Z.mul_0_r.
    destruct (fromZ_finite a Ha Hane) as (k & t & -> & _).
    destruct (Z.ltb_spec a 0); [lia|reflexivity]. }
  now apply mul_fromZ.
Qed.

End NumberOrder.

(** ** Strings *)

Section StringFacts.

Lemma trimEnd_idempotent (s : string) : JS.trimEnd (JS.trimEnd s) = JS.trimEnd s.
Proof.
  induction s as [|c s IH]; [reflexivity|].
  cbn [JS.trimEnd].
  destruct (JS.trimEnd s) as [|c' t] eqn:Ht.
  - destruct (JS.isWhiteSpace c) eqn:Hc; [reflexivity|].
    cbn [JS.trimEnd]. now rewrite Hc.
  - change (JS.trimEnd (String c (String c' t)))
      with (match JS.trimEnd (String c' t) with
            | EmptyString =>
                if JS.isWhiteSpace c then EmptyString else String c EmptyString
            | t' => String c t'
            end).
    now rewrite IH.
Qed.

Lemma trimStart_head (s : string) (c : ascii) (t : string) :
  JS.trimStart s = String c t -> JS.isWhiteSpace c = false.
Proof.
  induction s as [|c' s IH]; [discriminate|].
  cbn [JS.trimStart]. destruct (JS.isWhiteSpace c') eqn:Hc'; [exact IH|].
  intros [= <- _]. exact Hc'.
Qed.

Lemma trimEnd_head (c : ascii) (t : string) :
  JS.isWhiteSpace c = false -> exists t' : string, JS.trimEnd (String c t) = String c t'.
Proof.
  intros Hc. cbn [JS.trimEnd]. destruct (JS.trimEnd t) as [|c' t'].
  - rewrite Hc. now exists EmptyString.
  - now exists (String c' t').
Qed.

Lemma trimStart_trim (s : string) : JS.trimStart (JS.trim s) = JS.trim s.
Proof.
  unfold JS.trim. destruct (JS.trimStart s) as [|c t] eqn:Hs; [reflexivity|].
  pose proof (trimStart_head s c t Hs) as Hc.
  destruct (trimEnd_head c t Hc) as (t' & ->).
  cbn [JS.trimStart]. now rewrite Hc.
Qed.

(** A trimmed string has nothing left to trim. *)
Lemma trim_idempotent (s : string) : JS.trim (JS.trim s) = JS.trim s.
Proof.
  unfold JS.trim at 1. rewrite trimStart_trim. unfold JS.trim.
  apply trimEnd_idempotent.
Qed.

Lemma strTruthy_true (s : string) : JS.strTruthy s = true <-> s <> "".
Proof. destruct s; cbn; split; congruence. Qed.

Lemma includes_elem_of (l : list string) (x : string) :
  JS.includes l x = true <-> x ∈ l.
Proof.
  unfold JS.includes. rewrite existsb_exists. split.
  - intros (y & Hin & Heq). apply String.eqb_eq in Heq. subst y.
    now apply list_elem_of_In.
  - intros Hin. exists x. split; [now apply list_elem_of_In|apply String.eqb_refl].
Qed.

Lemma trimmedOrNull_trimmed (s : option string) (v : string) :
  JS.trimmedOrNull s = Some v -> JS.trim v = v.
Proof.
  destruct s as [w|]; [|discriminate]. cbn [JS.trimmedOrNull].
  destruct (JS.strTruthy w); [|discriminate].
  intros [= <-]. apply trim_idempotent.
Qed.

(** A filter that every element passes keeps the list. *)
Lemma filter_all {A : Type} (P : A -> Prop) `{forall x, Decision (P x)} (l : list A) :
  Forall P l -> filter P l = l.
Proof.
  induction 1 as [|x l Hx Hl IH]; [reflexivity|].
  rewrite filter_cons, IH. now destruct (decide (P x)).
Qed.

End StringFacts.

(** ** The invoice slice: how its actions compose *)

Section SliceLaws.

Import InvoiceSlice.

Lemma invoices_onUpdate (payload : Invoice.t) (state : InvoiceState) :
  invoices (onUpdateInvoice payload state)
  = match findIndex (Invoice.id payload) (invoices state) with
    | Some index => <[index := payload]> (invoices state)
    | None => invoices state
    end.
Proof.
  unfold onUpdateInvoice. cbn zeta. rewrite invoices_if_set_currentInvoice.
  cbn [set_loading invoices].
  destruct (findIndex _ _); reflexivity.
Qed.

Lemma currentInvoice_onUpdate (payload : Invoice.t) (state : InvoiceState) :
  currentInvoice (onUpdateInvoice payload state)
  = if currentInvoiceHasId state (Invoice.id payload) then Some payload
    else currentInvoice state.
Proof.
  unfold onUpdateInvoice. cbn zeta. rewrite currentInvoice_if_set.
  cbn [set_loading invoices].
  destruct (findIndex _ _); reflexivity.
Qed.

(** The payload written at the first index of its id is found there again. *)
Lemma findIndex_insert (payload : Invoice.t) (l : list Invoice.t) (i : nat) :
  findIndex (Invoice.id payload) l = Some i ->
  findIndex (Invoice.id payload) (<[i := payload]> l) = Some i.
Proof.
  intros H. destruct (findIndex_Some _ _ _ H) as (old & Hold & Hid & Hbefore).
  unfold findIndex.
  assert (Hfind : list_find (fun inv => Invoice.id inv = Invoice.id payload)
                    (<[i := payload]> l) = Some (i, payload)).
  { apply list_find_Some. split; [|split; [reflexivity|]].
    - apply list_lookup_insert_eq. now apply lookup_lt_Some in Hold.
    - intros j inv Hj Hlt.
      rewrite list_lookup_insert_ne in Hj by lia.
      now apply (Hbefore j inv). }
  now rewrite Hfind.
Qed.

Lemma findIndex_absent (d : string) (l : list Invoice.t) :
  d ∉ map Invoice.id l -> findIndex d l = None.
Proof.
  intros Hnot. destruct (findIndex d l) as [i|] eqn:Hfind; [|reflexivity].
  destruct (findIndex_Some _ _ _ Hfind) as (old & Hold & Hid & _).
  exfalso. apply Hnot. apply list_elem_of_fmap. exists old.
  split; [now symmetry|]. eapply list_elem_of_lookup_2. exact Hold.
Qed.

Lemma state_eq (s s' : InvoiceState) :
  invoices s = invoices s' -> currentInvoice s = currentInvoice s' ->
  loading s = loading s' -> error s = error s' -> totalCount s = totalCount s' ->
  s = s'.
Proof. destruct s, s'; cbn; intros; subst; reflexivity. Qed.

Lemma frame_onUpdate (payload : Invoice.t) (state : InvoiceState) :
  loading (onUpdateInvoice payload state) = false
  /\ error (onUpdateInvoice payload state) = error state
  /\ totalCount (onUpdateInvoice payload state) = totalCount state.
Proof.
  unfold onUpdateInvoice. cbn zeta.
  destruct (findIndex _ _); destruct (currentInvoiceHasId _ _); repeat split.
Qed.

Lemma frame_onDelete (payload : string) (state : InvoiceState) :
  loading (onDeleteInvoice payload state) = false
  /\ error (onDeleteInvoice payload state) = error state
  /\ totalCount (onDeleteInvoice payload state) = totalCount state.
Proof.
  unfold onDeleteInvoice. cbn zeta.
  destruct (currentInvoiceHasId _ _); repeat split.
Qed.

Lemma invoices_onDelete (payload : string) (state : InvoiceState) :
  invoices (onDeleteInvoice payload state)
  = filter (fun inv => Invoice.id inv <> payload) (invoices state).
Proof.
  unfold onDeleteInvoice. cbn zeta. now rewrite invoices_if_set_currentInvoice.
Qed.

Lemma currentInvoice_onDelete (payload : string) (state : InvoiceState) :
  currentInvoice (onDeleteInvoice payload state)
  = if currentInvoiceHasId state payload then None else currentInvoice state.
Proof.
  unfold onDeleteInvoice. cbn zeta. now rewrite currentInvoice_if_set.
Qed.

(** An update keeps the ids of the list, in their order. *)
Lemma ids_onUpdate (payload : Invoice.t) (state : InvoiceState) :
  map Invoice.id (invoices (onUpdateInvoice payload state))
  = map Invoice.id (invoices state).
Proof.
  rewrite invoices_onUpdate.
  destruct (findIndex (Invoice.id payload) (invoices state)) as [i|] eqn:Hfind;
    [|reflexivity].
  destruct (findIndex_Some _ _ _ Hfind) as (old & Hold & Hid & _).
  change (map Invoice.id (<[i:=payload]> (invoices state)))
    with (Invoice.id <$> <[i:=payload]> (invoices state)).
  rewrite list_fmap_insert. apply list_insert_id.
  rewrite list_lookup_fmap, Hold. cbn. now rewrite Hid.
Qed.

(** X1: [totalCount] is written by the fulfilled fetch of the list, which
    sets it to the length of the payload, and by no other action; a create
    that follows a fetch therefore leaves the list one entry longer than
    [totalCount]. *)
Theorem totalCount_follows_fetch_only (state : InvoiceState) (action : Action) :
  totalCount (reducer state action)
  = match action with
    | fetchInvoices_fulfilled payload => List.length payload
    | _ => totalCount state
    end
  /\ forall (fetched : list Invoice.t) (created : Invoice.t),
       let state' :=
         reducer (reducer state (fetchInvoices_fulfilled fetched))
           (createInvoiceAsync_fulfilled created) in
       List.length (invoices state') = S (totalCount state').
Proof.
  split; [|reflexivity].
  destruct action; try reflexivity.
  - apply frame_onUpdate.
  - apply frame_onDelete.
Qed.

(** X2: the fulfilled update is idempotent: dispatching it a second time
    with the same payload leaves the whole state as the first left it. *)
Theorem update_fulfilled_idempotent (state : InvoiceState) (payload : Invoice.t) :
  reducer (reducer state (updateInvoiceAsync_fulfilled payload))
    (updateInvoiceAsync_fulfilled payload)
  = reducer state (updateInvoiceAsync_fulfilled payload).
Proof.
  cbn [reducer].
  set (state' := onUpdateInvoice payload state).
  pose proof (frame_onUpdate payload state) as (Hl & He & Ht).
  pose proof (frame_onUpdate payload state') as (Hl' & He' & Ht').
  apply state_eq.
  - rewrite invoices_onUpdate. unfold state'. rewrite invoices_onUpdate.
    destruct (findIndex (Invoice.id payload) (invoices state)) as [i|] eqn:Hfind.
    + rewrite (findIndex_insert _ _ _ Hfind). apply list_insert_insert_eq.
    + now rewrite Hfind.
  - rewrite currentInvoice_onUpdate. unfold state'.
    unfold currentInvoiceHasId at 1. rewrite currentInvoice_onUpdate.
    destruct (currentInvoiceHasId state (Invoice.id payload)) eqn:Hcur.
    + now rewrite String.eqb_refl.
    + unfold currentInvoiceHasId in Hcur. now rewrite Hcur.
  - unfold state' in *. congruence.
  - unfold state' in *. congruence.
  - unfold state' in *. congruence.
Qed.

(** X3: deleting the invoice that was just created, when no older entry
    has its id, gives back the list as it was before the create, and
    [currentInvoice], which the create had set to the new invoice, becomes
    null. *)
Theorem create_then_delete_restores (state : InvoiceState) (created : Invoice.t) :
  (forall inv : Invoice.t,
     inv ∈ invoices state -> Invoice.id inv <> Invoice.id created) ->
  let state' :=
    reducer (reducer state (createInvoiceAsync_fulfilled created))
      (deleteInvoiceAsync_fulfilled (Invoice.id created)) in
  invoices state' = invoices state /\ currentInvoice state' = None.
Proof.
  intros Hfresh. cbn zeta. cbn [reducer]. split.
  - rewrite invoices_onDelete. cbn [onCreateInvoice set_currentInvoice set_invoices
                                     set_loading invoices].
    rewrite filter_cons.
    destruct (decide (Invoice.id created <> Invoice.id created)); [congruence|].
    apply filter_all, Forall_forall. exact Hfresh.
  - rewrite currentInvoice_onDelete. unfold currentInvoiceHasId.
    cbn [onCreateInvoice set_currentInvoice currentInvoice].
    now rewrite String.eqb_refl.
Qed.

Lemma create_then_delete_restores_witness :
  invoices (reducer (reducer (Examples.stateOf [Examples.invoice "a" JS.zero] None)
                       (createInvoiceAsync_fulfilled (Examples.invoice "b" JS.zero)))
              (deleteInvoiceAsync_fulfilled "b"))
  = [Examples.invoice "a" JS.zero].
Proof.
  refine (proj1 (create_then_delete_restores
                   (Examples.stateOf [Examples.invoice "a" JS.zero] None)
                   (Examples.invoice "b" JS.zero) _)).
  intros inv Hin. apply list_elem_of_singleton in Hin. subst inv. discriminate.
Defined.

(** X4: a fulfilled update never changes which ids the list holds, nor
    their order or number; when no entry has the payload's id the list is
    left as it is (the payload is not added). *)
Theorem update_fulfilled_keeps_ids (state : InvoiceState) (payload : Invoice.t) :
  let state' := reducer state (updateInvoiceAsync_fulfilled payload) in
  map Invoice.id (invoices state') = map Invoice.id (invoices state)
  /\ List.length (invoices state') = List.length (invoices state)
  /\ (Invoice.id payload ∉ map Invoice.id (invoices state) ->
      invoices state' = invoices state).
Proof.
  cbn zeta. cbn [reducer]. split; [apply ids_onUpdate|]. split.
  - rewrite <- (length_map Invoice.id), ids_onUpdate. apply length_map.
  - intros Hnot. rewrite invoices_onUpdate. now rewrite findIndex_absent.
Qed.

(** X5: the slice keeps the ids of the list distinct: when they are
    distinct before an action they are distinct after it, provided a
    fetched list has distinct ids itself and a created invoice has an id
    that is not on the list yet. *)
Theorem distinct_ids_preserved (state : InvoiceState) (action : Action) :
  NoDup (map Invoice.id (invoices state)) ->
  match action with
  | fetchInvoices_fulfilled payload => NoDup (map Invoice.id payload)
  | createInvoiceAsync_fulfilled payload =>
      Invoice.id payload ∉ map Invoice.id (invoices state)
  | _ => True
  end ->
  NoDup (map Invoice.id (invoices (reducer state action))).
Proof.
  intros Hnd Hact. destruct action; cbn [reducer]; try exact Hnd.
  - exact Hact.
  - cbn. apply NoDup_cons. split; assumption.
  - now rewrite ids_onUpdate.
  - rewrite invoices_onDelete.
    eapply sublist_NoDup; [exact Hnd|].
    apply fmap_sublist, sublist_filter.
Qed.

Lemma distinct_ids_preserved_witness :
  NoDup (map Invoice.id
           (invoices (reducer (Examples.stateOf [Examples.invoice "a" JS.zero] None)
                        (createInvoiceAsync_fulfilled (Examples.invoice "b" JS.zero))))).
Proof.
  apply (distinct_ids_preserved (Examples.stateOf [Examples.invoice "a" JS.zero] None)
           (createInvoiceAsync_fulfilled (Examples.invoice "b" JS.zero))).
  - apply NoDup_singleton.
  - cbn. intros H. apply list_elem_of_singleton in H. discriminate.
Defined.

(** X6: on a list with distinct ids, after a fulfilled update every entry
    that has the payload's id is the payload itself (no older version of the
    record is left), and the payload is on the list whenever its id was. *)
Theorem update_fulfilled_leaves_no_stale_copy (state : InvoiceState) (payload : Invoice.t) :
  NoDup (map Invoice.id (invoices state)) ->
  let state' := reducer state (updateInvoiceAsync_fulfilled payload) in
  (forall inv : Invoice.t,
     inv ∈ invoices state' -> Invoice.id inv = Invoice.id payload -> inv = payload)
  /\ (Invoice.id payload ∈ map Invoice.id (invoices state) ->
      payload ∈ invoices state').
Proof.
  intros Hnd. cbn zeta. cbn [reducer]. rewrite invoices_onUpdate.
  destruct (findIndex (Invoice.id payload) (invoices state)) as [i|] eqn:Hfind.
  - destruct (findIndex_Some _ _ _ Hfind) as (old & Hold & Hid & _).
    pose proof (lookup_lt_Some _ _ _ Hold) as Hlt.
    split.
    + intros inv Hin Hsame.
      apply list_elem_of_lookup in Hin as (j & Hj).
      destruct (decide (j = i)) as [->|Hne].
      * rewrite list_lookup_insert_eq in Hj by exact Hlt. congruence.
      * rewrite list_lookup_insert_ne in Hj by congruence.
        exfalso. apply Hne.
        apply (NoDup_lookup (map Invoice.id (invoices state)) j i (Invoice.id payload) Hnd).
        -- change (map Invoice.id (invoices state)) with (Invoice.id <$> invoices state).
           rewrite list_lookup_fmap, Hj. cbn. now rewrite Hsame.
        -- change (map Invoice.id (invoices state)) with (Invoice.id <$> invoices state).
           rewrite list_lookup_fmap, Hold. cbn. now rewrite Hid.
    + intros _. apply list_elem_of_lookup. exists i.
      now apply list_lookup_insert_eq.
  - pose proof (findIndex_None _ _ Hfind) as Hnone. split.
    + intros inv Hin Hsame. exfalso.
      apply (Hnone inv); [now apply list_elem_of_In|exact Hsame].
    + intros Hin. exfalso. apply list_elem_of_fmap in Hin as (inv & Hid & Hin).
      apply (Hnone inv); [now apply list_elem_of_In|now symmetry].
Qed.

Lemma update_fulfilled_leaves_no_stale_copy_witness :
  Examples.invoice "a" (JS.fromZ 5)
  ∈ invoices (reducer (Examples.stateOf [Examples.invoice "a" JS.zero] None)
                (updateInvoiceAsync_fulfilled (Examples.invoice "a" (JS.fromZ 5)))).
Proof.
  refine (proj2 (update_fulfilled_leaves_no_stale_copy
                   (Examples.stateOf [Examples.invoice "a" JS.zero] None)
                   (Examples.invoice "a" (JS.fromZ 5)) _) _).
  - apply NoDup_singleton.
  - cbn. apply list_elem_of_singleton. reflexivity.
Defined.

End SliceLaws.

(** ** The upload page: choosing a file and saving what was recognised *)

Section UploadFlow.

Import UploadInvoicePage.

Lemma maxFileSize_value : maxFileSize = JS.fromZ 10485760.
Proof. vm_compute. reflexivity. Qed.

Lemma optOrElse_not_NaN (x : option number) (d : number) :
  JS.isNaN d = false -> JS.isNaN (JS.optOrElse x d) = false.
Proof.
  intros Hd. destruct x as [v|]; [|exact Hd].
  cbn [JS.optOrElse]. unfold JS.orElse.
  destruct v; cbn; try exact Hd; reflexivity.
Qed.

Lemma optOrElse_truthy (x : option number) (d : number) :
  JS.truthy d = true -> JS.truthy (JS.optOrElse x d) = true.
Proof.
  intros Hd. destruct x as [v|]; [|exact Hd].
  cbn [JS.optOrElse]. unfold JS.orElse.
  destruct (JS.truthy v) eqn:Hv; assumption.
Qed.

(** X7: for a file whose size is [n] bytes, [handleFileSelect] ends with
    the toast about the file type exactly when the type does not start with
    "image/" (whatever the size), and with the toast about the size exactly
    when the type passes and [n] is more than 10 * 1024 * 1024, so a file of
    exactly that size is accepted; a refused file changes neither the
    component state nor the store. *)
Theorem handleFileSelect_validation (file : File) (n : Z) (upload : Upload)
  (page : PageState) (ocr : OcrSlice.OCRState) :
  size file = JS.fromZ n -> (0 <= n < 2 ^ 53)%Z ->
  let out := handleFileSelect file upload page ocr in
  (snd out = notAnImage <-> JS.startsWith (type file) "image/" = false)
  /\ (snd out = tooLarge
      <-> JS.startsWith (type file) "image/" = true /\ (10 * 1024 * 1024 < n)%Z)
  /\ (snd out = notAnImage \/ snd out = tooLarge -> fst out = (page, ocr)).
Proof.
  intros Hsize Hn. cbn zeta. unfold handleFileSelect.
  assert (Hgt : JS.gt (size file) maxFileSize = (10485760 <? n)%Z).
  { rewrite Hsize, maxFileSize_value. unfold JS.gt.
    apply lt_fromZ; unfold JS.safeInteger; lia. }
  rewrite Hgt.
  destruct (JS.startsWith (type file) "image/") eqn:Htype; cbn [negb].
  - destruct (Z.ltb_spec 10485760%Z n) as [Hbig|Hsmall].
    + cbn [fst snd]. split; [split; congruence|]. split; [|reflexivity].
      split; [intros _|reflexivity]. split; [reflexivity|lia].
    + destruct upload as [response|err]; cbn [fst snd];
        (split; [split; congruence|]);
        (split; [split; [discriminate|lia]|]);
        intros [H|H]; discriminate.
  - cbn [fst snd]. split; [tauto|]. split; [|reflexivity].
    split; [discriminate|]. intros [H _]. discriminate.
Qed.

Lemma handleFileSelect_validation_witness :
  fst (handleFileSelect
         {| name := "scan.pdf"; size := JS.fromZ 2048; type := "application/pdf" |}
         (Responded Examples.emptyScan)
         {| selectedFile := None; showPreview := false |} OcrSlice.initialState)
  = ({| selectedFile := None; showPreview := false |}, OcrSlice.initialState).
Proof.
  refine (proj2 (proj2 (handleFileSelect_validation
                          {| name := "scan.pdf"; size := JS.fromZ 2048;
                             type := "application/pdf" |}
                          2048 (Responded Examples.emptyScan)
                          {| selectedFile := None; showPreview := false |}
                          OcrSlice.initialState eq_refl _)) _).
  - lia.
  - left. reflexivity.
Defined.

(** X8: once a file has passed the two checks, the store of the
    recognition depends on nothing that was in it before: after a failed
    recognition it holds no result, so [handleSaveInvoice] saves nothing, no
    file name, and the error text; after a successful one it holds the
    response, which is what [handleSaveInvoice] saves from, the file's name
    and no error, and the preview is shown. *)
Theorem accepted_file_replaces_recognition (file : File) (upload : Upload)
  (page : PageState) (ocr : OcrSlice.OCRState) :
  JS.startsWith (type file) "image/" = true ->
  JS.gt (size file) maxFileSize = false ->
  let out := handleFileSelect file upload page ocr in
  match upload with
  | Responded response =>
      out = ({| selectedFile := Some file; showPreview := true |},
             {| OcrSlice.result := Some response; OcrSlice.loading := false;
                OcrSlice.error := None;
                OcrSlice.uploadedFileName := Some (name file) |},
             processed)
      /\ handleSaveInvoice (OcrSlice.result (snd (fst out)))
         = Some (invoiceData response)
  | Failed err =>
      out = ({| selectedFile := Some file; showPreview := false |},
             {| OcrSlice.result := None; OcrSlice.loading := false;
                OcrSlice.error :=
                  Some (JS.strOrElse (InvoiceSlice.message err)
                          "Failed to process invoice image");
                OcrSlice.uploadedFileName := None |},
             failed)
      /\ handleSaveInvoice (OcrSlice.result (snd (fst out))) = None
  end.
Proof.
  intros Htype Hsize. cbn zeta. unfold handleFileSelect.
  rewrite Htype, Hsize. cbn [negb].
  destruct upload as [response|err]; split; reflexivity.
Qed.

Lemma accepted_file_replaces_recognition_witness :
  handleSaveInvoice
    (OcrSlice.result
       (snd (fst (handleFileSelect
                    {| name := "scan.png"; size := JS.fromZ 2048; type := "image/png" |}
                    (Failed {| InvoiceSlice.message := None |})
                    {| selectedFile := None; showPreview := true |}
                    {| OcrSlice.result := Some Examples.emptyScan;
                       OcrSlice.loading := false; OcrSlice.error := None;
                       OcrSlice.uploadedFileName := Some "blank.png" |}))))
  = None.
Proof.
  refine (proj2 (accepted_file_replaces_recognition
                   {| name := "scan.png"; size := JS.fromZ 2048; type := "image/png" |}
                   (Failed {| InvoiceSlice.message := None |})
                   {| selectedFile := None; showPreview := true |}
                   {| OcrSlice.result := Some Examples.emptyScan;
                      OcrSlice.loading := false; OcrSlice.error := None;
                      OcrSlice.uploadedFileName := Some "blank.png" |} _ _)).
  - reflexivity.
  - vm_compute. reflexivity.
Defined.

(** X9: whatever the recognition returned, no number of the record that
    [handleSaveInvoice] sends is NaN, [tax_amount] equals [tax], and the
    line items are as many as the recognised items, each with a quantity
    that is neither zero nor NaN and with a rate and an amount that are not
    NaN; without recognised items [line_items] is null. *)
Theorem saved_numbers_are_numbers (ocrResult : OCRResponse.t) :
  let saved := invoiceData ocrResult in
  JS.isNaN (InvoiceCreate.total saved) = false
  /\ Forall (fun field => exists x : number, field = Some x /\ JS.isNaN x = false)
       [InvoiceCreate.subtotal saved; InvoiceCreate.tax saved;
        InvoiceCreate.tax_amount saved; InvoiceCreate.discount saved]
  /\ InvoiceCreate.tax_amount saved = InvoiceCreate.tax saved
  /\ match ExtractedFields.items (OCRResponse.extracted_fields ocrResult) with
     | Some items =>
         exists rows : list LineItemData.t,
           InvoiceCreate.line_items saved = Some rows
           /\ List.length rows = List.length items
           /\ Forall (fun row => JS.truthy (LineItemData.qty row) = true
                                 /\ JS.isNaN (LineItemData.rate row) = false
                                 /\ JS.isNaN (LineItemData.amount row) = false) rows
     | None => InvoiceCreate.line_items saved = None
     end.
Proof.
  cbn zeta. unfold invoiceData.
  cbn [InvoiceCreate.total InvoiceCreate.subtotal InvoiceCreate.tax
       InvoiceCreate.tax_amount InvoiceCreate.discount InvoiceCreate.line_items].
  split; [now apply optOrElse_not_NaN|].
  split.
  { repeat constructor; eexists; (split; [reflexivity|now apply optOrElse_not_NaN]). }
  split; [reflexivity|].
  destruct (ExtractedFields.items (OCRResponse.extracted_fields ocrResult))
    as [items|]; [|reflexivity].
  exists (map mapItem items). split; [reflexivity|]. split; [apply length_map|].
  apply Forall_forall. intros row Hrow.
  apply list_elem_of_fmap in Hrow as (item & -> & _).
  unfold mapItem. cbn [LineItemData.qty LineItemData.rate LineItemData.amount].
  split; [apply optOrElse_truthy; vm_compute; reflexivity|].
  split; now apply optOrElse_not_NaN.
Qed.

(** X10: each of the eight text fields that [handleSaveInvoice] trims is
    saved either as null or as a string that trimming leaves unchanged (no
    white space at either end); a recognised vendor that consists of white
    space only is saved as the empty string, not as null. *)
Theorem saved_text_is_trimmed (ocrResult : OCRResponse.t) :
  let saved := invoiceData ocrResult in
  Forall (fun field => forall v : string, field = Some v -> JS.trim v = v)
    [InvoiceCreate.invoice_number saved; InvoiceCreate.vendor saved;
     InvoiceCreate.vendor_address saved; InvoiceCreate.vendor_email saved;
     InvoiceCreate.vendor_phone saved; InvoiceCreate.bill_to_name saved;
     InvoiceCreate.bill_to_address saved; InvoiceCreate.purchase_order saved]
  /\ (forall s : string,
        ExtractedFields.vendor (OCRResponse.extracted_fields ocrResult) = Some s ->
        s <> "" -> JS.trim s = "" -> InvoiceCreate.vendor saved = Some "").
Proof.
  cbn zeta. unfold invoiceData.
  cbn [InvoiceCreate.invoice_number InvoiceCreate.vendor InvoiceCreate.vendor_address
       InvoiceCreate.vendor_email InvoiceCreate.vendor_phone InvoiceCreate.bill_to_name
       InvoiceCreate.bill_to_address InvoiceCreate.purchase_order].
  split.
  - repeat constructor; intros v; apply trimmedOrNull_trimmed.
  - intros s -> Hne Hblank. cbn [JS.trimmedOrNull].
    apply strTruthy_true in Hne. now rewrite Hne, Hblank.
Qed.

End UploadFlow.

(** ** The invoice list page *)

Section ListPageProperties.

Import InvoicesListPage.

Local Open Scope Z_scope.

(** Every handler maps a page that is an integer from 1 on to such a
    page. *)
Lemma currentPage_from (events : list Event) (state : ListState) (k0 : Z) :
  currentPage state = JS.fromZ k0 -> 1 <= k0 ->
  k0 + Z.of_nat (List.length events) < 2 ^ 53 ->
  exists k : Z,
    1 <= k <= Z.max k0 1 + Z.of_nat (List.length events)
    /\ currentPage (fold_left handle events state) = JS.fromZ k.
Proof.
  revert state k0.
  induction events as [|event events IH]; intros state k0 Hk0 Hge Hlen.
  - exists k0. cbn. split; [lia|exact Hk0].
  - cbn [fold_left]. cbn [List.length] in Hlen |- *.
    assert (Hone : JS.safeInteger 1) by (unfold JS.safeInteger; lia).
    assert (Hsafe : JS.safeInteger k0) by (unfold JS.safeInteger; lia).
    destruct event as [value|value| |]; cbn [handle].
    + destruct (IH {| currentPage := JS.fromZ 1; searchQuery := value;
                      statusFilter := statusFilter state |} 1 eq_refl ltac:(lia)
                   ltac:(lia)) as (k & Hk & Hpage).
      exists k. split; [lia|exact Hpage].
    + destruct (IH {| currentPage := JS.fromZ 1; searchQuery := searchQuery state;
                      statusFilter := value |} 1 eq_refl ltac:(lia)
                   ltac:(lia)) as (k & Hk & Hpage).
      exists k. split; [lia|exact Hpage].
    + rewrite Hk0, sub_fromZ, Math_max_fromZ
        by (try assumption; unfold JS.safeInteger; lia).
      destruct (IH {| currentPage := JS.fromZ (Z.max 1 (k0 - 1));
                      searchQuery := searchQuery state;
                      statusFilter := statusFilter state |} (Z.max 1 (k0 - 1))
                   eq_refl ltac:(lia) ltac:(lia)) as (k & Hk & Hpage).
      exists k. split; [lia|exact Hpage].
    + rewrite Hk0, add_fromZ by (try assumption; unfold JS.safeInteger; lia).
      destruct (IH {| currentPage := JS.fromZ (k0 + 1);
                      searchQuery := searchQuery state;
                      statusFilter := statusFilter state |} (k0 + 1)
                   eq_refl ltac:(lia) ltac:(lia)) as (k & Hk & Hpage).
      exists k. split; [lia|exact Hpage].
Qed.

(** X11: whatever sequence of searches, status choices and clicks on the
    two pagination buttons the page handles (fewer than 2^48 of them), the
    current page is an integer [k] from 1 on, at most one more than the
    number of events, and the query asks for [limit] 25 and [skip]
    25 * (k - 1), which is never negative and always a multiple of the
    limit. *)
Theorem query_stays_on_page_grid (events : list Event) :
  Z.of_nat (List.length events) < 2 ^ 48 ->
  let state := fold_left handle events initialListState in
  exists k : Z,
    1 <= k <= 1 + Z.of_nat (List.length events)
    /\ currentPage state = JS.fromZ k
    /\ Params.skip (loadInvoices state) = JS.fromZ (25 * (k - 1))
    /\ Params.limit (loadInvoices state) = JS.fromZ 25.
Proof.
  intros Hlen state.
  destruct (currentPage_from events initialListState 1 eq_refl ltac:(lia) ltac:(lia))
    as (k & Hk & Hpage).
  exists k. split; [lia|]. split; [exact Hpage|]. split; [|reflexivity].
  unfold loadInvoices. cbn [Params.skip]. fold state. unfold state at 1.
  rewrite Hpage. unfold limit.
  rewrite sub_fromZ, mul_fromZ_nonneg by (unfold JS.safeInteger; lia).
  f_equal. lia.
Qed.

Lemma query_stays_on_page_grid_witness :
  exists k : Z,
    1 <= k <= 1 + 3
    /\ currentPage (fold_left handle [nextPage; nextPage; previousPage] initialListState)
       = JS.fromZ k
    /\ Params.skip (loadInvoices
                      (fold_left handle [nextPage; nextPage; previousPage]
                         initialListState)) = JS.fromZ (25 * (k - 1))
    /\ Params.limit (loadInvoices
                       (fold_left handle [nextPage; nextPage; previousPage]
                          initialListState)) = JS.fromZ 25.
Proof.
  exact (query_stays_on_page_grid [nextPage; nextPage; previousPage] eq_refl).
Defined.

(** X12: on page [k] of a list that holds at most 25 invoices (one page
    of the back end), the range shown beside the pagination buttons starts
    at 25 * (k - 1) + 1 and ends at the number of invoices held; from the
    second page on, the end is therefore less than the start. *)
Theorem range_label_ends (state : ListState) (invoices : list Invoice.t) (k : Z) :
  currentPage state = JS.fromZ k -> 1 <= k < 2 ^ 48 ->
  (List.length invoices <= 25)%nat ->
  rangeStart state = JS.fromZ (25 * (k - 1) + 1)
  /\ rangeEnd state invoices = JS.length invoices
  /\ (2 <= k -> JS.lt (rangeEnd state invoices) (rangeStart state) = true).
Proof.
  intros Hpage Hk Hlen.
  assert (Hstart : rangeStart state = JS.fromZ (25 * (k - 1) + 1)).
  { unfold rangeStart, limit. rewrite Hpage.
    rewrite sub_fromZ, mul_fromZ_nonneg, add_fromZ by (unfold JS.safeInteger; lia).
    f_equal. lia. }
  assert (Hend : rangeEnd state invoices = JS.length invoices).
  { unfold rangeEnd, limit, JS.length. rewrite Hpage.
    rewrite mul_fromZ_nonneg, Math_min_fromZ by (unfold JS.safeInteger; lia).
    f_equal. lia. }
  split; [exact Hstart|]. split; [exact Hend|].
  intros H2. rewrite Hstart, Hend. unfold JS.length.
  rewrite lt_fromZ by (unfold JS.safeInteger; lia).
  apply Z.ltb_lt. lia.
Qed.

Lemma range_label_ends_witness :
  JS.lt (rangeEnd (handle initialListState nextPage) [Examples.invoice "a" JS.zero])
        (rangeStart (handle initialListState nextPage)) = true.
Proof.
  refine (proj2 (proj2 (range_label_ends (handle initialListState nextPage)
                          [Examples.invoice "a" JS.zero] 2 _ _ _)) _).
  - vm_compute. reflexivity.
  - lia.
  - cbn. lia.
  - lia.
Defined.

(** X13: the query carries a [search] exactly when the search box holds
    more than white space, and then it is the trimmed text, which is not
    empty and has no white space at either end; it carries a [status]
    exactly when the selector is not on "All Statuses", so that text is
    never sent as a status. *)
Theorem query_filters_are_normalised (state : ListState) :
  let params := loadInvoices state in
  (forall q : string,
     Params.search params = Some q ->
     q = JS.trim (searchQuery state) /\ q <> "" /\ JS.trim q = q)
  /\ (Params.search params = None <-> JS.trim (searchQuery state) = "")
  /\ (forall s : string,
        Params.status params = Some s -> s = statusFilter state /\ s <> "All Statuses")
  /\ (Params.status params = None <-> statusFilter state = "All Statuses").
Proof.
  cbn zeta. unfold loadInvoices. cbn [Params.search Params.status].
  split; [|split; [|split]].
  - intros q. destruct (JS.strTruthy (JS.trim (searchQuery state))) eqn:Ht; [|discriminate].
    intros [= <-]. split; [reflexivity|]. split; [now apply strTruthy_true|].
    apply trim_idempotent.
  - destruct (JS.trim (searchQuery state)) as [|c t]; cbn; split; congruence.
  - intros s. destruct (String.eqb_spec (statusFilter state) "All Statuses");
      [discriminate|]. intros [= <-]. split; [reflexivity|assumption].
  - destruct (String.eqb_spec (statusFilter state) "All Statuses"); split; congruence.
Qed.

(** X14: the four counters split the list: [total] is the sum of [paid],
    [pending], [rejected] and the number of invoices with any other status
    (a draft, for one), so the three status cards never add up to more than
    the total, and they add up to it exactly when every invoice is paid,
    pending review or rejected. *)
Theorem stats_partition (invoices : list Invoice.t) :
  let other :=
    filter (fun inv => Invoice.status inv <> "Paid"
                       /\ Invoice.status inv <> "Pending Review"
                       /\ Invoice.status inv <> "Rejected") invoices in
  (total (stats invoices)
   = paid (stats invoices) + pending (stats invoices) + rejected (stats invoices)
     + List.length other)%nat
  /\ (paid (stats invoices) + pending (stats invoices) + rejected (stats invoices)
      <= total (stats invoices))%nat
  /\ ((paid (stats invoices) + pending (stats invoices) + rejected (stats invoices)
       = total (stats invoices))%nat
      <-> Forall (fun inv => Invoice.status inv ∈ ["Paid"; "Pending Review"; "Rejected"])
            invoices).
Proof.
  cbn zeta. unfold stats. cbn [total paid pending rejected].
  assert (Hsum :
    (List.length invoices
     = List.length (filter (fun inv => Invoice.status inv = "Paid") invoices)
       + List.length (filter (fun inv => Invoice.status inv = "Pending Review") invoices)
       + List.length (filter (fun inv => Invoice.status inv = "Rejected") invoices)
       + List.length
           (filter (fun inv => Invoice.status inv <> "Paid"
                               /\ Invoice.status inv <> "Pending Review"
                               /\ Invoice.status inv <> "Rejected") invoices))%nat).
  { induction invoices as [|inv l IH]; [reflexivity|].
    rewrite !filter_cons. cbn [List.length].
    destruct (decide (Invoice.status inv = "Paid")) as [Hp|Hp];
      destruct (decide (Invoice.status inv = "Pending Review")) as [Hr|Hr];
      destruct (decide (Invoice.status inv = "Rejected")) as [Hj|Hj];
      try congruence;
      destruct (decide (Invoice.status inv <> "Paid"
                        /\ Invoice.status inv <> "Pending Review"
                        /\ Invoice.status inv <> "Rejected")) as [Ho|Ho];
      cbn [List.length]; try lia; try (destruct Ho; tauto); tauto. }
  split; [exact Hsum|]. split; [lia|].
  split.
  - intros Heq.
    assert (Hnil : filter (fun inv => Invoice.status inv <> "Paid"
                               /\ Invoice.status inv <> "Pending Review"
                               /\ Invoice.status inv <> "Rejected") invoices = []).
    { apply length_zero_iff_nil. lia. }
    apply Forall_forall. intros inv Hin.
    destruct (decide (Invoice.status inv = "Paid")) as [->|Hp]; [set_solver|].
    destruct (decide (Invoice.status inv = "Pending Review")) as [->|Hr]; [set_solver|].
    destruct (decide (Invoice.status inv = "Rejected")) as [->|Hj]; [set_solver|].
    assert (Hmem : inv ∈ filter (fun inv => Invoice.status inv <> "Paid"
                               /\ Invoice.status inv <> "Pending Review"
                               /\ Invoice.status inv <> "Rejected") invoices).
    { apply list_elem_of_filter. tauto. }
    rewrite Hnil in Hmem. inversion Hmem.
  - intros Hall.
    assert (Hnil : filter (fun inv => Invoice.status inv <> "Paid"
                               /\ Invoice.status inv <> "Pending Review"
                               /\ Invoice.status inv <> "Rejected") invoices = []).
    { clear Hsum. induction Hall as [|inv l Hinv Hall IH]; [reflexivity|].
      rewrite filter_cons, IH.
      destruct (decide (Invoice.status inv <> "Paid"
                        /\ Invoice.status inv <> "Pending Review"
                        /\ Invoice.status inv <> "Rejected")) as [Ho|Ho];
        [|reflexivity].
      rewrite !elem_of_cons, elem_of_nil in Hinv. tauto. }
    rewrite Hnil in Hsum. cbn [List.length] in Hsum. lia.
Qed.

Lemma filter_ne_absent (id : string) (l : list string) :
  id ∉ l -> filter (fun invId => invId <> id) l = l.
Proof.
  induction l as [|x l IH]; [reflexivity|].
  rewrite not_elem_of_cons. intros [Hne Hnot].
  rewrite filter_cons.
  destruct (decide (x <> id)) as [_|Heq]; [|exfalso; apply Heq; congruence].
  now rewrite IH.
Qed.

(** X15: [toggleSelectInvoice] flips the membership of its id and of no
    other id, and keeps a selection free of duplicates so; toggling twice an
    id that was not selected gives back the selection, and toggling twice a
    selected id of a duplicate-free selection gives back the same ids (the
    toggled one moved to the end). *)
Theorem toggleSelectInvoice_flips_membership (id : string) (selectedInvoices : list string) :
  (id ∈ toggleSelectInvoice id selectedInvoices <-> id ∉ selectedInvoices)
  /\ (forall other : string,
        other <> id ->
        (other ∈ toggleSelectInvoice id selectedInvoices <-> other ∈ selectedInvoices))
  /\ (NoDup selectedInvoices -> NoDup (toggleSelectInvoice id selectedInvoices))
  /\ (id ∉ selectedInvoices ->
      toggleSelectInvoice id (toggleSelectInvoice id selectedInvoices) = selectedInvoices)
  /\ (id ∈ selectedInvoices -> NoDup selectedInvoices ->
      toggleSelectInvoice id (toggleSelectInvoice id selectedInvoices)
      ≡ₚ selectedInvoices).
Proof.
  assert (Hflip : id ∈ toggleSelectInvoice id selectedInvoices <-> id ∉ selectedInvoices).
  { unfold toggleSelectInvoice.
    destruct (JS.includes selectedInvoices id) eqn:Hin.
    - apply includes_elem_of in Hin. rewrite list_elem_of_filter. tauto.
    - assert (Hnot : id ∉ selectedInvoices).
      { intros H. apply includes_elem_of in H. congruence. }
      rewrite elem_of_app, list_elem_of_singleton. tauto. }
  split; [exact Hflip|]. split; [|split; [|split]].
  - intros other Hne. unfold toggleSelectInvoice.
    destruct (JS.includes selectedInvoices id).
    + rewrite list_elem_of_filter. tauto.
    + rewrite elem_of_app, list_elem_of_singleton. tauto.
  - intros Hnd. unfold toggleSelectInvoice.
    destruct (JS.includes selectedInvoices id) eqn:Hin; [now apply NoDup_filter|].
    apply NoDup_app. split; [exact Hnd|]. split; [|apply NoDup_singleton].
    intros x Hx Hx'. apply list_elem_of_singleton in Hx'. subst x.
    apply includes_elem_of in Hx. congruence.
  - intros Hnot. unfold toggleSelectInvoice at 2.
    destruct (JS.includes selectedInvoices id) eqn:Hin.
    { apply includes_elem_of in Hin. contradiction. }
    unfold toggleSelectInvoice.
    assert (Hin' : JS.includes (selectedInvoices ++ [id]) id = true).
    { apply includes_elem_of. rewrite elem_of_app, list_elem_of_singleton. tauto. }
    rewrite Hin', filter_app, filter_ne_absent by exact Hnot.
    rewrite filter_cons. destruct (decide (id <> id)); [congruence|].
    apply app_nil_r.
  - intros Hin Hnd. unfold toggleSelectInvoice at 2.
    pose proof (proj2 (includes_elem_of _ _) Hin) as ->.
    unfold toggleSelectInvoice.
    assert (Hout : JS.includes (filter (fun invId => invId <> id) selectedInvoices) id
                   = false).
    { destruct (JS.includes _ id) eqn:H; [|reflexivity].
      apply includes_elem_of, list_elem_of_filter in H. tauto. }
    rewrite Hout.
    apply NoDup_Permutation.
    + apply NoDup_app. split; [now apply NoDup_filter|]. split; [|apply NoDup_singleton].
      intros x Hx Hx'. apply list_elem_of_singleton in Hx'.
      apply list_elem_of_filter in Hx. tauto.
    + exact Hnd.
    + intros x. rewrite elem_of_app, list_elem_of_filter, list_elem_of_singleton.
      destruct (decide (x = id)) as [->|Hne]; tauto.
Qed.

(** X16: when the selection has no duplicates and holds only ids of the
    listed invoices, whose ids are distinct, [toggleSelectAll] clears the
    selection exactly when every listed invoice is selected, and selects
    them all otherwise; the check box of the header is then checked exactly
    when it was not checked before and the list is not empty. *)
Theorem toggleSelectAll_clears_iff_all_selected
  (selectedInvoices : list string) (invoices : list Invoice.t) :
  NoDup selectedInvoices ->
  NoDup (map Invoice.id invoices) ->
  selectedInvoices ⊆ map Invoice.id invoices ->
  (toggleSelectAll selectedInvoices invoices = []
   <-> selectedInvoices ≡ₚ map Invoice.id invoices)
  /\ (toggleSelectAll selectedInvoices invoices = []
      \/ toggleSelectAll selectedInvoices invoices = map Invoice.id invoices)
  /\ allSelected (toggleSelectAll selectedInvoices invoices) invoices
     = negb (allSelected selectedInvoices invoices)
       && negb (Nat.eqb (List.length invoices) 0).
Proof.
  intros Hsel Hids Hsub. unfold toggleSelectAll, allSelected.
  destruct (Nat.eqb_spec (List.length selectedInvoices) (List.length invoices))
    as [Hlen|Hlen].
  - split; [|split].
    + split; [intros _|reflexivity].
      apply submseteq_length_Permutation.
      * now apply NoDup_submseteq.
      * rewrite length_map. lia.
    + now left.
    + cbn [List.length]. destruct invoices; reflexivity.
  - split; [|split].
    + split.
      * intros Hnil. exfalso. apply Hlen.
        apply (f_equal (@List.length string)) in Hnil.
        rewrite length_map in Hnil. cbn in Hnil.
        destruct invoices; [|discriminate].
        destruct selectedInvoices as [|x l]; [reflexivity|].
        specialize (Hsub x ltac:(left)). inversion Hsub.
      * intros Hperm. exfalso. apply Hlen.
        apply Permutation_length in Hperm. now rewrite length_map in Hperm.
    + now right.
    + rewrite length_map, Nat.eqb_refl. cbn [andb negb].
      destruct invoices; reflexivity.
Qed.

Lemma toggleSelectAll_clears_iff_all_selected_witness :
  toggleSelectAll ["a"] [Examples.invoice "a" JS.zero] = []
  \/ toggleSelectAll ["a"] [Examples.invoice "a" JS.zero]
     = map Invoice.id [Examples.invoice "a" JS.zero].
Proof.
  refine (proj1 (proj2 (toggleSelectAll_clears_iff_all_selected
                          ["a"] [Examples.invoice "a" JS.zero] _ _ _))).
  - apply NoDup_singleton.
  - apply NoDup_singleton.
  - intros x Hx. exact Hx.
Defined.

(** X17: [getLogoColor] always returns a class string, never [undefined]:
    the index it computes is inside [colors]; the string is the gray one
    exactly for a vendor that is null or empty, and one of the five colours
    otherwise. *)
Theorem getLogoColor_defined (vendor : option string) :
  exists color : string,
    getLogoColor vendor = Some color
    /\ (color ∈ colors \/ color = "bg-gray-100 text-gray-700")
    /\ (color = "bg-gray-100 text-gray-700" <-> vendor = None \/ vendor = Some "").
Proof.
  destruct vendor as [[|c v]|]; cbn [getLogoColor JS.charCodeAt0].
  - eexists. split; [reflexivity|]. split; [now right|]. tauto.
  - pose proof (Nat.mod_upper_bound (nat_of_ascii c) (List.length colors)
                  ltac:(discriminate)) as Hlt.
    destruct (lookup_lt_is_Some_2 colors _ Hlt) as [color Hcolor].
    exists color. split; [exact Hcolor|].
    assert (Hin : color ∈ colors) by (eapply list_elem_of_lookup_2; exact Hcolor).
    split; [now left|].
    split; [|intros [H|H]; discriminate].
    intros ->. unfold colors in Hin.
    rewrite !elem_of_cons, elem_of_nil in Hin.
    destruct Hin as [H|[H|[H|[H|[H|[]]]]]]; discriminate.
  - eexists. split; [reflexivity|]. split; [now right|]. tauto.
Qed.

End ListPageProperties.

(** ** The invoice editor: loading, editing rows and saving *)

Section EditorLaws.

Import InvoiceDetailPage.
Import Spec.

Lemma orElse_truthy (x d : number) : JS.truthy d = true -> JS.truthy (JS.orElse x d) = true.
Proof. intros Hd. unfold JS.orElse. now destruct (JS.truthy x) eqn:Hx. Qed.

Lemma orElse_not_NaN (x d : number) : JS.isNaN d = false -> JS.isNaN (JS.orElse x d) = false.
Proof. intros Hd. unfold JS.orElse. destruct x; cbn; try exact Hd; reflexivity. Qed.

(** X18: the rows loaded from an invoice are as many as its line items,
    the row at index [i] has the id "item-i", so the ids are distinct, and
    no loaded row has a quantity that is zero or NaN or a rate or an amount
    that is NaN. *)
Theorem loaded_rows_have_distinct_ids (currentInvoice : Invoice.t) :
  let rows := loadLineItems currentInvoice in
  NoDup (map id rows)
  /\ List.length rows
     = match Invoice.line_items currentInvoice with
       | Some items => List.length items
       | None => 0%nat
       end
  /\ forall (index : nat) (row : LineItem),
       rows !! index = Some row ->
       id row = "item-" +:+ pretty index
       /\ JS.truthy (qty row) = true
       /\ JS.isNaN (rate row) = false
       /\ JS.isNaN (amount row) = false.
Proof.
  cbn zeta. unfold loadLineItems.
  destruct (Invoice.line_items currentInvoice) as [[|item items]|].
  { split; [constructor|]. split; [reflexivity|]. intros index row H. inversion H. }
  2:{ split; [constructor|]. split; [reflexivity|]. intros index row H. inversion H. }
  set (l := item :: items).
  set (f := fun (index : nat) (item0 : LineItemData.t) =>
              {| id := "item-" +:+ pretty index;
                 description := JS.strOrElse (Some (LineItemData.description item0)) "";
                 qty := JS.orElse (LineItemData.qty item0) (JS.fromZ 1);
                 rate := JS.orElse (LineItemData.rate item0) JS.zero;
                 amount := JS.orElse (LineItemData.amount item0) JS.zero |}).
  assert (Hrow : forall (index : nat) (row : LineItem),
            imap f l !! index = Some row ->
            id row = "item-" +:+ pretty index
            /\ JS.truthy (qty row) = true
            /\ JS.isNaN (rate row) = false
            /\ JS.isNaN (amount row) = false).
  { intros index row H. rewrite list_lookup_imap in H.
    destruct (l !! index) as [it|]; [|discriminate].
    cbn in H. injection H as <-. unfold f. cbn [id qty rate amount].
    split; [reflexivity|].
    split; [apply orElse_truthy; vm_compute; reflexivity|].
    split; now apply orElse_not_NaN. }
  split; [|split; [apply length_imap|exact Hrow]].
  apply NoDup_alt. intros i j x Hi Hj.
  change (map id (imap f l)) with (id <$> imap f l) in Hi, Hj.
  rewrite list_lookup_fmap in Hi, Hj.
  destruct (imap f l !! i) as [ri|] eqn:Hri; [|discriminate].
  destruct (imap f l !! j) as [rj|] eqn:Hrj; [|discriminate].
  cbn in Hi, Hj.
  destruct (Hrow i ri Hri) as (Hidi & _). destruct (Hrow j rj Hrj) as (Hidj & _).
  assert (Heq : "item-" +:+ pretty i = "item-" +:+ pretty j) by congruence.
  apply (inj (String.append "item-")) in Heq. now apply (inj pretty) in Heq.
Qed.

Lemma updateLineItem_other (id0 field : string) (value : InputValue) (row : LineItem) :
  id row <> id0 ->
  (if String.eqb (id row) id0
   then
     let updated := assign row field value in
     if String.eqb field "qty" || String.eqb field "rate"
     then {| id := id updated; description := description updated;
             qty := qty updated; rate := rate updated;
             amount := JS.mul (qty updated) (rate updated) |}
     else updated
   else row) = row.
Proof. intros Hne. now destruct (String.eqb_spec (id row) id0). Qed.

(** X19: [updateLineItem] keeps the number of rows and leaves every row
    with another id exactly as it was; with an id that no row has it changes
    nothing, and an edit of any field other than the id keeps the ids of all
    rows. *)
Theorem updateLineItem_touches_only_target (id0 field : string) (value : InputValue)
  (lineItems : list LineItem) :
  let edited := updateLineItem id0 field value lineItems in
  List.length edited = List.length lineItems
  /\ (forall (index : nat) (row : LineItem),
        lineItems !! index = Some row -> id row <> id0 ->
        edited !! index = Some row)
  /\ (id0 ∉ map id lineItems -> edited = lineItems)
  /\ (field <> "id" -> map id edited = map id lineItems).
Proof.
  cbn zeta. unfold updateLineItem. split; [apply length_map|]. split; [|split].
  - intros index row Hrow Hne.
    change (map ?f lineItems) with (f <$> lineItems).
    rewrite list_lookup_fmap, Hrow. cbn [fmap option_fmap option_map].
    f_equal. now apply updateLineItem_other.
  - intros Hnot. induction lineItems as [|row rows IH]; [reflexivity|].
    cbn [map] in Hnot |- *. apply not_elem_of_cons in Hnot as [Hne Hnot].
    rewrite updateLineItem_other by congruence. f_equal. now apply IH.
  - intros Hfield. rewrite map_map. apply map_ext. intros row.
    destruct (String.eqb (id row) id0); [|reflexivity].
    cbn zeta.
    assert (Hassign : id (assign row field value) = id row).
    { unfold assign. destruct value as [s|n].
      - destruct (String.eqb_spec field "id"); [contradiction|].
        now destruct (String.eqb field "description").
      - destruct (String.eqb field "qty"); [reflexivity|].
        destruct (String.eqb field "rate"); [reflexivity|].
        now destruct (String.eqb field "amount"). }
    now destruct (String.eqb field "qty" || String.eqb field "rate").
Qed.

Lemma fold_amounts (f : LineItem -> LineItem) (rows : list LineItem) (start : number) :
  (forall row, amount (f row) = amount row) ->
  fold_left (fun sum item => JS.add sum (amount item)) (map f rows) start
  = fold_left (fun sum item => JS.add sum (amount item)) rows start.
Proof.
  intros Hf. revert start. induction rows as [|row rows IH]; intros start; [reflexivity|].
  cbn [map fold_left]. now rewrite Hf, IH.
Qed.

(** X20: typing into the description of a row, or into one of the nine
    text inputs of the form, changes no amount, and so neither the subtotal
    nor the total shown nor the total that is saved. *)
Theorem text_edits_keep_totals (id0 text field : string) (lineItems : list LineItem)
  (invoiceData : InvoiceData) :
  field ∈ ["invoice_number"; "status"; "invoice_date"; "due_date"; "purchase_order";
           "vendor"; "vendor_address"; "vendor_email"; "vendor_phone"] ->
  let edited := updateLineItem id0 "description" (Str text) lineItems in
  let form := handleInputChange field (Str text) invoiceData in
  map amount edited = map amount lineItems
  /\ calculateSubtotal edited = calculateSubtotal lineItems
  /\ calculateTotal edited form = calculateTotal lineItems invoiceData
  /\ InvoiceUpdate.total (updateData edited form)
     = InvoiceUpdate.total (updateData lineItems invoiceData).
Proof.
  intros _. cbn zeta.
  assert (Hrow : forall row : LineItem,
            amount (if String.eqb (id row) id0
                    then
                      let updated := assign row "description" (Str text) in
                      if String.eqb "description" "qty" || String.eqb "description" "rate"
                      then {| id := id updated; description := description updated;
                              qty := qty updated; rate := rate updated;
                              amount := JS.mul (qty updated) (rate updated) |}
                      else updated
                    else row) = amount row).
  { intros row. now destruct (String.eqb (id row) id0). }
  assert (Hsub : calculateSubtotal (updateLineItem id0 "description" (Str text) lineItems)
                 = calculateSubtotal lineItems).
  { unfold calculateSubtotal, updateLineItem. now apply fold_amounts. }
  assert (Htax : tax (handleInputChange field (Str text) invoiceData) = tax invoiceData)
    by reflexivity.
  assert (Hdisc : discount (handleInputChange field (Str text) invoiceData)
                  = discount invoiceData) by reflexivity.
  assert (Htot : calculateTotal (updateLineItem id0 "description" (Str text) lineItems)
                   (handleInputChange field (Str text) invoiceData)
                 = calculateTotal lineItems invoiceData).
  { unfold calculateTotal. cbn zeta. now rewrite Hsub, Htax, Hdisc. }
  split; [|split; [exact Hsub|split; [exact Htot|]]].
  - unfold updateLineItem. rewrite map_map. apply map_ext. exact Hrow.
  - unfold updateData. cbn [InvoiceUpdate.total]. now rewrite Htot.
Qed.

Lemma text_edits_keep_totals_witness :
  calculateSubtotal
    (updateLineItem "item-0" "description" (Str "Paper")
       [Examples.row "item-0" (JS.fromZ 2) (JS.fromZ 3) (JS.fromZ 6)])
  = calculateSubtotal [Examples.row "item-0" (JS.fromZ 2) (JS.fromZ 3) (JS.fromZ 6)].
Proof.
  refine (proj1 (proj2 (text_edits_keep_totals "item-0" "Paper" "vendor"
                          [Examples.row "item-0" (JS.fromZ 2) (JS.fromZ 3) (JS.fromZ 6)]
                          initialInvoiceData _))).
  do 5 right. left.
Defined.

(** X21: the editor saves totals computed from its rows, not the totals
    it loaded: for an invoice without line items, saving what was loaded
    sends a subtotal of 0, an empty list of line items and a total of
    0 + tax - discount, whatever subtotal and total the invoice had. *)
Theorem saving_without_rows_resets_totals (currentInvoice : Invoice.t) :
  Invoice.line_items currentInvoice = None \/ Invoice.line_items currentInvoice = Some [] ->
  let saved := updateData (loadLineItems currentInvoice) (loadInvoiceData currentInvoice) in
  InvoiceUpdate.subtotal saved = Some JS.zero
  /\ InvoiceUpdate.line_items saved = Some []
  /\ InvoiceUpdate.total saved
     = Some (JS.sub (JS.add JS.zero (JS.orElse (Invoice.tax currentInvoice) JS.zero))
               (JS.orElse (Invoice.discount currentInvoice) JS.zero)).
Proof.
  intros Hrows. cbn zeta. unfold loadLineItems.
  destruct Hrows as [-> | ->]; repeat split.
Qed.

Lemma saving_without_rows_resets_totals_witness :
  InvoiceUpdate.subtotal
    (updateData (loadLineItems (Examples.invoice "a" (JS.fromZ 100)))
       (loadInvoiceData (Examples.invoice "a" (JS.fromZ 100))))
  = Some JS.zero.
Proof.
  refine (proj1 (saving_without_rows_resets_totals
                   (Examples.invoice "a" (JS.fromZ 100)) _)).
  left. reflexivity.
Defined.

Lemma emptyToNull_strOrElse (x : option string) :
  emptyToNull (JS.strOrElse x "") = JS.strOr x None.
Proof. destruct x as [[|c s]|]; reflexivity. Qed.

Lemma beforeT_idempotent (s : string) : beforeT (beforeT s) = beforeT s.
Proof.
  induction s as [|c s IH]; [reflexivity|].
  cbn [beforeT]. destruct (Ascii.eqb c "T") eqn:Hc; [reflexivity|].
  cbn [beforeT]. now rewrite Hc, IH.
Qed.

(** A date that was saved loads as itself. *)
Lemma dateInput_stable (d : option string) (v : string) :
  emptyToNull (dateInput d) = Some v -> dateInput (Some v) = v.
Proof.
  unfold emptyToNull. destruct (String.eqb_spec (dateInput d) ""); [discriminate|].
  intros [= <-]. unfold dateInput at 1.
  assert (Ht : JS.strTruthy (dateInput d) = true) by now apply strTruthy_true.
  rewrite Ht. unfold dateInput. destruct d as [w|]; [|reflexivity].
  destruct (JS.strTruthy w); [apply beforeT_idempotent|reflexivity].
Qed.

(** X22: loading an invoice into the form and saving it sends each of the
    six text fields as it was, with the empty string turned into null; a
    date that is sent is one that loads as itself (the part before the
    first "T"); an empty status is sent as "Pending Review" and any other
    status as it was; tax and discount are sent unchanged. *)
Theorem load_then_save_normalises (currentInvoice : Invoice.t) (lineItems : list LineItem) :
  let saved := updateData lineItems (loadInvoiceData currentInvoice) in
  [InvoiceUpdate.invoice_number saved; InvoiceUpdate.purchase_order saved;
   InvoiceUpdate.vendor saved; InvoiceUpdate.vendor_address saved;
   InvoiceUpdate.vendor_email saved; InvoiceUpdate.vendor_phone saved]
  = map (fun field => JS.strOr field None)
      [Invoice.invoice_number currentInvoice; Invoice.purchase_order currentInvoice;
       Invoice.vendor currentInvoice; Invoice.vendor_address currentInvoice;
       Invoice.vendor_email currentInvoice; Invoice.vendor_phone currentInvoice]
  /\ InvoiceUpdate.invoice_date saved
     = emptyToNull (dateInput (Invoice.invoice_date currentInvoice))
  /\ InvoiceUpdate.due_date saved
     = emptyToNull (dateInput (Invoice.due_date currentInvoice))
  /\ (forall v : string,
        InvoiceUpdate.invoice_date saved = Some v \/ InvoiceUpdate.due_date saved = Some v ->
        dateInput (Some v) = v)
  /\ InvoiceUpdate.status saved
     = Some (if String.eqb (Invoice.status currentInvoice) "" then "Pending Review"
             else Invoice.status currentInvoice)
  /\ InvoiceUpdate.tax saved = Some (Invoice.tax currentInvoice)
  /\ InvoiceUpdate.discount saved = Some (Invoice.discount currentInvoice).
Proof.
  cbn zeta. unfold updateData, loadInvoiceData.
  cbn [InvoiceUpdate.invoice_number InvoiceUpdate.purchase_order InvoiceUpdate.vendor
       InvoiceUpdate.vendor_address InvoiceUpdate.vendor_email
       InvoiceUpdate.vendor_phone InvoiceUpdate.invoice_date InvoiceUpdate.due_date
       InvoiceUpdate.status InvoiceUpdate.tax InvoiceUpdate.discount
       invoice_number purchase_order vendor vendor_address vendor_email vendor_phone
       invoice_date due_date status tax discount map].
  rewrite !emptyToNull_strOrElse.
  split; [reflexivity|]. split; [reflexivity|]. split; [reflexivity|].
  split; [intros v [H|H]; exact (dateInput_stable _ _ H)|].
  split; [|split; reflexivity].
  destruct (Invoice.status currentInvoice); reflexivity.
Qed.

(** X23: [removeLineItem] keeps exactly the rows with another id, in
    their order; removing the same id again changes nothing; an id that no
    row has leaves the rows as they are; and when the ids are distinct,
    removing an id that is there makes the table one row shorter. *)
Theorem removeLineItem_removes_exactly (id0 : string) (lineItems : list LineItem) :
  let rest := removeLineItem id0 lineItems in
  (forall row : LineItem, row ∈ rest <-> row ∈ lineItems /\ id row <> id0)
  /\ sublist rest lineItems
  /\ removeLineItem id0 rest = rest
  /\ (id0 ∉ map id lineItems -> rest = lineItems)
  /\ (NoDup (map id lineItems) -> id0 ∈ map id lineItems ->
      S (List.length rest) = List.length lineItems).
Proof.
  cbn zeta. unfold removeLineItem. split; [|split; [|split; [|split]]].
  - intros row. rewrite list_elem_of_filter. tauto.
  - apply sublist_filter.
  - apply list_filter_filter_l. tauto.
  - intros Hnot. apply filter_all, Forall_forall. intros row Hrow Heq.
    apply Hnot, list_elem_of_fmap. now exists row.
  - induction lineItems as [|row rows IH]; intros Hnd Hin; [inversion Hin|].
    cbn [map] in Hnd, Hin. apply NoDup_cons in Hnd as [Hrow Hnd].
    rewrite filter_cons.
    destruct (decide (id row <> id0)) as [Hne|Heq].
    + cbn [List.length]. f_equal. apply IH; [exact Hnd|].
      apply elem_of_cons in Hin as [Hin|Hin]; [congruence|exact Hin].
    + assert (Hid : id row = id0) by (destruct (decide (id row = id0)); tauto).
      cbn [List.length]. f_equal. f_equal.
      apply filter_all, Forall_forall. intros other Hother Hsame.
      apply Hrow, list_elem_of_fmap. exists other. split; [congruence|exact Hother].
Qed.

Lemma no_dash_cons (c : ascii) (s : string) :
  c <> "-"%char -> (forall t u : string, s <> t +:+ "-" +:+ u) ->
  forall t u : string, String c s <> t +:+ "-" +:+ u.
Proof.
  intros Hc Hs [|c' t] u Heq.
  - apply Hc. now injection Heq.
  - injection Heq as _ Heq. now apply (Hs t u).
Qed.

Lemma pretty_N_go_no_dash (x : N) (s : string) :
  (forall t u : string, s <> t +:+ "-" +:+ u) ->
  forall t u : string, pretty_N_go x s <> t +:+ "-" +:+ u.
Proof.
  revert s. induction (N.lt_wf_0 x) as [x _ IH]; intros s Hs.
  destruct (N.eq_dec x 0%N) as [->|Hx]; [now rewrite pretty_N_go_0|].
  rewrite pretty_N_go_step by lia. apply IH.
  - apply N.div_lt; lia.
  - apply no_dash_cons; [|exact Hs].
    unfold pretty_N_char. repeat case_match; discriminate.
Qed.

(** The decimal numeral of a natural number holds no "-". *)
Lemma pretty_nat_no_dash (n : nat) (t u : string) : pretty n <> t +:+ "-" +:+ u.
Proof.
  unfold pretty, pretty_nat, pretty, pretty_N.
  destruct (decide (N.of_nat n = 0%N)).
  - apply no_dash_cons; [discriminate|]. intros [|c t'] u'; discriminate.
  - apply pretty_N_go_no_dash. intros [|c t'] u'; discriminate.
Qed.

(** X24: [addLineItem] appends one row and leaves the rows before it as
    they were; the id of the new row, "item-<length>-<suffix>", differs from
    every id "item-<index>" that loading gives; and when no row has that id
    yet, removing it gives back the rows as they were before the add. *)
Theorem added_row_is_new_and_removable (suffix : string) (lineItems : list LineItem) :
  let added := addLineItem suffix lineItems in
  let newId := "item-" +:+ pretty (List.length lineItems) +:+ "-" +:+ suffix in
  List.length added = S (List.length lineItems)
  /\ (forall (index : nat) (row : LineItem),
        lineItems !! index = Some row -> added !! index = Some row)
  /\ (exists row : LineItem,
        added !! List.length lineItems = Some row /\ id row = newId)
  /\ (forall index : nat, newId <> "item-" +:+ pretty index)
  /\ (newId ∉ map id lineItems -> removeLineItem newId added = lineItems).
Proof.
  cbn zeta. unfold addLineItem. cbn zeta.
  split; [rewrite length_app; cbn; lia|].
  split; [intros index row Hrow; now apply lookup_app_l_Some|].
  split.
  { eexists. split.
    - rewrite lookup_app_r by lia. rewrite Nat.sub_diag. reflexivity.
    - reflexivity. }
  split.
  { intros index Heq. apply (inj (String.append "item-")) in Heq.
    symmetry in Heq. now apply pretty_nat_no_dash in Heq. }
  intros Hfresh. unfold removeLineItem. rewrite filter_app, filter_cons.
  cbn [id].
  destruct (decide ("item-" +:+ pretty (List.length lineItems) +:+ "-" +:+ suffix
                    <> "item-" +:+ pretty (List.length lineItems) +:+ "-" +:+ suffix));
    [congruence|].
  rewrite filter_nil, app_nil_r.
  apply filter_all, Forall_forall. intros row Hrow Heq.
  apply Hfresh, list_elem_of_fmap. now exists row.
Qed.

Lemma add_zero_sameNumber (x : number) : sameNumber (JS.add x JS.zero) x.
Proof.
  destruct x as [s|s| |s m e]; cbn.
  - destruct s; apply sameNumber_zeros.
  - apply sameNumber_refl.
  - apply sameNumber_refl.
  - apply sameNumber_refl.
Qed.

(** X25: adding a row changes neither the subtotal nor the total (they
    stay the same number, the sign of a zero apart), and the row that is
    added, 1 x 0 = 0, is consistent. *)
Theorem blank_row_keeps_totals (suffix : string) (lineItems : list LineItem)
  (invoiceData : InvoiceData) :
  sameNumber (calculateSubtotal (addLineItem suffix lineItems))
    (calculateSubtotal lineItems)
  /\ sameNumber (calculateTotal (addLineItem suffix lineItems) invoiceData)
       (calculateTotal lineItems invoiceData)
  /\ lineItemConsistent
       {| id := "item-" +:+ pretty (List.length lineItems) +:+ "-" +:+ suffix;
          description := ""; qty := JS.fromZ 1; rate := JS.zero; amount := JS.zero |}
     = true.
Proof.
  assert (Hsub : sameNumber (calculateSubtotal (addLineItem suffix lineItems))
                   (calculateSubtotal lineItems)).
  { unfold calculateSubtotal, addLineItem. cbn zeta.
    rewrite fold_left_app. cbn [fold_left amount]. apply add_zero_sameNumber. }
  split; [exact Hsub|]. split.
  - unfold calculateTotal. cbn zeta.
    apply sub_sameNumber; [|apply sameNumber_refl].
    apply add_sameNumber; [exact Hsub|apply sameNumber_refl].
  - vm_compute. reflexivity.
Qed.

End EditorLaws.

(** ** The session: stored tokens, the store of the session and the
    protected route *)

Section SessionProperties.

Import LocalStorage.

Lemma tokens_removed (storage : LocalStorage.t) :
  let storage' := removeItem "refresh_token" (removeItem "access_token" storage) in
  getItem "access_token" storage' = None
  /\ getItem "refresh_token" storage' = None
  /\ forall key : string,
       key <> "access_token" -> key <> "refresh_token" ->
       getItem key storage' = getItem key storage.
Proof.
  cbn zeta. unfold getItem, removeItem, LocalStorage.t in *. split; [|split].
  - rewrite lookup_delete_ne by discriminate. apply lookup_delete_eq.
  - apply lookup_delete_eq.
  - intros key Ha Hr. now rewrite !lookup_delete_ne by congruence.
Qed.

(** The response interceptor writes to no key but the two tokens, and to
    none at all unless the status is 401. *)
Lemma intercept_frame {A : Type} (reply : ApiClient.Reply A) (storage : LocalStorage.t)
  (key : string) :
  key <> "access_token" -> key <> "refresh_token" ->
  getItem key (ApiClient.intercept reply storage) = getItem key storage.
Proof.
  intros Ha Hr. unfold ApiClient.intercept.
  destruct reply as [data|status|]; try reflexivity.
  destruct (Z.eq_dec status 401) as [->|Hne].
  - now apply tokens_removed.
  - destruct status as [|p|p]; try reflexivity.
    repeat (destruct p as [p|p|]; try reflexivity). congruence.
Qed.

Lemma intercept_not_401 {A : Type} (reply : ApiClient.Reply A) (storage : LocalStorage.t) :
  reply <> ApiClient.ErrorStatus 401 -> ApiClient.intercept reply storage = storage.
Proof.
  intros Hne. unfold ApiClient.intercept.
  destruct reply as [data|status|]; try reflexivity.
  destruct status as [|p|p]; try reflexivity.
  repeat (destruct p as [p|p|]; try reflexivity). congruence.
Qed.

(** X26: however the logout request ends, and whatever the session was,
    after [logoutAsync] neither token is in [localStorage] (its other keys
    are untouched), the store has no user, no tokens and is not
    authenticated, and the next request carries no [Authorization] header.
    A protected route that mounts afterwards renders nothing and redirects
    to "/login".  A protected route that was on screen keeps the [hasToken]
    it read when it mounted: whatever that is, the route redirects to
    "/login" and does not render its children; with [hasToken] true it shows
    the spinner and dispatches [fetchCurrentUser] once more, with [hasToken]
    false it renders nothing. *)
Theorem logout_always_ends_session (reply : ApiClient.Reply unit)
  (session : AuthSlice.Session) :
  let session' := AuthSlice.dispatchLogout reply session in
  getItem "access_token" (fst session') = None
  /\ getItem "refresh_token" (fst session') = None
  /\ (forall key : string,
        key <> "access_token" -> key <> "refresh_token" ->
        getItem key (fst session') = getItem key (fst session))
  /\ snd session'
     = {| AuthSlice.user := None; AuthSlice.token := None;
          AuthSlice.refreshToken := None; AuthSlice.loading := false;
          AuthSlice.error := AuthSlice.error (snd session);
          AuthSlice.isAuthenticated := false |}
  /\ ApiClient.authorization (fst session') = None
  /\ ProtectedRoute.render (ProtectedRoute.mounted true session') = ProtectedRoute.nothing
  /\ ProtectedRoute.redirect (ProtectedRoute.mounted true session') = Some "/login"
  /\ forall hasToken : bool,
       let onScreen :=
         {| ProtectedRoute.requireAuth := true; ProtectedRoute.auth := snd session';
            ProtectedRoute.isMounted := true; ProtectedRoute.hasToken := hasToken |} in
       ProtectedRoute.redirect onScreen = Some "/login"
       /\ ProtectedRoute.render onScreen
          = (if hasToken then ProtectedRoute.spinner else ProtectedRoute.nothing)
       /\ ProtectedRoute.fetchesUser onScreen = hasToken.
Proof.
  cbn zeta. unfold AuthSlice.dispatchLogout. cbn [fst snd]. unfold AuthApi.logout.
  cbn zeta.
  pose proof (tokens_removed (ApiClient.intercept reply (fst session)))
    as (Ha & Hr & Hframe).
  cbn zeta in Ha, Hr, Hframe.
  split; [exact Ha|]. split; [exact Hr|].
  split.
  { intros key Hka Hkr. rewrite Hframe by assumption. now apply intercept_frame. }
  split; [reflexivity|].
  split; [unfold ApiClient.authorization; now rewrite Ha|].
  unfold ProtectedRoute.render, ProtectedRoute.redirect, ProtectedRoute.fetchesUser,
    ProtectedRoute.mounted, ProtectedRoute.loading, ProtectedRoute.hasUser,
    ProtectedRoute.authState.
  cbn [ProtectedRoute.isMounted ProtectedRoute.hasToken ProtectedRoute.requireAuth
       ProtectedRoute.auth fst snd].
  unfold AuthApi.isAuthenticated, AuthApi.getStoredToken. rewrite Ha.
  split; [reflexivity|]. split; [reflexivity|].
  intros [|]; repeat split.
Qed.

(** X27: after a login or a token refresh that the back end answers with
    tokens, the store and [localStorage] hold the same two tokens, those of
    the answer, and the store is authenticated and no longer loading; the
    next request carries "Bearer <access token>", unless the access token is
    the empty string, in which case it carries no header and
    [isAuthenticated()] of the service is false although the store says
    authenticated. *)
Theorem new_tokens_reach_store_and_storage (data : AuthApi.TokenResponse)
  (err : InvoiceSlice.SerializedError) (session : AuthSlice.Session) :
  Forall (fun session' : AuthSlice.Session =>
            AuthSlice.token (snd session') = Some (AuthApi.access_token data)
            /\ AuthSlice.refreshToken (snd session') = Some (AuthApi.refresh_token data)
            /\ AuthApi.getStoredToken true (fst session') = AuthSlice.token (snd session')
            /\ AuthApi.getStoredRefreshToken true (fst session')
               = AuthSlice.refreshToken (snd session')
            /\ AuthSlice.isAuthenticated (snd session') = true
            /\ AuthSlice.loading (snd session') = false
            /\ AuthApi.isAuthenticated true (fst session')
               = JS.strTruthy (AuthApi.access_token data)
            /\ ApiClient.authorization (fst session')
               = if JS.strTruthy (AuthApi.access_token data)
                 then Some ("Bearer " +:+ AuthApi.access_token data) else None)
    [AuthSlice.dispatchLogin (ApiClient.Resolved data) err session;
     AuthSlice.dispatchRefreshToken (ApiClient.Resolved data) err session].
Proof.
  assert (Ha : getItem "access_token" (AuthApi.storeTokens data (fst session))
               = Some (AuthApi.access_token data)).
  { unfold AuthApi.storeTokens, getItem, setItem, LocalStorage.t in *.
    rewrite lookup_insert_ne by discriminate. apply lookup_insert_eq. }
  assert (Hr : getItem "refresh_token" (AuthApi.storeTokens data (fst session))
               = Some (AuthApi.refresh_token data)).
  { unfold AuthApi.storeTokens, getItem, setItem, LocalStorage.t in *.
    apply lookup_insert_eq. }
  repeat constructor;
    cbn [AuthSlice.dispatchLogin AuthSlice.dispatchRefreshToken AuthApi.login
         AuthApi.refreshToken ApiClient.intercept fst snd AuthSlice.reducer
         AuthSlice.onTokens AuthSlice.token AuthSlice.refreshToken
         AuthSlice.isAuthenticated AuthSlice.loading];
    unfold AuthApi.isAuthenticated, ApiClient.authorization, AuthApi.getStoredToken,
      AuthApi.getStoredRefreshToken;
    rewrite ?Ha, ?Hr; reflexivity.
Qed.

(** X28: a reply with status 401 to [login], [refreshToken] or
    [getCurrentUser] makes the call fail and removes both tokens from
    [localStorage] (and nothing else) while the browser is sent to "/login";
    the store that the reloaded page starts from has no tokens and is not
    authenticated, the next request carries no [Authorization] header, and a
    protected route redirects to "/login". *)
Theorem unauthorized_reply_ends_session (storage : LocalStorage.t) :
  let storage' := ApiClient.intercept (@ApiClient.ErrorStatus unit 401) storage in
  AuthApi.login (ApiClient.ErrorStatus 401) storage = (storage', None)
  /\ AuthApi.refreshToken (ApiClient.ErrorStatus 401) storage = (storage', None)
  /\ AuthApi.getCurrentUser (ApiClient.ErrorStatus 401) storage = (storage', None)
  /\ ApiClient.location (@ApiClient.ErrorStatus unit 401) = Some "/login"
  /\ ApiClient.authorization storage' = None
  /\ AuthSlice.initialState true storage'
     = {| AuthSlice.user := None; AuthSlice.token := None;
          AuthSlice.refreshToken := None; AuthSlice.loading := false;
          AuthSlice.error := None; AuthSlice.isAuthenticated := false |}
  /\ ProtectedRoute.redirect
       (ProtectedRoute.mounted true (storage', AuthSlice.initialState true storage'))
     = Some "/login"
  /\ (forall key : string,
        key <> "access_token" -> key <> "refresh_token" ->
        getItem key storage' = getItem key storage).
Proof.
  cbn zeta. cbn [ApiClient.intercept].
  pose proof (tokens_removed storage) as (Ha & Hr & Hframe). cbn zeta in Ha, Hr, Hframe.
  split; [reflexivity|]. split; [reflexivity|]. split; [reflexivity|].
  split; [reflexivity|].
  split; [unfold ApiClient.authorization; now rewrite Ha|].
  assert (Hinit : AuthSlice.initialState true
                    (removeItem "refresh_token" (removeItem "access_token" storage))
                  = {| AuthSlice.user := None; AuthSlice.token := None;
                       AuthSlice.refreshToken := None; AuthSlice.loading := false;
                       AuthSlice.error := None; AuthSlice.isAuthenticated := false |}).
  { unfold AuthSlice.initialState, AuthApi.isAuthenticated, AuthApi.getStoredToken,
      AuthApi.getStoredRefreshToken. now rewrite Ha, Hr. }
  split; [exact Hinit|]. split; [|exact Hframe].
  unfold ProtectedRoute.redirect, ProtectedRoute.mounted, ProtectedRoute.loading,
    ProtectedRoute.authState.
  cbn [ProtectedRoute.isMounted ProtectedRoute.hasToken ProtectedRoute.requireAuth
       ProtectedRoute.auth fst snd].
  rewrite Hinit. unfold AuthApi.isAuthenticated, AuthApi.getStoredToken.
  now rewrite Ha.
Qed.

(** X29: when [fetchCurrentUser] fails with anything but a 401 (another
    error status, or no response) while a token is stored and no user is
    loaded, [localStorage] keeps the token although the store drops its
    tokens and says not authenticated; a protected route then shows the
    spinner, redirects to "/login" and dispatches [fetchCurrentUser]
    again. *)
Theorem failed_profile_fetch_keeps_stored_token (reply : ApiClient.Reply AuthApi.User)
  (err : InvoiceSlice.SerializedError) (session : AuthSlice.Session) (token : string) :
  reply <> ApiClient.ErrorStatus 401 ->
  (forall data : AuthApi.User, reply <> ApiClient.Resolved data) ->
  getItem "access_token" (fst session) = Some token -> token <> "" ->
  AuthSlice.user (snd session) = None ->
  let session' := AuthSlice.dispatchFetchCurrentUser reply err session in
  fst session' = fst session
  /\ AuthApi.isAuthenticated true (fst session') = true
  /\ AuthSlice.token (snd session') = None
  /\ AuthSlice.isAuthenticated (snd session') = false
  /\ ProtectedRoute.render (ProtectedRoute.mounted true session') = ProtectedRoute.spinner
  /\ ProtectedRoute.redirect (ProtectedRoute.mounted true session') = Some "/login"
  /\ ProtectedRoute.fetchesUser (ProtectedRoute.mounted true session') = true.
Proof.
  intros H401 Hfail Htoken Hne Huser. cbn zeta.
  unfold AuthSlice.dispatchFetchCurrentUser, AuthApi.getCurrentUser. cbn zeta.
  rewrite (intercept_not_401 reply _ H401).
  assert (Hauth : AuthApi.isAuthenticated true (fst session) = true).
  { unfold AuthApi.isAuthenticated, AuthApi.getStoredToken. rewrite Htoken.
    now apply strTruthy_true. }
  destruct reply as [data|status|]; [now destruct (Hfail data)| |];
    cbn [fst snd AuthSlice.reducer AuthSlice.onRejected AuthSlice.onPending
         AuthSlice.token AuthSlice.isAuthenticated];
    (split; [reflexivity|]); (split; [exact Hauth|]);
    (split; [reflexivity|]); (split; [reflexivity|]);
    unfold ProtectedRoute.render, ProtectedRoute.redirect, ProtectedRoute.fetchesUser,
      ProtectedRoute.mounted, ProtectedRoute.loading, ProtectedRoute.hasUser,
      ProtectedRoute.authState;
    cbn [ProtectedRoute.isMounted ProtectedRoute.hasToken ProtectedRoute.requireAuth
         ProtectedRoute.auth fst snd AuthSlice.user AuthSlice.loading
         AuthSlice.isAuthenticated];
    unfold AuthSlice.onPending; cbn [AuthSlice.user];
    rewrite Hauth, Huser; repeat split.
Qed.

Lemma failed_profile_fetch_keeps_stored_token_witness :
  AuthApi.isAuthenticated true
    (fst (AuthSlice.dispatchFetchCurrentUser ApiClient.NoResponse
            {| InvoiceSlice.message := None |}
            (setItem "access_token" "t" ∅,
             AuthSlice.initialState true (setItem "access_token" "t" ∅)))) = true.
Proof.
  refine (proj1 (proj2 (failed_profile_fetch_keeps_stored_token ApiClient.NoResponse
                          {| InvoiceSlice.message := None |}
                          (setItem "access_token" "t" ∅,
                           AuthSlice.initialState true (setItem "access_token" "t" ∅))
                          "t" _ _ _ _ _))).
  - discriminate.
  - discriminate.
  - reflexivity.
  - discriminate.
  - reflexivity.
Defined.

(** X30: whenever the protected route renders nothing it also redirects;
    on a route that requires authentication, the children are rendered
    without a redirect only when a token is stored, the user is loaded and
    the store says authenticated, and a mounted route without a stored token
    always redirects to "/login"; on a public route, children that are
    rendered are never redirected away. *)
Theorem protected_route_guards (v : ProtectedRoute.View) :
  (ProtectedRoute.render v = ProtectedRoute.nothing ->
   exists path : string, ProtectedRoute.redirect v = Some path)
  /\ (ProtectedRoute.requireAuth v = true ->
      ProtectedRoute.render v = ProtectedRoute.children ->
      ProtectedRoute.redirect v = None ->
      ProtectedRoute.hasToken v = true /\ ProtectedRoute.hasUser v = true
      /\ ProtectedRoute.authState v = true)
  /\ (ProtectedRoute.requireAuth v = true ->
      ProtectedRoute.hasToken v = false -> ProtectedRoute.isMounted v = true ->
      ProtectedRoute.redirect v = Some "/login")
  /\ (ProtectedRoute.requireAuth v = false ->
      ProtectedRoute.render v = ProtectedRoute.children ->
      ProtectedRoute.redirect v = None).
Proof.
  unfold ProtectedRoute.render, ProtectedRoute.redirect.
  destruct (ProtectedRoute.isMounted v), (ProtectedRoute.loading v),
    (ProtectedRoute.hasToken v), (ProtectedRoute.hasUser v),
    (ProtectedRoute.requireAuth v), (ProtectedRoute.authState v); cbn;
    repeat split; intros; try discriminate; try reflexivity; eauto.
Qed.

End SessionProperties.
